(** * my-finance-app: the aggregation engine and the recurring-bill resolver

    A shallow embedding of the logic of [src/App.js]: the handlers
    ([handleAddIncome], [handleAddExpense], [handleAddRecurringTemplate],
    [handleMarkPaid], [handleDelete]) and the derived values
    ([avgMonthlyIncome], [totalMonthlyDues], [getPaidAmount],
    [remainingToPay], [paymentProgress], [filteredTransactions]).

    Conventions of the model.
    - A JavaScript [Date] is its time value: milliseconds since the epoch,
      an integer; [None] stands for the NaN time value (Invalid Date).
      The calendar arithmetic is the one of ECMA-262 (Day, YearFromTime,
      MonthFromTime, DateFromTime, WeekDay, MakeDay, MakeDate, TimeClip).
    - The host time zone is a constant offset [tza] in milliseconds
      (LocalTime t = t + tza), which is exact for zones without daylight
      saving such as Asia/Manila (tza = 8 h), the zone of the application's
      locale.
    - Amounts are JavaScript numbers.  A record holds the exact value of
      its double, a rational ([Q]).  The averages are computed in the
      arithmetic of numbers ([JSNumber]: IEEE 754 binary64, every
      operation rounded to nearest, ties to even, with the infinities and
      NaN; the two zeros are not told apart).  The sums behind the total
      dues, the paid amount and the report totals are taken over the
      rationals: what is proved of them does not rest on the rounding.
    - [useMemo] is modelled with its cache ([Memo]): a memoised value is
      computed again only when one of its dependencies is not the same
      as in the previous render, and an array is the same only if it is
      the same object.
    - The Firestore collections are outside the repository: the handlers
      return the requests they send, and [Store] below applies them. *)

From Stdlib Require Import ZArith QArith List String Ascii Bool Lia Lqa.
From Stdlib Require Import Qround Qpower Qabs Qreduction.
From Stdlib Require Import PrimFloat FloatOps SpecFloat.
From Stdlib Require Import DecimalString DecimalN DecimalPos.
Import ListNotations.

Open Scope Z_scope.

(** ** ECMA-262 date arithmetic *)

Module JSDate.

Definition msPerDay : Z := 86400000.
Definition msPerHour : Z := 3600000.
Definition msPerMinute : Z := 60000.
Definition msPerSecond : Z := 1000.

Definition Day (t : Z) : Z := t / msPerDay.
Definition TimeWithinDay (t : Z) : Z := t mod msPerDay.

Definition DaysInYear (y : Z) : Z :=
  if negb (y mod 4 =? 0) then 365
  else if negb (y mod 100 =? 0) then 366
  else if negb (y mod 400 =? 0) then 365
  else 366.

Definition DayFromYear (y : Z) : Z :=
  365 * (y - 1970) + (y - 1969) / 4 - (y - 1901) / 100 + (y - 1601) / 400.

Definition TimeFromYear (y : Z) : Z := msPerDay * DayFromYear y.

(** ECMA-262 defines YearFromTime(t) as the largest [y] with
    [TimeFromYear y <= t].  It is computed here from the mean length of a
    Gregorian year (146097 days in 400 years), corrected by one year either
    way; [YearFromTime_spec] below shows that this is the year of the
    standard. *)
Definition YearFromTime (t : Z) : Z :=
  let d := Day t in
  let y0 := 1970 + (400 * d) / 146097 in
  if DayFromYear (y0 + 1) <=? d then y0 + 1
  else if d <? DayFromYear y0 then y0 - 1
  else y0.

Definition InLeapYear (t : Z) : Z :=
  if DaysInYear (YearFromTime t) =? 366 then 1 else 0.

Definition DayWithinYear (t : Z) : Z := Day t - DayFromYear (YearFromTime t).

Definition MonthFromTime (t : Z) : Z :=
  let d := DayWithinYear t in
  let l := InLeapYear t in
  if d <? 31 then 0
  else if d <? 59 + l then 1
  else if d <? 90 + l then 2
  else if d <? 120 + l then 3
  else if d <? 151 + l then 4
  else if d <? 181 + l then 5
  else if d <? 212 + l then 6
  else if d <? 243 + l then 7
  else if d <? 273 + l then 8
  else if d <? 304 + l then 9
  else if d <? 334 + l then 10
  else 11.

Definition DateFromTime (t : Z) : Z :=
  let d := DayWithinYear t in
  let l := InLeapYear t in
  let m := MonthFromTime t in
  if m =? 0 then d + 1
  else if m =? 1 then d - 30
  else if m =? 2 then d - 58 - l
  else if m =? 3 then d - 89 - l
  else if m =? 4 then d - 119 - l
  else if m =? 5 then d - 150 - l
  else if m =? 6 then d - 180 - l
  else if m =? 7 then d - 211 - l
  else if m =? 8 then d - 242 - l
  else if m =? 9 then d - 272 - l
  else if m =? 10 then d - 303 - l
  else d - 333 - l.

(** Sunday is 0. *)
Definition WeekDay (t : Z) : Z := (Day t + 4) mod 7.

Definition MakeTime (hour min sec ms : Z) : Z :=
  hour * msPerHour + min * msPerMinute + sec * msPerSecond + ms.

(** Days from the first of January to the first of month [mn] (0..11) in a
    year that is a leap year or not ([l] is 1 or 0). *)
Definition DaysBeforeMonth (mn l : Z) : Z :=
  if mn =? 0 then 0
  else if mn =? 1 then 31
  else if mn =? 2 then 59 + l
  else if mn =? 3 then 90 + l
  else if mn =? 4 then 120 + l
  else if mn =? 5 then 151 + l
  else if mn =? 6 then 181 + l
  else if mn =? 7 then 212 + l
  else if mn =? 8 then 243 + l
  else if mn =? 9 then 273 + l
  else if mn =? 10 then 304 + l
  else 334 + l.

Definition DaysInMonth (ym mn : Z) : Z :=
  let l := if DaysInYear ym =? 366 then 1 else 0 in
  if mn =? 1 then 28 + l
  else if (mn =? 3) || (mn =? 5) || (mn =? 8) || (mn =? 10) then 30
  else 31.

(** MakeDay: the day number of the first of month [month mod 12] of year
    [year + month / 12], moved by [date - 1] days. *)
Definition MakeDay (year month date : Z) : Z :=
  let ym := year + month / 12 in
  let mn := month mod 12 in
  let l := if DaysInYear ym =? 366 then 1 else 0 in
  DayFromYear ym + DaysBeforeMonth mn l + date - 1.

Definition MakeDate (day time : Z) : Z := day * msPerDay + time.

(** A time value outside of +-8.64e15 ms is NaN. *)
Definition TimeClip (t : Z) : option Z :=
  if Z.abs t <=? 8640000000000000 then Some t else None.

Section Zone.

(** The offset of local time from UTC, in milliseconds. *)
Variable tza : Z.

Definition LocalTime (t : Z) : Z := t + tza.
Definition UTC (t : Z) : Z := t - tza.

(** [Date.prototype.getFullYear] and friends, on a valid time value. *)
Definition getFullYear (t : Z) : Z := YearFromTime (LocalTime t).
Definition getMonth (t : Z) : Z := MonthFromTime (LocalTime t).
Definition getDate (t : Z) : Z := DateFromTime (LocalTime t).
Definition getDay (t : Z) : Z := WeekDay (LocalTime t).

(** [new Date(year, month, date)]: years 0..99 mean 1900..1999. *)
Definition Date_ymd (year month date : Z) : option Z :=
  let yr := if (0 <=? year) && (year <=? 99) then 1900 + year else year in
  TimeClip (UTC (MakeDate (MakeDay yr month date) (MakeTime 0 0 0 0))).

(** [d.setDate(dt)]: the new time value, which is stored in [d] and
    returned.  The time within the day is kept. *)
Definition setDate (t : Z) (dt : Z) : option Z :=
  let lt := LocalTime t in
  TimeClip (UTC (MakeDate (MakeDay (YearFromTime lt) (MonthFromTime lt) dt)
                          (TimeWithinDay lt))).

(** [d.setHours(h, m, s, ms)]. *)
Definition setHours (t : Z) (h m s ms : Z) : option Z :=
  let lt := LocalTime t in
  TimeClip (UTC (MakeDate (Day lt) (MakeTime h m s ms))).

End Zone.

(** *** Date strings *)

Local Open Scope string_scope.

Definition HourFromTime (t : Z) : Z := (t / msPerHour) mod 24.
Definition MinFromTime (t : Z) : Z := (t / msPerMinute) mod 60.
Definition SecFromTime (t : Z) : Z := (t / msPerSecond) mod 60.
Definition msFromTime (t : Z) : Z := t mod msPerSecond.

Definition digit (n : Z) : ascii := ascii_of_nat (48 + Z.to_nat (n mod 10)).
Definition pad2 (n : Z) : string := String (digit (n / 10)) (String (digit n) "").
Definition pad3 (n : Z) : string := String (digit (n / 100)) (pad2 n).
Definition pad4 (n : Z) : string := String (digit (n / 1000)) (pad3 n).
Definition pad6 (n : Z) : string :=
  String (digit (n / 100000)) (String (digit (n / 10000)) (pad4 n)).

(** [Date.prototype.toISOString] of a valid time value: UTC fields, four
    digits for the years 0..9999 and a sign with six digits otherwise. *)
Definition toISOString (t : Z) : string :=
  let y := YearFromTime t in
  (if ((0 <=? y) && (y <=? 9999))%Z then pad4 y
   else (if (0 <=? y)%Z then "+" else "-") ++ pad6 (Z.abs y))
  ++ "-" ++ pad2 (MonthFromTime t + 1) ++ "-" ++ pad2 (DateFromTime t)
  ++ "T" ++ pad2 (HourFromTime t) ++ ":" ++ pad2 (MinFromTime t)
  ++ ":" ++ pad2 (SecFromTime t) ++ "." ++ pad3 (msFromTime t) ++ "Z".

Definition digit_val (c : ascii) : option Z :=
  let n := Z.of_nat (nat_of_ascii c) in
  if ((48 <=? n) && (n <=? 57))%Z then Some (n - 48) else None.

Fixpoint digits_val (cs : list ascii) (acc : Z) : option Z :=
  match cs with
  | [] => Some acc
  | c :: cs' =>
      match digit_val c with
      | Some v => digits_val cs' (10 * acc + v)
      | None => None
      end
  end.

(** The time value of a date-only string, which is UTC midnight of that
    day. *)
Definition date_only (y m d : Z) : option Z :=
  if ((1 <=? m) && (m <=? 12) && (1 <=? d) && (d <=? DaysInMonth y (m - 1)))%Z
  then TimeClip (MakeDate (MakeDay y (m - 1) d) 0)
  else None.

(** [new Date(s)] for a string [s].  The model covers the two date-only
    forms of the ECMA-262 date-time format that the application produces:
    [YYYY-MM-DD] (a date input, or the first ten characters of
    [toISOString] in the years 0..9999) and a signed six-digit year with a
    month (the first ten characters of [toISOString] in other years).
    Every other string is an Invalid Date in the model. *)
Definition Date_parse (s : string) : option Z :=
  match list_ascii_of_string s with
  | [c0; c1; c2; c3; c4; c5; c6; c7; c8; c9] =>
      if (Ascii.eqb c0 "+" || Ascii.eqb c0 "-")%char then
        match digits_val [c1; c2; c3; c4; c5; c6] 0, digits_val [c8; c9] 0 with
        | Some y, Some m =>
            if Ascii.eqb c7 "-" && negb (Ascii.eqb c0 "-" && (y =? 0)%Z)
            then date_only (if Ascii.eqb c0 "-" then - y else y) m 1
            else None
        | _, _ => None
        end
      else
        match digits_val [c0; c1; c2; c3] 0, digits_val [c5; c6] 0,
              digits_val [c8; c9] 0 with
        | Some y, Some m, Some d =>
            if Ascii.eqb c4 "-" && Ascii.eqb c7 "-" then date_only y m d
            else None
        | _, _, _ => None
        end
  | _ => None
  end.

Definition monthShort (m : Z) : string :=
  if (m =? 0)%Z then "Jan" else if (m =? 1)%Z then "Feb"
  else if (m =? 2)%Z then "Mar" else if (m =? 3)%Z then "Apr"
  else if (m =? 4)%Z then "May" else if (m =? 5)%Z then "Jun"
  else if (m =? 6)%Z then "Jul" else if (m =? 7)%Z then "Aug"
  else if (m =? 8)%Z then "Sep" else if (m =? 9)%Z then "Oct"
  else if (m =? 10)%Z then "Nov" else "Dec".

(** The year as the en-US locale prints it without an era: the year of the
    era, so that the year 0 (1 BC) reads 1. *)
Definition yearNumeric (y : Z) : string :=
  NilZero.string_of_uint (N.to_uint (Z.to_N (if (0 <? y)%Z then y else (1 - y)%Z))).

(** [d.toLocaleDateString('en-US', { year: 'numeric', month: 'short' })] in
    the zone [tza]. *)
Definition toLocaleDateString_monthYear (tza t : Z) : string :=
  monthShort (getMonth tza t) ++ " " ++ yearNumeric (getFullYear tza t).


End JSDate.

(** ** JavaScript numbers *)

Module JSNumber.

(** A number is a finite double, given by its value, one of the
    infinities, or NaN. *)
Inductive number :=
| Finite (q : Q)
| PosInfinity
| NegInfinity
| NaN.

(** The integer nearest to [q], the even one of the two when [q] is half
    way between them. *)
Definition rne (q : Q) : Z :=
  let f := Qfloor q in
  match Qcompare (q - inject_Z f) (1 # 2) with
  | Lt => f
  | Gt => f + 1
  | Eq => if Z.even f then f else f + 1
  end.

(** The binary exponent of [x]: 2 ^ ilog2 x <= |x| < 2 ^ (ilog2 x + 1) *)
Definition ilog2 (x : Q) : Z :=
  let e := Z.log2 (Z.abs (Qnum x)) - Z.log2 (Z.pos (Qden x)) in
  if Qle_bool (2 ^ e) (Qabs x) then e else e - 1.

(** The distance between neighbouring doubles around [x]: 53 bits of
    significand, and exponents from -1022 upwards (below, the subnormal
    doubles are 2 ^ -1074 apart). *)
Definition quantum (x : Q) : Q := (2 ^ (Z.max (ilog2 x) (-1022) - 52))%Q.

(** The multiple of the quantum that is nearest to [x], ties to even. *)
Definition nearest (x : Q) : Q :=
  if Qeq_bool x 0 then 0%Q
  else Qred (inject_Z (rne (x / quantum x)) * quantum x).

Definition infinity (positive : bool) : number :=
  if positive then PosInfinity else NegInfinity.

(** The number for the real [x]: the nearest double, and an infinity when
    that is 2 ^ 1024 or beyond. *)
Definition round64 (x : Q) : number :=
  let r := nearest x in
  if Qle_bool (2 ^ 1024) (Qabs r) then infinity (Qle_bool 0 x)
  else Finite r.

(** [a + b] *)
Definition Number_add (a b : number) : number :=
  match a, b with
  | NaN, _ | _, NaN => NaN
  | Finite x, Finite y => round64 (x + y)
  | PosInfinity, NegInfinity | NegInfinity, PosInfinity => NaN
  | PosInfinity, _ | _, PosInfinity => PosInfinity
  | NegInfinity, _ | _, NegInfinity => NegInfinity
  end.

(** [a * b] *)
Definition Number_multiply (a b : number) : number :=
  match a, b with
  | NaN, _ | _, NaN => NaN
  | Finite x, Finite y => round64 (x * y)
  | Finite x, PosInfinity | PosInfinity, Finite x =>
      if Qeq_bool x 0 then NaN else infinity (Qle_bool 0 x)
  | Finite x, NegInfinity | NegInfinity, Finite x =>
      if Qeq_bool x 0 then NaN else infinity (negb (Qle_bool 0 x))
  | PosInfinity, PosInfinity | NegInfinity, NegInfinity => PosInfinity
  | PosInfinity, NegInfinity | NegInfinity, PosInfinity => NegInfinity
  end.

(** [a / b]; a zero divisor is taken as +0 *)
Definition Number_divide (a b : number) : number :=
  match a, b with
  | NaN, _ | _, NaN => NaN
  | Finite x, Finite y =>
      if Qeq_bool y 0 then
        if Qeq_bool x 0 then NaN else infinity (Qle_bool 0 x)
      else round64 (x / y)
  | Finite _, _ => Finite 0
  | PosInfinity, Finite y => infinity (Qle_bool 0 y)
  | NegInfinity, Finite y => infinity (negb (Qle_bool 0 y))
  | _, _ => NaN
  end.

(** The relative error of one rounding, 2 ^ -53 *)
Definition unit_roundoff : Q := (2 ^ (-53))%Q.

(** The reals that are doubles: the multiples of the quantum at their
    exponent, below 2 ^ 1024. *)
Definition is_double (x : Q) : Prop :=
  (exists m : Z, x == inject_Z m * quantum x)%Q /\ (Qabs x < 2 ^ 1024)%Q.

(** *** Comparison with the binary64 numbers of the proof assistant

    The primitive floating-point numbers are IEEE 754 binary64 with
    rounding to nearest, ties to even, the format and the rounding of
    JavaScript's numbers.  [value_of_float] reads one as a [number]. *)

Definition value_of_float (f : float) : number :=
  match Prim2SF f with
  | S754_zero _ => Finite 0
  | S754_infinity s => infinity (negb s)
  | S754_nan => NaN
  | S754_finite s m e =>
      Finite (Qred ((if s then -1 else 1) * inject_Z (Z.pos m) * 2 ^ e))
  end.

Definition number_eqb (a b : number) : bool :=
  match a, b with
  | Finite x, Finite y => Qeq_bool x y
  | PosInfinity, PosInfinity | NegInfinity, NegInfinity | NaN, NaN => true
  | _, _ => false
  end.

(** Operands for the comparison: amounts of the scenarios, ties, the ends
    of the range of the doubles, subnormal doubles, infinities and NaN. *)
#[local] Set Warnings "-inexact-float".
Definition samples : list float :=
  [0; 1; 3; 0.5; 2.5; -2.5; 0.1; -0.1; 0.2; 1000.1; 1000.3000000000001;
   333.43333333333334; 0.49999999999999994; 4503599627370497;
   9007199254740992; 1.7976931348623157e308; 9.9792015476736e291;
   4.9896007738368e291; 1e-300; 2.2250738585072014e-308;
   2.225073858507201e-308; 5e-324;
   PrimFloat.infinity; PrimFloat.neg_infinity; PrimFloat.nan]%float.
#[local] Set Warnings "+inexact-float".

Definition agrees (op : float -> float -> float)
  (Number_op : number -> number -> number) (x y : float) : bool :=
  number_eqb (value_of_float (op x y))
             (Number_op (value_of_float x) (value_of_float y)).

End JSNumber.

(** ** The application *)

Module App.

Import JSDate JSNumber.

Local Open Scope string_scope.

(** *** Records

    A document is what [addDoc] receives; a snapshot listener turns it into
    a record of the component state by adding the document identifier
    ([{ id: doc.id, ...doc.data(), date: doc.data().date.toDate() }]). *)

Record IncomeDoc := {
  clientName : string;
  inc_amount : Q;
  inc_date : Z;
  inc_type : string
}.

Record Income := { inc_id : string; inc_doc :> IncomeDoc }.

(** [exp_frequency], [isGenerated], [recurringTemplateId] and [paidFor] are
    [None] when the document has no such field ([undefined]). *)
Record ExpenseDoc := {
  exp_name : string;
  exp_amount : Q;
  exp_date : Z;
  exp_category : string;
  isRecurring : bool;
  exp_frequency : option string;
  isGenerated : option bool;
  recurringTemplateId : option string;
  paidFor : option string
}.

Record Expense := { exp_id : string; exp_doc :> ExpenseDoc }.

(** [dueDay] is [None] when it is NaN; [doc_createdAt] is [None] when the
    document has no creation time. *)
Record TemplateDoc := {
  doc_name : string;
  doc_amount : Q;
  doc_category : string;
  doc_frequency : option string;
  doc_dueDay : option Z;
  doc_createdAt : option Z
}.

Record Template := {
  tpl_id : string;
  tpl_name : string;
  tpl_amount : Q;
  tpl_category : string;
  frequency : option string;
  dueDay : option Z;
  createdAt : Z
}.

(** The component state of [App] that the logic reads: [db] tells whether
    the Firestore handle is set, [userId] is [None] for [null]. *)
Record AppState := {
  db : bool;
  userId : option string;
  incomes : list Income;
  expenses : list Expense;
  recurringTemplates : list Template;
  activeView : string;
  reportView : string;
  duesFilter : string
}.

(** *** JavaScript truthiness and strict equality on optional strings *)

Definition truthy (o : option string) : bool :=
  match o with
  | Some s => negb (s =? "")
  | None => false
  end.

Definition truthy_bool (o : option bool) : bool :=
  match o with
  | Some b => b
  | None => false
  end.

(** [o === s] for a field [o] that may be [undefined]. *)
Definition strict_eq (o : option string) (s : string) : bool :=
  match o with
  | Some s' => s' =? s
  | None => false
  end.

(** *** Helper functions *)

(** [formatMonthYear]: the guard [if (!date) return ''] never fires on a
    [Date] object, which is what every record carries. *)
Definition formatMonthYear (tza : Z) (date : Z) : string :=
  toLocaleDateString_monthYear tza date.

Definition getIncomeCollectionPath (uid : string) : string :=
  "users/" ++ uid ++ "/incomes".
Definition getExpenseCollectionPath (uid : string) : string :=
  "users/" ++ uid ++ "/expenses".
Definition getRecurringTemplateCollectionPath (uid : string) : string :=
  "users/" ++ uid ++ "/recurringTemplates".

(** [Timestamp.fromDate]: Firestore keeps the years 0001..9999 and throws
    otherwise; [None] stands for the exception, which is also the model's
    reading of an Invalid Date. *)
Definition Timestamp_fromDate (d : option Z) : option Z :=
  match d with
  | Some t =>
      if ((-62135596800000 <=? t) && (t <? 253402300800000))%Z
      then Some t else None
  | None => None
  end.

(** *** Handlers

    A handler returns what it does to the outside, in order.  [AddDoc]
    and [DeleteDoc] are requests sent to the store, whether it accepts
    them or not. *)

Inductive Payload :=
| PIncome (d : IncomeDoc)
| PExpense (d : ExpenseDoc)
| PTemplate (d : TemplateDoc).

Inductive Effect :=
| Alert (msg : string)
| AddDoc (path : string) (p : Payload)
| DeleteDoc (path : string) (id : string)
| SetActiveView (view : string).

(** The argument of [handleAddIncome]; [ia_amount] is
    [parseFloat(data.amount)]. *)
Record IncomeData := {
  ia_clientName : string;
  ia_amount : Q;
  ia_date : string;
  ia_type : string
}.

(** The argument of [handleAddExpense] and of
    [handleAddRecurringTemplate]; [ea_amount] is [parseFloat(data.amount)]. *)
Record ExpenseData := {
  ea_name : string;
  ea_amount : Q;
  ea_date : string;
  ea_category : string;
  ea_isRecurring : bool;
  ea_frequency : option string;
  ea_isGenerated : option bool;
  ea_recurringTemplateId : option string;
  ea_paidFor : option string
}.

(** [!db || !userId] *)
Definition not_ready (st : AppState) : bool :=
  negb (db st) || negb (truthy (userId st)).

Definition uid (st : AppState) : string :=
  match userId st with
  | Some u => u
  | None => ""
  end.

(** [ok] tells whether the store accepts the write ([addDoc] resolves). *)
Definition handleAddIncome (st : AppState) (ok : bool) (data : IncomeData)
  : list Effect :=
  if not_ready st then []
  else
    match Timestamp_fromDate (Date_parse (ia_date data)) with
    | None => [Alert "Failed to add income. Please try again."]
    | Some ts =>
        let d := {| clientName := ia_clientName data;
                    inc_amount := ia_amount data;
                    inc_date := ts;
                    inc_type := ia_type data |} in
        AddDoc (getIncomeCollectionPath (uid st)) (PIncome d) ::
        (if ok then [SetActiveView "Home"]
         else [Alert "Failed to add income. Please try again."])
    end.

Definition handleAddExpense (st : AppState) (ok : bool) (data : ExpenseData)
  : list Effect :=
  if not_ready st then []
  else
    match Timestamp_fromDate (Date_parse (ea_date data)) with
    | None => [Alert "Failed to add expense. Please try again."]
    | Some ts =>
        let d := {| exp_name := ea_name data;
                    exp_amount := ea_amount data;
                    exp_date := ts;
                    exp_category := ea_category data;
                    isRecurring := ea_isRecurring data;
                    exp_frequency := ea_frequency data;
                    isGenerated := ea_isGenerated data;
                    recurringTemplateId := ea_recurringTemplateId data;
                    paidFor := ea_paidFor data |} in
        AddDoc (getExpenseCollectionPath (uid st)) (PExpense d) ::
        (if ok then
           if truthy_bool (ea_isGenerated data) then []
           else [SetActiveView "Home"]
         else [Alert "Failed to add expense. Please try again."])
    end.

(** [s.split(sep)] *)
Fixpoint split (sep : ascii) (s : string) : list string :=
  match s with
  | EmptyString => [EmptyString]
  | String c s' =>
      if Ascii.eqb c sep then EmptyString :: split sep s'
      else
        match split sep s' with
        | x :: xs => String c x :: xs
        | [] => [String c EmptyString]
        end
  end.

(** [Number(s)] for a string of decimal digits (the empty string is 0);
    [None] is NaN, which in the model is every other string. *)
Definition Number (s : string) : option Z :=
  digits_val (list_ascii_of_string s) 0.

(** [handleAddRecurringTemplate]: [day] is the third piece of the date
    string; [addDoc] throws on an [undefined] field, which is the case when
    the date has fewer than three pieces or the frequency is missing. *)
Definition handleAddRecurringTemplate (st : AppState) (ok : bool) (now : Z)
  (data : ExpenseData) : list Effect :=
  if not_ready st then []
  else
    match nth_error (map Number (split "-" (ea_date data))) 2,
          ea_frequency data, Timestamp_fromDate (Some now) with
    | Some day, Some f, Some ts =>
        let d := {| doc_name := ea_name data;
                    doc_amount := ea_amount data;
                    doc_category := ea_category data;
                    doc_frequency := Some f;
                    doc_dueDay := day;
                    doc_createdAt := Some ts |} in
        AddDoc (getRecurringTemplateCollectionPath (uid st)) (PTemplate d) ::
        (if ok then [SetActiveView "Recurring"]
         else [Alert "Failed to add recurring bill. Please try again."])
    | _, _, _ => [Alert "Failed to add recurring bill. Please try again."]
    end.

Definition duplicateNotice : string :=
  "This bill has already been marked as paid for this month!".

(** [expenses.some(exp => exp.recurringTemplateId === id &&
    formatMonthYear(exp.date) === label)], the test of [handleMarkPaid] and
    of the bill lists. *)
Definition isPaid (tza : Z) (expenses : list Expense) (id : string)
  (label : string) : bool :=
  existsb (fun exp : Expense =>
             strict_eq (recurringTemplateId exp) id &&
             (formatMonthYear tza (exp_date exp) =? label))
          expenses.

(** [handleMarkPaid], with [now] the value of [new Date()]. *)
Definition handleMarkPaid (tza : Z) (st : AppState) (ok : bool) (now : Z)
  (template : Template) : list Effect :=
  let today := now in
  let paidForMonthYear := formatMonthYear tza today in
  let alreadyPaid := isPaid tza (expenses st) (tpl_id template) paidForMonthYear in
  if alreadyPaid then [Alert duplicateNotice]
  else
    handleAddExpense st ok
      {| ea_name := tpl_name template;
         ea_amount := tpl_amount template;
         ea_date := substring 0 10 (toISOString today);
         ea_category := tpl_category template;
         ea_isRecurring := true;
         ea_frequency := None;
         ea_isGenerated := Some true;
         ea_recurringTemplateId := Some (tpl_id template);
         ea_paidFor := Some paidForMonthYear |}.

(** [handleDelete]: [confirmed] is the answer to [window.confirm]. *)
Definition handleDelete (st : AppState) (ok confirmed : bool)
  (type id : string) : list Effect :=
  if not_ready st || (id =? "") then []
  else if negb confirmed then []
  else
    let path :=
      if type =? "income" then getIncomeCollectionPath (uid st)
      else if type =? "expense" then getExpenseCollectionPath (uid st)
      else getRecurringTemplateCollectionPath (uid st) in
    DeleteDoc path id ::
    (if ok then [] else [Alert "Failed to delete. Please try again."]).

(** *** The forms

    The amount of a form is a text; [None] is the empty text and [Some q]
    a text that [parseFloat] reads as [q]. *)

Record IncomeForm := {
  fi_clientName : string;
  fi_amount : option Q;
  fi_date : string;
  fi_type : string
}.

Record ExpenseForm := {
  fe_name : string;
  fe_amount : option Q;
  fe_date : string;
  fe_category : string;
  fe_isRecurring : bool;
  fe_frequency : string
}.

Definition requiredNotice : string := "Please fill in all required fields".

(** [handleSubmit] of [AddIncome] *)
Definition AddIncome_handleSubmit (st : AppState) (ok : bool)
  (formData : IncomeForm) : list Effect :=
  match fi_amount formData with
  | Some q =>
      if fi_clientName formData =? "" then [Alert requiredNotice]
      else handleAddIncome st ok
             {| ia_clientName := fi_clientName formData;
                ia_amount := q;
                ia_date := fi_date formData;
                ia_type := fi_type formData |}
  | None => [Alert requiredNotice]
  end.

(** [handleSubmit] of [AddExpense] *)
Definition AddExpense_handleSubmit (st : AppState) (ok : bool) (now : Z)
  (formData : ExpenseForm) : list Effect :=
  match fe_amount formData with
  | Some q =>
      if fe_name formData =? "" then [Alert requiredNotice]
      else
        let data := {| ea_name := fe_name formData;
                       ea_amount := q;
                       ea_date := fe_date formData;
                       ea_category := fe_category formData;
                       ea_isRecurring := fe_isRecurring formData;
                       ea_frequency := Some (fe_frequency formData);
                       ea_isGenerated := None;
                       ea_recurringTemplateId := None;
                       ea_paidFor := None |} in
        if fe_isRecurring formData
        then handleAddRecurringTemplate st ok now data
        else handleAddExpense st ok data
  | None => [Alert requiredNotice]
  end.

(** *** The record store and its snapshots

    Firestore is an external service.  The model keeps the three
    collections of the signed-in user in the order of the queries of the
    listeners: incomes and expenses by date, latest first, templates by
    name; equal keys are ordered by document identifier. *)

Record Store := {
  s_incomes : list Income;
  s_expenses : list Expense;
  s_templates : list (string * TemplateDoc)
}.

Fixpoint insert_before {A : Type} (before : A -> A -> bool) (x : A)
  (l : list A) : list A :=
  match l with
  | [] => [x]
  | y :: l' => if before x y then x :: l else y :: insert_before before x l'
  end.

Definition later (d1 : Z) (i1 : string) (d2 : Z) (i2 : string) : bool :=
  ((d2 <? d1)%Z || ((d2 =? d1)%Z && (i2 <? i1))).

Definition income_before (x y : Income) : bool :=
  later (inc_date x) (inc_id x) (inc_date y) (inc_id y).
Definition expense_before (x y : Expense) : bool :=
  later (exp_date x) (exp_id x) (exp_date y) (exp_id y).
Definition template_before (x y : string * TemplateDoc) : bool :=
  (doc_name (snd x) <? doc_name (snd y)) ||
  ((doc_name (snd x) =? doc_name (snd y)) && (fst x <? fst y)).

(** The effect of one request on the store; [ok] tells whether the store
    accepts it and [fresh] is the identifier it gives to a new document. *)
Definition store_apply (u : string) (ok : bool) (fresh : string) (s : Store)
  (e : Effect) : Store :=
  if negb ok then s
  else
    match e with
    | AddDoc _ (PIncome d) =>
        {| s_incomes := insert_before income_before
                          {| inc_id := fresh; inc_doc := d |} (s_incomes s);
           s_expenses := s_expenses s;
           s_templates := s_templates s |}
    | AddDoc _ (PExpense d) =>
        {| s_incomes := s_incomes s;
           s_expenses := insert_before expense_before
                           {| exp_id := fresh; exp_doc := d |} (s_expenses s);
           s_templates := s_templates s |}
    | AddDoc _ (PTemplate d) =>
        {| s_incomes := s_incomes s;
           s_expenses := s_expenses s;
           s_templates := insert_before template_before (fresh, d)
                            (s_templates s) |}
    | DeleteDoc path id =>
        if path =? getIncomeCollectionPath u then
          {| s_incomes := filter (fun r => negb (inc_id r =? id)) (s_incomes s);
             s_expenses := s_expenses s;
             s_templates := s_templates s |}
        else if path =? getExpenseCollectionPath u then
          {| s_incomes := s_incomes s;
             s_expenses := filter (fun r => negb (exp_id r =? id)) (s_expenses s);
             s_templates := s_templates s |}
        else if path =? getRecurringTemplateCollectionPath u then
          {| s_incomes := s_incomes s;
             s_expenses := s_expenses s;
             s_templates := filter (fun r => negb (fst r =? id)) (s_templates s) |}
        else s
    | _ => s
    end.

(** The listener of the templates:
    [createdAt: doc.data().createdAt ? doc.data().createdAt.toDate() : new Date()] *)
Definition template_of_doc (clock : Z) (r : string * TemplateDoc) : Template :=
  {| tpl_id := fst r;
     tpl_name := doc_name (snd r);
     tpl_amount := doc_amount (snd r);
     tpl_category := doc_category (snd r);
     frequency := doc_frequency (snd r);
     dueDay := doc_dueDay (snd r);
     createdAt := match doc_createdAt (snd r) with
                  | Some t => t
                  | None => clock
                  end |}.

Definition view_after (v : string) (effs : list Effect) : string :=
  fold_left (fun v e => match e with SetActiveView v' => v' | _ => v end) effs v.

(** The three listeners replace the lists of the state by the collections. *)
Definition onSnapshot (clock : Z) (st : AppState) (s : Store) : AppState :=
  {| db := db st;
     userId := userId st;
     incomes := s_incomes s;
     expenses := s_expenses s;
     recurringTemplates := map (template_of_doc clock) (s_templates s);
     activeView := activeView st;
     reportView := reportView st;
     duesFilter := duesFilter st |}.

Definition setActiveView (st : AppState) (v : string) : AppState :=
  {| db := db st;
     userId := userId st;
     incomes := incomes st;
     expenses := expenses st;
     recurringTemplates := recurringTemplates st;
     activeView := v;
     reportView := reportView st;
     duesFilter := duesFilter st |}.

(** *** Sequential use *)

Inductive Action :=
| SubmitIncome (formData : IncomeForm)
| SubmitExpense (formData : ExpenseForm)
| MarkPaid (template : Template)
| Delete (type id : string) (confirmed : bool).

(** What one user action meets: the clock, the answer of the store and
    the identifier the store would give. *)
Record Env := { clock : Z; writeOk : bool; freshId : string }.

Definition run (tza : Z) (st : AppState) (env : Env) (a : Action)
  : list Effect :=
  match a with
  | SubmitIncome f => AddIncome_handleSubmit st (writeOk env) f
  | SubmitExpense f => AddExpense_handleSubmit st (writeOk env) (clock env) f
  | MarkPaid t => handleMarkPaid tza st (writeOk env) (clock env) t
  | Delete type id confirmed => handleDelete st (writeOk env) confirmed type id
  end.

(** One action, completed, and the snapshot that follows it. *)
Definition step (tza : Z) (w : AppState * Store) (env : Env) (a : Action)
  : AppState * Store :=
  let (st, s) := w in
  let effs := run tza st env a in
  let s' := fold_left (store_apply (uid st) (writeOk env) (freshId env)) effs s in
  (onSnapshot (clock env) (setActiveView st (view_after (activeView st) effs)) s',
   s').

Definition emptyStore : Store :=
  {| s_incomes := []; s_expenses := []; s_templates := [] |}.

(** The state once the user is signed in and the listeners are set up. *)
Definition initial (u : string) : AppState * Store :=
  ({| db := true; userId := Some u; incomes := []; expenses := [];
      recurringTemplates := []; activeView := "Home";
      reportView := "Monthly"; duesFilter := "Monthly" |},
   emptyStore).

Definition used_ids (s : Store) : list string :=
  map inc_id (s_incomes s) ++ map exp_id (s_expenses s) ++
  map fst (s_templates s).

(** A clock between the epoch and the end of the year 9999. *)
Definition clock_in_range (now : Z) : Prop :=
  (0 <= now < 253402300800000)%Z.

(** The states of sequential use: every action is completed and its
    snapshot delivered before the next one.  A bill is marked paid from
    the list of bills, the clock is in range, and the store gives a new
    document an identifier that is not in use. *)
Inductive reachable (tza : Z) (u : string) : AppState * Store -> Prop :=
| reach_initial : reachable tza u (initial u)
| reach_step w env a :
    reachable tza u w ->
    (forall t, a = MarkPaid t -> In t (recurringTemplates (fst w))) ->
    clock_in_range (clock env) ->
    freshId env <> "" ->
    ~ In (freshId env) (used_ids (snd w)) ->
    reachable tza u (step tza w env a).

(** *** Calculations *)

Definition sum_amounts {A : Type} (amount : A -> Q) (l : list A) : Q :=
  fold_left (fun sum x => (sum + amount x)%Q) l 0%Q.

(** [Math.max(1, l.length)] as a number *)
Definition max1_length {A : Type} (l : list A) : Q :=
  inject_Z (Z.of_nat (Nat.max 1 (List.length l))).

(** [l.reduce((sum, x) => sum + x.amount, 0)] in the arithmetic of
    numbers: every addition is rounded. *)
Definition reduce_amounts {A : Type} (amount : A -> Q) (l : list A) : number :=
  fold_left (fun sum x => Number_add sum (Finite (amount x))) l (Finite 0).

Definition avgMonthlyIncome (incomes : list Income) : number :=
  if Nat.eqb (List.length incomes) 0 then Finite 0
  else
    let totalIncome := reduce_amounts (fun inc : Income => inc_amount inc) incomes in
    Number_divide totalIncome (Finite (max1_length incomes)).

Definition avgMonthlyExpense (expenses : list Expense) : number :=
  if Nat.eqb (List.length expenses) 0 then Finite 0
  else
    let totalExpense := reduce_amounts (fun exp : Expense => exp_amount exp) expenses in
    Number_divide totalExpense (Finite (max1_length expenses)).

(** [template.frequency || 'Monthly'] *)
Definition frequency_or_Monthly (t : Template) : string :=
  if truthy (frequency t) then
    match frequency t with Some f => f | None => "Monthly" end
  else "Monthly".

Definition filteredDues (recurringTemplates : list Template)
  (duesFilter : string) : list Template :=
  filter (fun template => frequency_or_Monthly template =? duesFilter)
         recurringTemplates.

Definition totalMonthlyDues (recurringTemplates : list Template)
  (duesFilter : string) : Q :=
  sum_amounts tpl_amount (filteredDues recurringTemplates duesFilter).

(** [getPaidAmount], with [now] the value of [new Date()] *)
Definition paidExpenses (tza : Z) (expenses : list Expense) (now : Z)
  : list Expense :=
  let currentMonthYear := formatMonthYear tza now in
  filter (fun exp : Expense =>
            truthy (recurringTemplateId exp) &&
            (formatMonthYear tza (exp_date exp) =? currentMonthYear))
         expenses.

Definition getPaidAmount (tza : Z) (expenses : list Expense) (now : Z) : Q :=
  sum_amounts (fun exp : Expense => exp_amount exp) (paidExpenses tza expenses now).

Definition remainingToPay (totalMonthlyDues getPaidAmount : Q) : Q :=
  (totalMonthlyDues - getPaidAmount)%Q.

Definition paymentProgress (totalMonthlyDues getPaidAmount : Q) : Q :=
  if Qlt_le_dec 0 totalMonthlyDues
  then ((getPaidAmount / totalMonthlyDues) * 100)%Q
  else 0%Q.

(** *** The report *)

Record Report := {
  r_incomes : list Income;
  r_expenses : list Expense;
  totalIncome : Q;
  totalExpense : Q;
  netCashflow : Q
}.

(** [date >= bound] and [date <= bound] between a record's date and a
    [Date] that may be invalid: a comparison with NaN is false. *)
Definition date_ge (date : Z) (bound : option Z) : bool :=
  match bound with
  | Some b => (b <=? date)%Z
  | None => false
  end.

Definition date_le (date : Z) (bound : option Z) : bool :=
  match bound with
  | Some b => (date <=? b)%Z
  | None => false
  end.

(** [start] and [end] of the period.  In the weekly and the daily case the
    source overwrites [now] ([setDate], [setHours]) and reads it again: the
    second [setHours] works on the time value the first one has stored. *)
Definition period (tza : Z) (reportView : string) (now : Z)
  : option Z * option Z :=
  if reportView =? "Monthly" then
    (Date_ymd tza (getFullYear tza now) (getMonth tza now) 1,
     Date_ymd tza (getFullYear tza now) (getMonth tza now + 1) 0)
  else if reportView =? "Weekly" then
    let day := getDay tza now in
    let diff := (getDate tza now - day + (if (day =? 0)%Z then -6 else 1))%Z in
    let start := setDate tza now diff in
    let end_ := match start with
                | Some s => setDate tza s (getDate tza s + 6)
                | None => None
                end in
    (start, end_)
  else
    let start := setHours tza now 0 0 0 0 in
    let end_ := match start with
                | Some now' => setHours tza now' 23 59 59 999
                | None => None
                end in
    (start, end_).

Definition filteredTransactions (tza : Z) (incomes : list Income)
  (expenses : list Expense) (reportView : string) (now : Z) : Report :=
  let (start, end_) := period tza reportView now in
  let filteredIncomes :=
    filter (fun inc : Income => date_ge (inc_date inc) start && date_le (inc_date inc) end_)
           incomes in
  let filteredExpenses :=
    filter (fun exp : Expense => date_ge (exp_date exp) start && date_le (exp_date exp) end_)
           expenses in
  let totalIncome := sum_amounts (fun inc : Income => inc_amount inc) filteredIncomes in
  let totalExpense := sum_amounts (fun exp : Expense => exp_amount exp) filteredExpenses in
  {| r_incomes := filteredIncomes;
     r_expenses := filteredExpenses;
     totalIncome := totalIncome;
     totalExpense := totalExpense;
     netCashflow := (totalIncome - totalExpense)%Q |}.

(** Everything the component derives from its state at the time [now]. *)
Record Derived := {
  d_avgMonthlyIncome : number;
  d_avgMonthlyExpense : number;
  d_totalMonthlyDues : Q;
  d_getPaidAmount : Q;
  d_remainingToPay : Q;
  d_paymentProgress : Q;
  d_filteredTransactions : Report
}.


(** *** The memoised values

    [useMemo(f, deps)] keeps, from one render of the component to the
    next, the value of [f()] together with the dependencies it was computed
    for, and calls [f] again only when a dependency is not the same
    ([Object.is]) as in the previous render.  The state arrays are replaced
    by the listeners and never changed in place; an array is the same only
    if it is the same object, so an array goes with its identity. *)

Record array (A : Type) := { ident : nat; elems : list A }.
Arguments ident {A} _.
Arguments elems {A} _.

Definition same_array {A : Type} (a b : array A) : bool :=
  Nat.eqb (ident a) (ident b).

Record Memo (D V : Type) := { memo_deps : D; memo_value : V }.
Arguments memo_deps {D V} _.
Arguments memo_value {D V} _.

Definition useMemo {D V : Type} (same : D -> D -> bool)
  (cell : option (Memo D V)) (f : unit -> V) (deps : D)
  : V * option (Memo D V) :=
  match cell with
  | Some m =>
      if same (memo_deps m) deps then (memo_value m, cell)
      else
        let v := f tt in (v, Some {| memo_deps := deps; memo_value := v |})
  | None =>
      let v := f tt in (v, Some {| memo_deps := deps; memo_value := v |})
  end.

(** The dependencies [[recurringTemplates, duesFilter]] and
    [[incomes, expenses, reportView]]: arrays by identity, texts by value. *)
Definition same_dues (d d' : array Template * string) : bool :=
  same_array (fst d) (fst d') && (snd d =? snd d').

Definition same_report (d d' : array Income * array Expense * string) : bool :=
  same_array (fst (fst d)) (fst (fst d')) &&
  same_array (snd (fst d)) (snd (fst d')) && (snd d =? snd d').

(** The six memoised values of the component, in the order of the source,
    and the number of arrays that [filteredDues] has made so far (the
    identity of the next one). *)
Record Hooks := {
  memo_avgMonthlyIncome : option (Memo (array Income) number);
  memo_avgMonthlyExpense : option (Memo (array Expense) number);
  memo_filteredDues :
    option (Memo (array Template * string) (array Template));
  memo_totalMonthlyDues : option (Memo (array Template) Q);
  memo_getPaidAmount : option (Memo (array Expense) Q);
  memo_filteredTransactions :
    option (Memo (array Income * array Expense * string) Report);
  allocated : nat
}.

(** What the calculations read from the state of the component. *)
Record Inputs := {
  in_incomes : array Income;
  in_expenses : array Expense;
  in_recurringTemplates : array Template;
  in_duesFilter : string;
  in_reportView : string
}.

(** The component when it is mounted: nothing is memoised yet. *)
Definition mount : Hooks :=
  {| memo_avgMonthlyIncome := None;
     memo_avgMonthlyExpense := None;
     memo_filteredDues := None;
     memo_totalMonthlyDues := None;
     memo_getPaidAmount := None;
     memo_filteredTransactions := None;
     allocated := 0 |}.

(** One render at the time [now]: the values it shows and the memoised
    values it leaves for the next render.  [new Date()] is read inside the
    functions of [getPaidAmount] and [filteredTransactions], that is, only
    when they are called. *)
Definition render (tza : Z) (h : Hooks) (i : Inputs) (now : Z)
  : Derived * Hooks :=
  let incomes := in_incomes i in
  let expenses := in_expenses i in
  let recurringTemplates := in_recurringTemplates i in
  let duesFilter := in_duesFilter i in
  let reportView := in_reportView i in
  let (avgMonthlyIncome, m1) :=
    useMemo same_array (memo_avgMonthlyIncome h)
      (fun _ => avgMonthlyIncome (elems incomes)) incomes in
  let (avgMonthlyExpense, m2) :=
    useMemo same_array (memo_avgMonthlyExpense h)
      (fun _ => avgMonthlyExpense (elems expenses)) expenses in
  let (filteredDues, m3) :=
    useMemo same_dues (memo_filteredDues h)
      (fun _ => {| ident := allocated h;
                   elems := filteredDues (elems recurringTemplates) duesFilter |})
      (recurringTemplates, duesFilter) in
  let (totalMonthlyDues, m4) :=
    useMemo same_array (memo_totalMonthlyDues h)
      (fun _ => sum_amounts tpl_amount (elems filteredDues)) filteredDues in
  let (getPaidAmount, m5) :=
    useMemo same_array (memo_getPaidAmount h)
      (fun _ => getPaidAmount tza (elems expenses) now) expenses in
  let (filteredTransactions, m6) :=
    useMemo same_report (memo_filteredTransactions h)
      (fun _ => filteredTransactions tza (elems incomes) (elems expenses)
                                     reportView now)
      (incomes, expenses, reportView) in
  ({| d_avgMonthlyIncome := avgMonthlyIncome;
      d_avgMonthlyExpense := avgMonthlyExpense;
      d_totalMonthlyDues := totalMonthlyDues;
      d_getPaidAmount := getPaidAmount;
      d_remainingToPay := remainingToPay totalMonthlyDues getPaidAmount;
      d_paymentProgress := paymentProgress totalMonthlyDues getPaidAmount;
      d_filteredTransactions := filteredTransactions |},
   {| memo_avgMonthlyIncome := m1;
      memo_avgMonthlyExpense := m2;
      memo_filteredDues := m3;
      memo_totalMonthlyDues := m4;
      memo_getPaidAmount := m5;
      memo_filteredTransactions := m6;
      allocated := S (allocated h) |}).

(** The memoised values after a sequence of renders, each with the state
    and the time it saw, starting from the mounted component. *)
Definition rendered (tza : Z) (past : list (Inputs * Z)) : Hooks :=
  fold_left (fun h r => snd (render tza h (fst r) (snd r))) past mount.

(** [bill.dueDay || (bill.createdAt ? bill.createdAt.getDate() : 1)]: a
    day that is 0 or NaN is falsy, and [createdAt] is a [Date] object. *)
Definition displayDueDay (tza : Z) (bill : Template) : Z :=
  match dueDay bill with
  | Some d => if (d =? 0)%Z then getDate tza (createdAt bill) else d
  | None => getDate tza (createdAt bill)
  end.

(** *** Notions used to state the properties *)

(** The requests a handler sends to the store. *)
Definition requests (effs : list Effect) : list Effect :=
  filter (fun e => match e with
                   | AddDoc _ _ | DeleteDoc _ _ => true
                   | _ => false
                   end) effs.

(** The sum of the amounts of a list of records. *)
Fixpoint sum_of {A : Type} (amount : A -> Q) (l : list A) : Q :=
  match l with
  | [] => 0%Q
  | x :: l' => (amount x + sum_of amount l')%Q
  end.

(** A whole amount: no fraction of the currency unit. *)
Definition whole (x : Q) : Prop := (x == inject_Z (Qfloor x))%Q.

(** The number of records of a list, as the number [l.length]. *)
Definition count {A : Type} (l : list A) : Q :=
  inject_Z (Z.of_nat (List.length l)).

(** The sum of the amounts from left to right, ((0 + x1) + x2) + ..., each
    addition rounded. *)
Fixpoint sum_backwards (amounts : list Q) : number :=
  match amounts with
  | [] => Finite 0
  | x :: earlier => Number_add (sum_backwards earlier) (Finite x)
  end.

Definition sum_in_order {A : Type} (amount : A -> Q) (l : list A) : number :=
  sum_backwards (rev (map amount l)).

(** The sum [s] of a list is zero or in the range where neither the
    quotient by the count underflows nor the product overflows. *)
Definition in_range (s n : Q) : Prop :=
  (s == 0 \/ (2 ^ (-1022) * n <= Qabs s /\ Qabs s <= 2 ^ 1023))%Q.

(** A generated expense of the template [id] whose date falls in the month
    [label]. *)
Definition generated_for (tza : Z) (id label : string) (exp : Expense) : bool :=
  truthy_bool (isGenerated exp) &&
  strict_eq (recurringTemplateId exp) id &&
  (formatMonthYear tza (exp_date exp) =? label).

Definition at_most_one_generated (tza : Z) (expenses : list Expense) : Prop :=
  forall id label,
    (List.length (filter (generated_for tza id label) expenses) <= 1)%nat.

(** The local calendar day of a time value: year, month (0..11), day. *)
Definition localDay (tza : Z) (t : Z) : Z * Z * Z :=
  (getFullYear tza t, getMonth tza t, getDate tza t).

(** *** Notions for the memoised values *)

(** In the states of a sequence of renders, arrays with the same identity
    are the same array: the listeners make a new array for every snapshot
    and no array is changed in place. *)
Definition distinct_identities {A : Type} (l : list (array A)) : Prop :=
  forall a b, In a l -> In b l -> ident a = ident b -> a = b.

Definition coherent (l : list Inputs) : Prop :=
  distinct_identities (map in_incomes l) /\
  distinct_identities (map in_expenses l) /\
  distinct_identities (map in_recurringTemplates l).

(** A memoised value, if there is one, is related by [P] to the
    dependencies it is kept with. *)
Definition holds {D V : Type} (P : D -> V -> Prop) (cell : option (Memo D V))
  : Prop :=
  forall m, cell = Some m -> P (memo_deps m) (memo_value m).

(** The value [v] is [f] at the time of one of the renders [seen], one
    whose state satisfies [same]. *)
Definition computed_at {V : Type} (seen : list (Inputs * Z))
  (same : Inputs -> Prop) (f : Z -> V) (v : V) : Prop :=
  exists r, In r seen /\ same (fst r) /\ v = f (snd r).

(** What the memoised values are after the renders [seen]: every value is
    the one of its function for the dependencies it is kept with, and the
    two that read the clock have its value at one of the renders that had
    these dependencies. *)
Definition memo_invariant (tza : Z) (seen : list (Inputs * Z)) (h : Hooks)
  : Prop :=
  holds (fun d v => In d (map in_incomes (map fst seen)) /\
                    v = avgMonthlyIncome (elems d))
        (memo_avgMonthlyIncome h) /\
  holds (fun d v => In d (map in_expenses (map fst seen)) /\
                    v = avgMonthlyExpense (elems d))
        (memo_avgMonthlyExpense h) /\
  holds (fun d v => In (fst d) (map in_recurringTemplates (map fst seen)) /\
                    elems v = filteredDues (elems (fst d)) (snd d) /\
                    (ident v < allocated h)%nat)
        (memo_filteredDues h) /\
  holds (fun d v => v = sum_amounts tpl_amount (elems d) /\
                    (ident d < allocated h)%nat /\
                    forall m3, memo_filteredDues h = Some m3 ->
                               ident d = ident (memo_value m3) ->
                               d = memo_value m3)
        (memo_totalMonthlyDues h) /\
  holds (fun d v =>
           computed_at seen (fun i => in_expenses i = d)
                       (getPaidAmount tza (elems d)) v)
        (memo_getPaidAmount h) /\
  holds (fun d v =>
           computed_at seen
             (fun i => (in_incomes i, in_expenses i, in_reportView i) = d)
             (filteredTransactions tza (elems (fst (fst d)))
                                   (elems (snd (fst d))) (snd d)) v)
        (memo_filteredTransactions h).

(** *** Further notions *)

(** The zones of the world are within a day of UTC. *)
Definition zone_in_range (tza : Z) : Prop := (- msPerDay <= tza <= msPerDay)%Z.

(** [YYYY-MM-DD], the value of a date input. *)
Definition isoDate (y m d : Z) : string :=
  pad4 y ++ "-" ++ pad2 m ++ "-" ++ pad2 d.

Definition valid_date (y m d : Z) : Prop :=
  (0 <= y <= 9999 /\ 1 <= m <= 12 /\ 1 <= d <= DaysInMonth y (m - 1))%Z.

Definition dayNumeric (d : Z) : string :=
  NilZero.string_of_uint (N.to_uint (Z.to_N d)).

(** [formatDate]:
    [date.toLocaleDateString('en-US', { month: 'short', day: 'numeric', year: 'numeric' })],
    as in "Nov 5, 2025". *)
Definition formatDate (tza : Z) (date : Z) : string :=
  monthShort (getMonth tza date) ++ " " ++ dayNumeric (getDate tza date) ++ ", " ++
  yearNumeric (getFullYear tza date).

(** A generated expense whose [paidFor] is the label of its date. *)
Definition generated_ok (tza : Z) (exp : Expense) : Prop :=
  truthy_bool (isGenerated exp) = true ->
  paidFor exp = Some (formatMonthYear tza (exp_date exp)).

(** Every income has a client name and every expense and template a name. *)
Definition named (s : Store) : Prop :=
  Forall (fun inc : Income => clientName inc <> "") (s_incomes s) /\
  Forall (fun exp : Expense => exp_name exp <> "") (s_expenses s) /\
  Forall (fun r : string * TemplateDoc => doc_name (snd r) <> "") (s_templates s).

(** The history of the reports merges incomes and expenses and tells them
    apart by [!!t.clientName]: an expense has no such field. *)
Inductive Transaction :=
| TIncome (inc : Income)
| TExpense (exp : Expense).

Definition isIncome (t : Transaction) : bool :=
  match t with
  | TIncome inc => negb (clientName inc =? "")
  | TExpense _ => false
  end.

End App.

(** ** Concrete situations

    The host zone is Asia/Manila (UTC+8, no daylight saving). *)

Module Scenario.

Import JSDate App.

Local Open Scope string_scope.

Definition manila : Z := 28800000.

Definition rentForm : ExpenseForm :=
  {| fe_name := "Rent"; fe_amount := Some 500%Q; fe_date := "2025-10-01";
     fe_category := "Rent/Mortgage"; fe_isRecurring := true;
     fe_frequency := "Monthly" |}.

Definition rent : Template :=
  {| tpl_id := "t1"; tpl_name := "Rent"; tpl_amount := 500%Q;
     tpl_category := "Rent/Mortgage"; frequency := Some "Monthly";
     dueDay := Some 1%Z; createdAt := 1759280400000%Z |}.

(** 2025-10-01 09:00 in Manila: the bill is saved. *)
Definition env1 : Env :=
  {| clock := 1759280400000; writeOk := true; freshId := "t1" |}.
(** 2025-11-01 02:00 in Manila (2025-10-31T18:00Z): the bill is marked paid. *)
Definition env2 : Env :=
  {| clock := 1761933600000; writeOk := true; freshId := "e1" |}.
(** One minute later: the bill is marked paid again. *)
Definition env3 : Env :=
  {| clock := 1761933660000; writeOk := true; freshId := "e2" |}.

Definition w1 : AppState * Store :=
  step manila (initial "u1") env1 (SubmitExpense rentForm).
Definition w2 : AppState * Store := step manila w1 env2 (MarkPaid rent).
Definition w3 : AppState * Store := step manila w2 env3 (MarkPaid rent).

(** An income that the form dates 2025-11-30 and one it dates 2025-11-03:
    UTC midnight of these days, 08:00 in Manila. *)
Definition incomeNov30 : Income :=
  {| inc_id := "i1";
     inc_doc := {| clientName := "Acme"; inc_amount := 1000%Q;
                   inc_date := 1764460800000; inc_type := "ONE_TIME" |} |}.

Definition incomeNov03 : Income :=
  {| inc_id := "i2";
     inc_doc := {| clientName := "Acme"; inc_amount := 1000%Q;
                   inc_date := 1762128000000; inc_type := "ONE_TIME" |} |}.

(** Three incomes of 0.1, 0.1 and 1000.1: the amounts are the doubles
    that [parseFloat] gives for these texts. *)
Definition tenth : Q := 3602879701896397 # 36028797018963968.
Definition thousand_and_a_tenth : Q := 8796972631510221 # 8796093022208.

Definition incomeOf (id : string) (amount : Q) : Income :=
  {| inc_id := id;
     inc_doc := {| clientName := "Acme"; inc_amount := amount;
                   inc_date := 1762128000000; inc_type := "ONE_TIME" |} |}.

Definition threeIncomes : list Income :=
  [incomeOf "i3" tenth; incomeOf "i4" tenth;
   incomeOf "i5" thousand_and_a_tenth].

(** 2025-11-15 12:00 in Manila *)
Definition midNovember : Z := 1763179200000.
(** Wednesday 2025-11-05 10:00 in Manila *)
Definition wednesday : Z := 1762308000000.

(** A state with the rent as the only bill, paid this month, and the dues
    filter on Weekly. *)
Definition paidRent : Expense :=
  {| exp_id := "e1";
     exp_doc := {| exp_name := "Rent"; exp_amount := 500%Q;
                   exp_date := 1762300800000; exp_category := "Rent/Mortgage";
                   isRecurring := true; exp_frequency := None;
                   isGenerated := Some true;
                   recurringTemplateId := Some "t1";
                   paidFor := Some "Nov 2025" |} |}.

Definition weeklyView : AppState :=
  {| db := true; userId := Some "u1"; incomes := [];
     expenses := [paidRent]; recurringTemplates := [rent];
     activeView := "Home"; reportView := "Monthly"; duesFilter := "Weekly" |}.

(** The rent as the only bill, the filter on Monthly, and 1500 paid this
    month against it. *)
Definition paidTwice : Expense :=
  {| exp_id := "e2";
     exp_doc := {| exp_name := "Rent"; exp_amount := 1000%Q;
                   exp_date := 1762300800000; exp_category := "Rent/Mortgage";
                   isRecurring := true; exp_frequency := None;
                   isGenerated := Some true;
                   recurringTemplateId := Some "t9";
                   paidFor := Some "Nov 2025" |} |}.


Definition monthlyView : AppState :=
  {| db := true; userId := Some "u1"; incomes := [incomeNov03];
     expenses := []; recurringTemplates := [rent];
     activeView := "Recurring"; reportView := "Monthly"; duesFilter := "Monthly" |}.

(** The rent of October, paid on 2025-10-15, and the state of the
    component around the end of the month: the arrays with their
    identities, the dues filter and the report period. *)
Definition paidOctober : Expense :=
  {| exp_id := "e0";
     exp_doc := {| exp_name := "Rent"; exp_amount := 500%Q;
                   exp_date := 1760486400000; exp_category := "Rent/Mortgage";
                   isRecurring := true; exp_frequency := None;
                   isGenerated := Some true;
                   recurringTemplateId := Some "t1";
                   paidFor := Some "Oct 2025" |} |}.

Definition octoberState : AppState :=
  {| db := true; userId := Some "u1"; incomes := [];
     expenses := [paidOctober]; recurringTemplates := [rent];
     activeView := "Home"; reportView := "Monthly"; duesFilter := "Monthly" |}.

Definition octoberInputs : Inputs :=
  {| in_incomes := {| ident := 1; elems := incomes octoberState |};
     in_expenses := {| ident := 2; elems := expenses octoberState |};
     in_recurringTemplates :=
       {| ident := 3; elems := recurringTemplates octoberState |};
     in_duesFilter := duesFilter octoberState;
     in_reportView := reportView octoberState |}.

(** 2025-10-15 12:00, 2025-10-31 23:50 and 2025-11-01 00:10 in Manila *)
Definition midOctober : Z := 1760500800000.
Definition beforeMidnight : Z := 1761925800000.
Definition afterMidnight : Z := 1761927000000.

(** The same actions on a host in UTC. *)
Definition utc1 : AppState * Store :=
  step 0 (initial "u1") env1 (SubmitExpense rentForm).
Definition utc2 : AppState * Store := step 0 utc1 env2 (MarkPaid rent).

(** A write that the store rejects. *)
Definition envRejected : Env :=
  {| clock := 1761933600000; writeOk := false; freshId := "e9" |}.

Definition incomeForm : IncomeForm :=
  {| fi_clientName := "Acme"; fi_amount := Some 1000%Q;
     fi_date := "2025-11-03"; fi_type := "ONE_TIME" |}.

Definition groceriesForm : ExpenseForm :=
  {| fe_name := "Groceries"; fe_amount := Some 50%Q; fe_date := "2025-11-05";
     fe_category := "Groceries"; fe_isRecurring := false;
     fe_frequency := "Monthly" |}.

Definition namelessForm : ExpenseForm :=
  {| fe_name := ""; fe_amount := Some 5%Q; fe_date := "2025-11-05";
     fe_category := "Other"; fe_isRecurring := false;
     fe_frequency := "Monthly" |}.

End Scenario.

(** ** Facts about the date arithmetic *)

Import JSDate JSNumber App Scenario.

Lemma DayFromYear_step y : DayFromYear (y + 1) = DayFromYear y + DaysInYear y.
Proof.
  unfold DayFromYear, DaysInYear.
  replace (y + 1 - 1969) with (y - 1969 + 1) by lia.
  replace (y + 1 - 1901) with (y - 1901 + 1) by lia.
  replace (y + 1 - 1601) with (y - 1601 + 1) by lia.
  destruct (Z.eqb_spec (y mod 4) 0); destruct (Z.eqb_spec (y mod 100) 0);
  destruct (Z.eqb_spec (y mod 400) 0); cbn [negb];
  Z.div_mod_to_equations; lia.
Qed.

Lemma DaysInYear_cases y : DaysInYear y = 365 \/ DaysInYear y = 366.
Proof.
  unfold DaysInYear.
  destruct (y mod 4 =? 0), (y mod 100 =? 0), (y mod 400 =? 0); cbn; auto.
Qed.

Lemma year_estimate d :
  let y0 := 1970 + 400 * d / 146097 in
  DayFromYear (y0 - 1) <= d < DayFromYear (y0 + 2).
Proof.
  intros y0. unfold DayFromYear.
  pose proof (Z.div_mod (400 * d) 146097 ltac:(lia)) as Hq.
  pose proof (Z.mod_pos_bound (400 * d) 146097 ltac:(lia)) as Hr.
  assert (Hy : 400 * d / 146097 = y0 - 1970) by (unfold y0; lia).
  rewrite Hy in Hq. clearbody y0. clear Hy.
  set (r := (400 * d) mod 146097) in *. clearbody r.
  pose proof (Z.div_mod (y0 - 1 - 1969) 4 ltac:(lia)).
  pose proof (Z.mod_pos_bound (y0 - 1 - 1969) 4 ltac:(lia)).
  pose proof (Z.div_mod (y0 - 1 - 1901) 100 ltac:(lia)).
  pose proof (Z.mod_pos_bound (y0 - 1 - 1901) 100 ltac:(lia)).
  pose proof (Z.div_mod (y0 - 1 - 1601) 400 ltac:(lia)).
  pose proof (Z.mod_pos_bound (y0 - 1 - 1601) 400 ltac:(lia)).
  pose proof (Z.div_mod (y0 + 2 - 1969) 4 ltac:(lia)).
  pose proof (Z.mod_pos_bound (y0 + 2 - 1969) 4 ltac:(lia)).
  pose proof (Z.div_mod (y0 + 2 - 1901) 100 ltac:(lia)).
  pose proof (Z.mod_pos_bound (y0 + 2 - 1901) 100 ltac:(lia)).
  pose proof (Z.div_mod (y0 + 2 - 1601) 400 ltac:(lia)).
  pose proof (Z.mod_pos_bound (y0 + 2 - 1601) 400 ltac:(lia)).
  split; lia.
Qed.

Lemma YearFromTime_spec t :
  DayFromYear (YearFromTime t) <= Day t < DayFromYear (YearFromTime t + 1).
Proof.
  unfold YearFromTime. set (d := Day t). clearbody d.
  pose proof (year_estimate d) as H. cbv zeta in H.
  set (y0 := 1970 + 400 * d / 146097) in *. clearbody y0.
  replace (y0 + 2) with (y0 + 1 + 1) in H by lia.
  pose proof (DayFromYear_step (y0 - 1)) as H1.
  replace (y0 - 1 + 1) with y0 in * by lia.
  destruct (Z.leb_spec (DayFromYear (y0 + 1)) d); [lia|].
  destruct (Z.ltb_spec d (DayFromYear y0)).
  - replace (y0 - 1 + 1) with y0 by lia. lia.
  - lia.
Qed.

Lemma DayFromYear_lt y : DayFromYear y < DayFromYear (y + 1).
Proof. rewrite DayFromYear_step. destruct (DaysInYear_cases y); lia. Qed.

Lemma DayFromYear_mono_nat y (n : nat) : DayFromYear y <= DayFromYear (y + Z.of_nat n).
Proof.
  induction n.
  - replace (y + Z.of_nat 0) with y by lia. lia.
  - replace (y + Z.of_nat (S n)) with (y + Z.of_nat n + 1) by lia.
    pose proof (DayFromYear_lt (y + Z.of_nat n)). lia.
Qed.

Lemma DayFromYear_mono y y' : y <= y' -> DayFromYear y <= DayFromYear y'.
Proof.
  intros H. replace y' with (y + Z.of_nat (Z.to_nat (y' - y))) by lia.
  apply DayFromYear_mono_nat.
Qed.

(** ECMA-262: YearFromTime(t) is the largest y with TimeFromYear(y) <= t. *)
Lemma YearFromTime_largest t y :
  TimeFromYear y <= t <-> y <= YearFromTime t.
Proof.
  pose proof (YearFromTime_spec t) as [H1 H2].
  unfold TimeFromYear, Day, msPerDay in *.
  split; intros H.
  - destruct (Z_lt_le_dec (YearFromTime t) y) as [Hlt|]; [|lia].
    exfalso. pose proof (DayFromYear_mono (YearFromTime t + 1) y ltac:(lia)).
    assert (DayFromYear y <= t / 86400000) by (apply Z.div_le_lower_bound; lia).
    lia.
  - pose proof (DayFromYear_mono y (YearFromTime t) H).
    assert (86400000 * (t / 86400000) <= t) by (apply Z.mul_div_le; lia). lia.
Qed.

Lemma YearFromTime_unique t y :
  DayFromYear y <= Day t < DayFromYear (y + 1) -> YearFromTime t = y.
Proof.
  intros [H1 H2]. pose proof (YearFromTime_spec t) as [H3 H4].
  destruct (Z_lt_le_dec y (YearFromTime t)).
  - pose proof (DayFromYear_mono (y + 1) (YearFromTime t) ltac:(lia)). lia.
  - destruct (Z_lt_le_dec (YearFromTime t) y); [|lia].
    pose proof (DayFromYear_mono (YearFromTime t + 1) y ltac:(lia)). lia.
Qed.

Lemma DayWithinYear_bounds t :
  0 <= DayWithinYear t < DaysInYear (YearFromTime t).
Proof.
  unfold DayWithinYear. pose proof (YearFromTime_spec t).
  rewrite DayFromYear_step in H. lia.
Qed.

Lemma InLeapYear_cases t :
  (InLeapYear t = 0 /\ DaysInYear (YearFromTime t) = 365) \/
  (InLeapYear t = 1 /\ DaysInYear (YearFromTime t) = 366).
Proof.
  unfold InLeapYear. destruct (DaysInYear_cases (YearFromTime t)) as [H|H];
    rewrite H; cbn; auto.
Qed.

Lemma MonthFromTime_range t : 0 <= MonthFromTime t <= 11.
Proof.
  unfold MonthFromTime.
  repeat match goal with |- context [if ?c then _ else _] => destruct c end; lia.
Qed.

Ltac month_cases t :=
  unfold DateFromTime, MonthFromTime;
  pose proof (DayWithinYear_bounds t);
  destruct (InLeapYear_cases t) as [[-> ?]|[-> ?]];
  set (d := DayWithinYear t) in *; clearbody d;
  repeat match goal with
         | |- context [Z.ltb ?a ?b] => destruct (Z.ltb_spec a b)
         end; cbn [Z.eqb Pos.eqb].

Lemma MakeDay_of_time t :
  MakeDay (YearFromTime t) (MonthFromTime t) (DateFromTime t) = Day t.
Proof.
  unfold MakeDay.
  pose proof (MonthFromTime_range t).
  rewrite Z.div_small, Z.mod_small, Z.add_0_r by lia.
  fold (InLeapYear t).
  assert (DaysBeforeMonth (MonthFromTime t) (InLeapYear t) + DateFromTime t - 1
          = DayWithinYear t); [|unfold DayWithinYear in *; lia].
  clear H. unfold DaysBeforeMonth. month_cases t; lia.
Qed.

Lemma DateFromTime_range t :
  1 <= DateFromTime t <= DaysInMonth (YearFromTime t) (MonthFromTime t).
Proof.
  unfold DaysInMonth. fold (InLeapYear t).
  month_cases t; cbn; lia.
Qed.

Lemma digit_val_digit n : digit_val (digit n) = Some (n mod 10).
Proof.
  unfold digit, digit_val.
  pose proof (Z.mod_pos_bound n 10 ltac:(lia)) as H.
  set (k := n mod 10) in *. clearbody k.
  assert (Hk : k = 0 \/ k = 1 \/ k = 2 \/ k = 3 \/ k = 4 \/ k = 5 \/ k = 6 \/
               k = 7 \/ k = 8 \/ k = 9) by lia.
  repeat destruct Hk as [->|Hk]; try subst k; reflexivity.
Qed.

Lemma digit_not_sign n : (Ascii.eqb (digit n) "+" || Ascii.eqb (digit n) "-")%char = false.
Proof.
  unfold digit.
  pose proof (Z.mod_pos_bound n 10 ltac:(lia)) as H.
  set (k := n mod 10) in *. clearbody k.
  assert (Hk : k = 0 \/ k = 1 \/ k = 2 \/ k = 3 \/ k = 4 \/ k = 5 \/ k = 6 \/
               k = 7 \/ k = 8 \/ k = 9) by lia.
  repeat destruct Hk as [->|Hk]; try subst k; reflexivity.
Qed.

Lemma digits_pad2 n : 0 <= n <= 99 ->
  digits_val [digit (n / 10); digit n] 0 = Some n.
Proof.
  intros H. cbn [digits_val]. rewrite !digit_val_digit. f_equal.
  Z.div_mod_to_equations. lia.
Qed.

Lemma digits_pad4 n : 0 <= n <= 9999 ->
  digits_val [digit (n / 1000); digit (n / 100); digit (n / 10); digit n] 0 = Some n.
Proof.
  intros H. cbn [digits_val]. rewrite !digit_val_digit. f_equal.
  Z.div_mod_to_equations. lia.
Qed.

Lemma TimeClip_small t : Z.abs t <= 8640000000000000 -> TimeClip t = Some t.
Proof. intros H. unfold TimeClip. destruct (Z.leb_spec (Z.abs t) 8640000000000000); [reflexivity|lia]. Qed.

(** The first ten characters of [toISOString] read back as UTC midnight of
    the same day. *)
Lemma Date_parse_toISOString t :
  0 <= YearFromTime t <= 9999 ->
  Z.abs t <= 8640000000000000 ->
  Date_parse (substring 0 10 (toISOString t)) = Some (msPerDay * Day t).
Proof.
  intros Hy Ht. unfold toISOString.
  destruct (Z.leb_spec 0 (YearFromTime t)); [|lia].
  destruct (Z.leb_spec (YearFromTime t) 9999); [|lia].
  cbn [andb]. unfold pad4, pad3, pad2. cbn [append substring].
  unfold Date_parse. cbn [list_ascii_of_string].
  rewrite digit_not_sign.
  pose proof (MonthFromTime_range t) as Hm.
  pose proof (DateFromTime_range t) as Hd.
  assert (Hd31 : DaysInMonth (YearFromTime t) (MonthFromTime t) <= 31).
  { unfold DaysInMonth. repeat match goal with |- context [if ?c then _ else _] => destruct c end; lia. }
  rewrite digits_pad4 by lia.
  rewrite !digits_pad2 by lia.
  cbn [Ascii.eqb Bool.eqb andb].
  unfold date_only.
  replace (MonthFromTime t + 1 - 1) with (MonthFromTime t) by lia.
  destruct (Z.leb_spec 1 (MonthFromTime t + 1)); [|lia].
  destruct (Z.leb_spec (MonthFromTime t + 1) 12); [|lia].
  destruct (Z.leb_spec 1 (DateFromTime t)); [|lia].
  destruct (Z.leb_spec (DateFromTime t) (DaysInMonth (YearFromTime t) (MonthFromTime t))); [|lia].
  cbn [andb]. rewrite MakeDay_of_time. unfold MakeDate.
  rewrite TimeClip_small.
  - f_equal. lia.
  - unfold Day, msPerDay. Z.div_mod_to_equations. lia.
Qed.

Lemma YearFromTime_clock now :
  0 <= now < 253402300800000 -> 1970 <= YearFromTime now <= 9999.
Proof.
  intros H. split.
  - apply YearFromTime_largest. unfold TimeFromYear. 
    replace (DayFromYear 1970) with 0 by reflexivity. lia.
  - destruct (Z_lt_le_dec 9999 (YearFromTime now)) as [Hgt|]; [|lia].
    exfalso. assert (H1 : 10000 <= YearFromTime now) by lia.
    apply YearFromTime_largest in H1. unfold TimeFromYear in H1.
    replace (msPerDay * DayFromYear 10000) with 253402300800000 in H1 by reflexivity. lia.
Qed.

(** ** Facts about the handlers and the store *)

Lemma isPaid_iff tza expenses id label :
  isPaid tza expenses id label = true <->
  exists exp : Expense, In exp expenses /\ recurringTemplateId exp = Some id /\
                        formatMonthYear tza (exp_date exp) = label.
Proof.
  unfold isPaid. rewrite existsb_exists. split.
  - intros (e & Hin & H). exists e. apply andb_prop in H as [H1 H2].
    split; [assumption|]. split.
    + unfold strict_eq in H1. destruct (recurringTemplateId e) as [s|]; [|discriminate].
      apply String.eqb_eq in H1. now subst.
    + now apply String.eqb_eq.
  - intros (e & Hin & H1 & H2). exists e. split; [assumption|].
    unfold strict_eq. rewrite H1, String.eqb_refl. cbn. now apply String.eqb_eq.
Qed.

Lemma store_apply_Alert u ok fresh s msg : store_apply u ok fresh s (Alert msg) = s.
Proof. unfold store_apply. now destruct ok. Qed.

(** The date that [handleMarkPaid] hands over, as [handleAddExpense] stores
    it: UTC midnight of the UTC day of [now]. *)
Lemma markPaid_date now :
  clock_in_range now ->
  Timestamp_fromDate (Date_parse (substring 0 10 (toISOString now))) =
  Some (msPerDay * Day now).
Proof.
  intros H. unfold clock_in_range in H.
  pose proof (YearFromTime_clock now H).
  rewrite Date_parse_toISOString by lia.
  unfold Timestamp_fromDate.
  assert (0 <= msPerDay * Day now <= now).
  { unfold Day, msPerDay. Z.div_mod_to_equations. lia. }
  destruct (Z.leb_spec (-62135596800000) (msPerDay * Day now)); [|lia].
  destruct (Z.ltb_spec (msPerDay * Day now) 253402300800000); [|lia].
  reflexivity.
Qed.

(** C1, at the input where the code fails.  In Manila, on 2025-11-01 at
    02:00 (2025-10-31T18:00:00Z), the bill is not paid for "Nov 2025" and
    mark-paid sends one expense of the template, with [paidFor]
    "Nov 2025".  Its date is the day of [toISOString], 2025-10-31 at UTC
    midnight: the application shows it as "Oct 31, 2025" and labels it
    "Oct 2025", while today is Nov 1, 2025. *)
Theorem markPaid_date_is_not_today :
  let now := clock env2 in
  let date := 1761868800000 in
  localDay manila now = (2025, 10, 1) /\
  formatDate manila now = "Nov 1, 2025"%string /\
  isPaid manila (expenses (fst w1)) (tpl_id rent) (formatMonthYear manila now) =
    false /\
  substring 0 10 (toISOString now) = "2025-10-31"%string /\
  requests (handleMarkPaid manila (fst w1) true now rent) =
    [AddDoc "users/u1/expenses"%string
       (PExpense {| exp_name := "Rent"; exp_amount := 500%Q;
                    exp_date := date;
                    exp_category := "Rent/Mortgage";
                    isRecurring := true; exp_frequency := None;
                    isGenerated := Some true;
                    recurringTemplateId := Some "t1"%string;
                    paidFor := Some "Nov 2025"%string |})] /\
  localDay manila date = (2025, 9, 31) /\
  formatDate manila date = "Oct 31, 2025"%string /\
  formatMonthYear manila date = "Oct 2025"%string /\
  localDay manila date <> localDay manila now.
Proof.
  cbv zeta. repeat split; try (vm_compute; reflexivity).
  vm_compute. discriminate.
Qed.

(** X22.  [handleMarkPaid] at the time [now], with the store handle and
    the user set: if some expense of the snapshot has the template's
    identifier as [recurringTemplateId] and a date whose month-year label
    is the one of [now], the only thing the handler does is the
    duplicate-payment alert, and the store is left as it is; otherwise it
    sends exactly one request, an [addDoc] to the user's expenses with
    name, amount and category of the template, [isRecurring] and
    [isGenerated] true, the template's identifier, [paidFor] the label of
    [now] in the zone of the host, and as date UTC midnight of the UTC day
    of [now] (the day of [toISOString], which is the day before or after
    the host's day when the two differ). *)
Theorem handleMarkPaid_requests (tza : Z) (st : AppState) (ok : bool) (now : Z)
  (t : Template) :
  not_ready st = false ->
  clock_in_range now ->
  let label := formatMonthYear tza now in
  let paid := exists exp : Expense,
      In exp (expenses st) /\ recurringTemplateId exp = Some (tpl_id t) /\
      formatMonthYear tza (exp_date exp) = label in
  (paid ->
     handleMarkPaid tza st ok now t = [Alert duplicateNotice] /\
     forall s fresh,
       fold_left (store_apply (uid st) ok fresh)
                 (handleMarkPaid tza st ok now t) s = s) /\
  (~ paid ->
     requests (handleMarkPaid tza st ok now t) =
     [AddDoc (getExpenseCollectionPath (uid st))
        (PExpense {| exp_name := tpl_name t;
                     exp_amount := tpl_amount t;
                     exp_date := msPerDay * Day now;
                     exp_category := tpl_category t;
                     isRecurring := true;
                     exp_frequency := None;
                     isGenerated := Some true;
                     recurringTemplateId := Some (tpl_id t);
                     paidFor := Some label |})]).
Proof.
  intros Hready Hnow label paid. split.
  - intros Hp. apply isPaid_iff in Hp. unfold handleMarkPaid.
    fold label. rewrite Hp. split; [reflexivity|].
    intros s fresh. cbn. apply store_apply_Alert.
  - intros Hp. unfold handleMarkPaid. fold label.
    destruct (isPaid tza (expenses st) (tpl_id t) label) eqn:E.
    + exfalso. apply Hp. now apply isPaid_iff.
    + unfold handleAddExpense. rewrite Hready. cbn [ea_date].
      rewrite (markPaid_date now Hnow). cbn.
      destruct ok; reflexivity.
Qed.

Lemma handleMarkPaid_requests_witness :
  handleMarkPaid manila weeklyView true wednesday rent = [Alert duplicateNotice] /\
  requests (handleMarkPaid manila (fst w1) true (clock env2) rent) =
  [AddDoc "users/u1/expenses"%string
     (PExpense {| exp_name := "Rent"; exp_amount := 500%Q;
                  exp_date := 1761868800000;
                  exp_category := "Rent/Mortgage";
                  isRecurring := true; exp_frequency := None;
                  isGenerated := Some true;
                  recurringTemplateId := Some "t1"%string;
                  paidFor := Some "Nov 2025"%string |})].
Proof.
  split.
  - refine (proj1 (proj1 (handleMarkPaid_requests manila weeklyView true wednesday
                            rent eq_refl _) _)).
    + unfold clock_in_range, wednesday. lia.
    + exists paidRent. split; [left; reflexivity|]. split; reflexivity.
  - refine (proj2 (handleMarkPaid_requests manila (fst w1) true (clock env2) rent
                     eq_refl _) _).
    + unfold clock_in_range. cbn. lia.
    + intros (e & Hin & _). exact Hin.
Defined.

Lemma reachable_w1 : reachable manila "u1" w1.
Proof.
  unfold w1. apply reach_step.
  - apply reach_initial.
  - intros t Ht. discriminate Ht.
  - unfold clock_in_range. vm_compute. split; [discriminate|reflexivity].
  - vm_compute. discriminate.
  - vm_compute. intros [].
Qed.

Lemma reachable_w2 : reachable manila "u1" w2.
Proof.
  unfold w2. apply reach_step.
  - apply reachable_w1.
  - intros t Ht. injection Ht as <-. vm_compute. left. reflexivity.
  - unfold clock_in_range. vm_compute. split; [discriminate|reflexivity].
  - vm_compute. discriminate.
  - vm_compute. intros [H|[]]. discriminate H.
Qed.

Lemma reachable_w3 : reachable manila "u1" w3.
Proof.
  unfold w3. apply reach_step.
  - apply reachable_w2.
  - intros t Ht. injection Ht as <-. vm_compute. left. reflexivity.
  - unfold clock_in_range. vm_compute. split; [discriminate|reflexivity].
  - vm_compute. discriminate.
  - vm_compute. intros [H|[H|[]]]; discriminate H.
Qed.

(** C2, at the input where the code fails.  In Manila, on 2025-11-01 at
    02:00 and 02:01 local time, two completed mark-paid actions on the same
    bill, each followed by its snapshot: both clocks are in the month
    "Nov 2025", the second call is not answered by the duplicate-payment
    alert, and the reachable state holds two generated expenses of the
    template whose dates fall in the same month ("Oct 2025"). *)
Theorem markPaid_twice_same_month_duplicates :
  reachable manila "u1" w3 /\
  formatMonthYear manila (clock env2) = "Nov 2025"%string /\
  formatMonthYear manila (clock env3) = "Nov 2025"%string /\
  handleMarkPaid manila (fst w2) true (clock env3) rent <> [Alert duplicateNotice] /\
  map (fun exp : Expense =>
         (exp_id exp, isGenerated exp, recurringTemplateId exp,
          formatMonthYear manila (exp_date exp)))
      (expenses (fst w3)) =
    [("e2", Some true, Some "t1", "Oct 2025");
     ("e1", Some true, Some "t1", "Oct 2025")]%string /\
  ~ at_most_one_generated manila (expenses (fst w3)).
Proof.
  split; [|split; [|split; [|split; [|split]]]].
  - apply reachable_w3.
  - vm_compute. reflexivity.
  - vm_compute. reflexivity.
  - vm_compute. discriminate.
  - vm_compute. reflexivity.
  - intros H. specialize (H "t1"%string "Oct 2025"%string).
    vm_compute in H. apply (proj1 (Nat.le_ngt _ _) H). constructor.
Qed.

(** C3, at the input where the code fails.  In Manila, in the middle of
    November 2025, an income that the form dates 2025-11-30 (the last day
    of the current month, 08:00 local time) is not in the monthly report:
    the period ends at local midnight at the beginning of the last day. *)
Theorem monthly_report_drops_last_day :
  Date_parse "2025-11-30" = Some (inc_date incomeNov30) /\
  localDay manila midNovember = (2025, 10, 15) /\
  localDay manila (inc_date incomeNov30) = (2025, 10, 30) /\
  DaysInMonth 2025 10 = 30 /\
  period manila "Monthly" midNovember = (Some 1761926400000, Some 1764432000000) /\
  r_incomes (filteredTransactions manila [incomeNov30] [] "Monthly" midNovember) = [].
Proof. repeat split; vm_compute; reflexivity. Qed.

(** C6, at the input where the code fails.  In Manila, on Wednesday
    2025-11-05 at 10:00, an income that the form dates Monday 2025-11-03
    (08:00 local time) is not in the weekly report: the period starts on
    Monday at the time of day of [now], because [setDate] keeps it. *)
Theorem weekly_report_drops_monday :
  Date_parse "2025-11-03" = Some (inc_date incomeNov03) /\
  localDay manila wednesday = (2025, 10, 5) /\ getDay manila wednesday = 3 /\
  localDay manila (inc_date incomeNov03) = (2025, 10, 3) /\
  getDay manila (inc_date incomeNov03) = 1 /\
  period manila "Weekly" wednesday = (Some 1762135200000, Some 1762653600000) /\
  r_incomes (filteredTransactions manila [incomeNov03] [] "Weekly" wednesday) = [].
Proof. repeat split; vm_compute; reflexivity. Qed.

(** C9, at the input where the code fails.  In Manila, on 2025-11-01 at
    02:00, the bill is not paid for "Nov 2025", mark-paid succeeds and the
    snapshot holds the new expense of the template, and the is-paid test
    for the same bill and the same month is still false. *)
Theorem isPaid_false_after_markPaid :
  reachable manila "u1" w2 /\
  isPaid manila (expenses (fst w1)) (tpl_id rent)
         (formatMonthYear manila (clock env2)) = false /\
  map (fun exp : Expense => (exp_id exp, recurringTemplateId exp, paidFor exp))
      (expenses (fst w2)) = [("e1", Some "t1", Some "Nov 2025")]%string /\
  isPaid manila (expenses (fst w2)) (tpl_id rent)
         (formatMonthYear manila (clock env2)) = false.
Proof.
  split; [apply reachable_w2|]. repeat split; vm_compute; reflexivity.
Qed.

(** ** Facts about the calculations *)







(** ** Facts about numbers *)

Lemma rne_error q : (Qabs (inject_Z (rne q) - q) <= 1 # 2)%Q.
Proof.
  unfold rne. pose proof (Qfloor_le q) as H1. pose proof (Qlt_floor q) as H2.
  rewrite inject_Z_plus in H2. change (inject_Z 1) with 1%Q in H2.
  set (f := Qfloor q) in *.
  apply Qabs_Qle_condition.
  destruct (Qcompare_spec (q - inject_Z f) (1 # 2)) as [E|E|E].
  - destruct (Z.even f).
    + lra.
    + rewrite inject_Z_plus. change (inject_Z 1) with 1%Q. lra.
  - lra.
  - rewrite inject_Z_plus. change (inject_Z 1) with 1%Q. lra.
Qed.

Lemma Qpow2_pos e : (0 < 2 ^ e)%Q.
Proof. apply Qpower_0_lt. reflexivity. Qed.

Lemma Qpow2_succ e : (2 ^ (e + 1) == 2 * 2 ^ e)%Q.
Proof. rewrite Qpower_plus by discriminate. change (2 ^ 1)%Q with 2%Q. ring. Qed.

Lemma Qdiv_bounds (A B PA PB : Q) :
  (0 < PA -> 0 < PB -> PA <= A -> A < 2 * PA -> PB <= B -> B < 2 * PB ->
   PA / PB * (1 # 2) < A / B /\ A / B < PA / PB * 2)%Q.
Proof.
  intros HPA HPB H1 H2 H3 H4.
  assert (HB : (0 < B)%Q) by lra.
  split.
  - apply Qlt_shift_div_l; [exact HB|].
    assert (E : (PA / PB * (1 # 2) * B == (PA * B) * (1 # 2) / PB)%Q) by (field; lra).
    rewrite E. apply Qlt_shift_div_r; [exact HPB|]. nra.
  - apply Qlt_shift_div_r; [exact HB|].
    assert (E : (PA / PB * 2 * B == (PA * B) * 2 / PB)%Q) by (field; lra).
    rewrite E. apply Qlt_shift_div_l; [exact HPB|]. nra.
Qed.

(** [ilog2] is the binary exponent. *)
Lemma ilog2_spec x :
  ~ (x == 0)%Q -> (2 ^ ilog2 x <= Qabs x /\ Qabs x < 2 ^ (ilog2 x + 1))%Q.
Proof.
  intros Hx. unfold ilog2.
  set (n := Z.abs (Qnum x)). set (d := Z.pos (Qden x)).
  assert (Hn : 0 < n).
  { unfold n. destruct x as [[|p|p] q]; cbn; try lia. exfalso. apply Hx. reflexivity. }
  assert (Hd : 0 < d) by (unfold d; lia).
  pose proof (Z.log2_spec n Hn) as Ln. pose proof (Z.log2_spec d Hd) as Ld.
  pose proof (Z.log2_nonneg n) as Nn. pose proof (Z.log2_nonneg d) as Nd.
  set (a := Z.log2 n) in *. set (b := Z.log2 d) in *.
  assert (EA : (Qabs x == inject_Z n / inject_Z d)%Q).
  { unfold n, d. destruct x as [u v]. cbn [Qabs Qnum Qden]. apply Qmake_Qdiv. }
  assert (PA : (inject_Z (2 ^ a) == 2 ^ a)%Q) by (apply Zpower_Qpower; lia).
  assert (PB : (inject_Z (2 ^ b) == 2 ^ b)%Q) by (apply Zpower_Qpower; lia).
  assert (PA' : (inject_Z (2 ^ Z.succ a) == 2 * 2 ^ a)%Q).
  { rewrite Zpower_Qpower by lia. unfold Z.succ. apply Qpow2_succ. }
  assert (PB' : (inject_Z (2 ^ Z.succ b) == 2 * 2 ^ b)%Q).
  { rewrite Zpower_Qpower by lia. unfold Z.succ. apply Qpow2_succ. }
  assert (B1 : (2 ^ a <= inject_Z n)%Q) by (rewrite <- PA; rewrite <- Zle_Qle; lia).
  assert (B2 : (inject_Z n < 2 * 2 ^ a)%Q) by (rewrite <- PA'; rewrite <- Zlt_Qlt; lia).
  assert (B3 : (2 ^ b <= inject_Z d)%Q) by (rewrite <- PB; rewrite <- Zle_Qle; lia).
  assert (B4 : (inject_Z d < 2 * 2 ^ b)%Q) by (rewrite <- PB'; rewrite <- Zlt_Qlt; lia).
  pose proof (Qdiv_bounds _ _ _ _ (Qpow2_pos a) (Qpow2_pos b) B1 B2 B3 B4) as [L U].
  rewrite <- EA in L, U.
  assert (E : (2 ^ (a - b) == 2 ^ a / 2 ^ b)%Q) by (apply Qpower_minus; discriminate).
  rewrite <- E in L, U.
  destruct (Qle_bool (2 ^ (a - b)) (Qabs x)) eqn:C.
  - apply Qle_bool_iff in C. split; [exact C|]. rewrite Qpow2_succ. lra.
  - assert (C' : (Qabs x < 2 ^ (a - b))%Q).
    { apply Qnot_le_lt. intros H. apply Qle_bool_iff in H. congruence. }
    replace (a - b - 1 + 1) with (a - b) by lia. split; [|exact C'].
    assert (E2 : (2 ^ (a - b) == 2 * 2 ^ (a - b - 1))%Q).
    { rewrite <- Qpow2_succ. replace (a - b - 1 + 1) with (a - b) by lia. reflexivity. }
    lra.
Qed.

Lemma quantum_pos x : (0 < quantum x)%Q.
Proof. apply Qpow2_pos. Qed.

(** Rounding moves a real by at most half a quantum. *)
Lemma nearest_error x : (Qabs (nearest x - x) <= (1 # 2) * quantum x)%Q.
Proof.
  unfold nearest. pose proof (quantum_pos x) as Hq.
  destruct (Qeq_bool x 0) eqn:E.
  - apply Qeq_bool_iff in E.
    assert (Z0 : (Qabs (0 - x) == 0)%Q) by (rewrite E; reflexivity).
    rewrite Z0. lra.
  - rewrite Qred_correct.
    assert (Ex : (inject_Z (rne (x / quantum x)) * quantum x - x ==
                  (inject_Z (rne (x / quantum x)) - x / quantum x) * quantum x)%Q)
      by (field; lra).
    rewrite Ex, Qabs_Qmult, (Qabs_pos (quantum x)) by lra.
    pose proof (rne_error (x / quantum x)). nra.
Qed.

Lemma quantum_bound x B :
  ~ (x == 0)%Q -> (Qabs x <= B)%Q -> (2 ^ (-1022) <= B)%Q ->
  (quantum x <= 2 ^ (-52) * B)%Q.
Proof.
  intros Hx H1 H2. unfold quantum.
  destruct (ilog2_spec x Hx) as [L _].
  assert (E : forall e, (2 ^ (e - 52) == 2 ^ (-52) * 2 ^ e)%Q).
  { intros e. replace (e - 52) with (-52 + e) by lia.
    apply Qpower_plus. discriminate. }
  rewrite E. pose proof (Qpow2_pos (-52)).
  destruct (Z.max_spec (ilog2 x) (-1022)) as [[_ ->]|[_ ->]]; nra.
Qed.

(** The error of a rounding, relative to a bound of the real that is in
    the range of the normal doubles. *)
Lemma nearest_rel x B :
  (Qabs x <= B)%Q -> (2 ^ (-1022) <= B)%Q ->
  (Qabs (nearest x - x) <= unit_roundoff * B)%Q.
Proof.
  intros H1 H2.
  destruct (Qeq_dec x 0) as [E|E].
  - unfold nearest. destruct (Qeq_bool x 0) eqn:C.
    + assert (Z0 : (Qabs (0 - x) == 0)%Q) by (rewrite E; reflexivity).
      rewrite Z0. assert (0 < unit_roundoff)%Q by apply Qpow2_pos.
      pose proof (Qpow2_pos (-1022)). nra.
    + exfalso. apply Qeq_bool_iff in E. congruence.
  - pose proof (nearest_error x). pose proof (quantum_bound x B E H1 H2).
    assert (U : ((1 # 2) * 2 ^ (-52) == unit_roundoff)%Q) by reflexivity.
    rewrite <- U. lra.
Qed.

(** On all pairs of the sample operands, sums, products and quotients are
    the ones of binary64, as the primitive floating-point operations
    compute them. *)
Lemma numbers_agree_with_binary64 :
  forallb (fun p => agrees PrimFloat.add Number_add (fst p) (snd p) &&
                    agrees PrimFloat.mul Number_multiply (fst p) (snd p) &&
                    agrees PrimFloat.div Number_divide (fst p) (snd p))
          (list_prod samples samples) = true.
Proof. vm_compute. reflexivity. Qed.

(** The amounts of the scenario are the doubles 0.1 and 1000.1, and the
    averages of the model are the ones of binary64: for 0.1 and 0.2 the
    average is 0.15000000000000002. *)
#[local] Set Warnings "-inexact-float".
Lemma averages_agree_with_binary64 :
  Finite tenth = value_of_float 0.1 /\
  Finite thousand_and_a_tenth = value_of_float 1000.1 /\
  reduce_amounts (fun inc : Income => inc_amount inc) threeIncomes =
    value_of_float (0 + 0.1 + 0.1 + 1000.1) /\
  avgMonthlyIncome threeIncomes = value_of_float ((0 + 0.1 + 0.1 + 1000.1) / 3) /\
  Number_multiply (avgMonthlyIncome threeIncomes) (Finite 3) =
    value_of_float ((0 + 0.1 + 0.1 + 1000.1) / 3 * 3) /\
  avgMonthlyIncome [incomeOf "i6" tenth; incomeOf "i7" (2 * tenth)] =
    value_of_float ((0 + 0.1 + 0.2) / 2) /\
  value_of_float ((0 + 0.1 + 0.2) / 2) =
    Finite (1351079888211149 # 9007199254740992).
Proof. repeat split; vm_compute; reflexivity. Qed.
#[local] Set Warnings "+inexact-float".

Lemma unit_roundoff_small : (0 < unit_roundoff /\ unit_roundoff <= 1 # 4)%Q.
Proof. split; [apply Qpow2_pos|]. vm_compute. discriminate. Qed.

(** No overflow: a real that is well below 2 ^ 1024 rounds to a double. *)
Lemma round64_finite x B :
  (Qabs x <= B)%Q -> (2 ^ (-1022) <= B)%Q -> (B <= (3 # 2) * 2 ^ 1023)%Q ->
  round64 x = Finite (nearest x).
Proof.
  intros H1 H2 H3. unfold round64.
  destruct (Qle_bool (2 ^ 1024) (Qabs (nearest x))) eqn:C; [|reflexivity].
  exfalso. apply Qle_bool_iff in C.
  pose proof (nearest_rel x B H1 H2) as R.
  pose proof (Qabs_triangle (nearest x - x) x) as T.
  assert (E : (nearest x - x + x == nearest x)%Q) by ring.
  rewrite E in T.
  assert (P : (2 ^ 1024 == 2 * 2 ^ 1023)%Q) by (apply (Qpow2_succ 1023)).
  destruct unit_roundoff_small. pose proof (Qpow2_pos 1023).
  set (P1023 := (2 ^ 1023)%Q) in *. set (u := unit_roundoff) in *.
  set (P1024 := (2 ^ 1024)%Q) in *. nra.
Qed.

Lemma round64_zero x : (x == 0)%Q -> round64 x = Finite 0.
Proof.
  intros E. unfold round64, nearest.
  apply Qeq_bool_iff in E. rewrite E. reflexivity.
Qed.

(** A quotient by [n] and its product with [n] again, both rounded. *)
Lemma quotient_product_error s n :
  (1 <= n)%Q -> (2 ^ (-1022) * n <= Qabs s)%Q ->
  let a := nearest (s / n) in
  (Qabs (a * n - s) <= unit_roundoff * Qabs s)%Q /\
  (Qabs (a * n) <= (1 + unit_roundoff) * Qabs s)%Q /\
  (Qabs (nearest (a * n) - s) <=
     (2 * unit_roundoff + unit_roundoff * unit_roundoff) * Qabs s)%Q.
Proof.
  intros Hn Hs a. destruct unit_roundoff_small as [U0 U1].
  pose proof (Qpow2_pos (-1022)) as Pm.
  assert (Hq : (Qabs (s / n) == Qabs s / n)%Q).
  { unfold Qdiv. rewrite Qabs_Qmult. rewrite (Qabs_pos (/ n)); [reflexivity|].
    apply Qlt_le_weak, Qinv_lt_0_compat. lra. }
  assert (Hlow : (2 ^ (-1022) <= Qabs (s / n))%Q).
  { rewrite Hq. apply Qle_shift_div_l; lra. }
  pose proof (nearest_rel (s / n) _ (Qle_refl _) Hlow) as R. fold a in R.
  assert (R1 : (Qabs (a * n - s) <= unit_roundoff * Qabs s)%Q).
  { assert (E : (a * n - s == (a - s / n) * n)%Q) by (field; lra).
    rewrite E, Qabs_Qmult, (Qabs_pos n) by lra.
    rewrite Hq in R.
    assert (E2 : (unit_roundoff * Qabs s == unit_roundoff * (Qabs s / n) * n)%Q)
      by (field; lra).
    rewrite E2. apply Qmult_le_compat_r; lra. }
  split; [exact R1|].
  assert (B : (Qabs (a * n) <= (1 + unit_roundoff) * Qabs s)%Q).
  { pose proof (Qabs_triangle (a * n - s) s) as T.
    assert (E : (a * n - s + s == a * n)%Q) by ring. rewrite E in T. lra. }
  split; [exact B|].
  assert (B2 : (2 ^ (-1022) <= (1 + unit_roundoff) * Qabs s)%Q).
  { pose proof (Qabs_nonneg s). nra. }
  pose proof (nearest_rel (a * n) _ B B2) as R2.
  pose proof (Qabs_triangle (nearest (a * n) - a * n) (a * n - s)) as T.
  assert (E : (nearest (a * n) - a * n + (a * n - s) == nearest (a * n) - s)%Q) by ring.
  rewrite E in T. nra.
Qed.

(** ** The averages *)

Lemma reduce_amounts_in_order {A} (amount : A -> Q) (l : list A) :
  reduce_amounts amount l = sum_in_order amount l.
Proof.
  unfold reduce_amounts, sum_in_order.
  induction l as [|x l IH] using rev_ind.
  - reflexivity.
  - rewrite fold_left_app, map_app, rev_app_distr. cbn. now rewrite IH.
Qed.

Lemma max1_length_count {A} (l : list A) :
  l <> [] -> max1_length l = count l.
Proof.
  intros H. destruct l as [|x l]; [congruence|].
  reflexivity.
Qed.

Lemma count_ge_1 {A} (l : list A) : l <> [] -> (1 <= count l)%Q.
Proof.
  intros H. destruct l as [|x l]; [congruence|]. unfold count.
  change 1%Q with (inject_Z 1). rewrite <- Zle_Qle. cbn [List.length]. lia.
Qed.

Lemma avg_formula {A} (amount : A -> Q) (l : list A) :
  (if Nat.eqb (List.length l) 0 then Finite 0
   else Number_divide (reduce_amounts amount l) (Finite (max1_length l))) =
  Number_divide (sum_in_order amount l)
                (Finite (inject_Z (Z.max 1 (Z.of_nat (List.length l))))).
Proof.
  destruct l as [|x l].
  - vm_compute. reflexivity.
  - cbn [List.length Nat.eqb]. rewrite reduce_amounts_in_order.
    unfold max1_length.
    replace (Z.of_nat (Nat.max 1 (List.length (x :: l))))
      with (Z.max 1 (Z.of_nat (List.length (x :: l)))) by (cbn [List.length]; lia).
    reflexivity.
Qed.

Lemma avg_times_count {A} (amount : A -> Q) (l : list A) (s : Q) :
  l <> [] ->
  reduce_amounts amount l = Finite s ->
  in_range s (count l) ->
  exists a p : Q,
    (if Nat.eqb (List.length l) 0 then Finite 0
     else Number_divide (reduce_amounts amount l) (Finite (max1_length l))) =
    Finite a /\
    Number_multiply (Finite a) (Finite (count l)) = Finite p /\
    (Qabs (a * count l - s) <= unit_roundoff * Qabs s)%Q /\
    (Qabs (p - s) <=
       (2 * unit_roundoff + unit_roundoff * unit_roundoff) * Qabs s)%Q.
Proof.
  intros Hl Hs Hr. pose proof (count_ge_1 l Hl) as Hn.
  rewrite (max1_length_count l Hl), Hs.
  destruct l as [|x0 l0] eqn:El; [congruence|].
  cbn [List.length Nat.eqb]. rewrite <- El in *. clear El x0 l0 Hl Hs.
  set (n := count l) in *.
  assert (Hn0 : Qeq_bool n 0 = false).
  { destruct (Qeq_bool n 0) eqn:C; [|reflexivity].
    apply Qeq_bool_iff in C. lra. }
  cbn [Number_divide Number_multiply]. rewrite Hn0.
  destruct unit_roundoff_small as [U0 U1].
  destruct Hr as [Z0|[Lo Hi]].
  - assert (Zq : (s / n == 0)%Q) by (rewrite Z0; field; lra).
    exists 0%Q, 0%Q. rewrite (round64_zero _ Zq).
    assert (Zp : (0 * n == 0)%Q) by ring.
    rewrite (round64_zero _ Zp).
    split; [reflexivity|]. split; [reflexivity|].
    assert (A0 : (Qabs s == 0)%Q) by (rewrite Z0; reflexivity).
    assert (A1 : (Qabs (0 * n - s) == 0)%Q).
    { assert (E : (0 * n - s == - s)%Q) by ring.
      rewrite E, Qabs_opp. exact A0. }
    assert (A2 : (Qabs (0 - s) == 0)%Q).
    { assert (E : (0 - s == - s)%Q) by ring.
      rewrite E, Qabs_opp. exact A0. }
    rewrite A0, A1, A2. split; lra.
  - pose proof (Qpow2_pos (-1022)) as Pm. pose proof (Qpow2_pos 1023) as Pp.
    destruct (quotient_product_error s n Hn Lo) as (R1 & B & R2).
    set (a := nearest (s / n)) in *.
    exists a, (nearest (a * n)).
    assert (Hq : (Qabs (s / n) <= Qabs s)%Q).
    { unfold Qdiv. rewrite Qabs_Qmult.
      assert (I : (0 < / n)%Q) by (apply Qinv_lt_0_compat; lra).
      rewrite (Qabs_pos (/ n)) by lra.
      assert (I1 : (/ n <= 1)%Q).
      { apply Qle_shift_inv_r; lra. }
      pose proof (Qabs_nonneg s). nra. }
    assert (F1 : round64 (s / n) = Finite a).
    { apply (round64_finite (s / n) (Qabs s)); [exact Hq|nra|lra]. }
    assert (F2 : round64 (a * n) = Finite (nearest (a * n))).
    { apply (round64_finite (a * n) ((1 + unit_roundoff) * Qabs s)).
      - exact B.
      - pose proof (Qabs_nonneg s). nra.
      - nra. }
    rewrite F1, F2. repeat split; assumption.
Qed.

(** C7 as stated fails.  With three incomes of 0.1, 0.1 and 1000.1 (the
    doubles that [parseFloat] gives), the sum of the source is
    1000.3000000000001, the average is 333.43333333333334, and the average
    times three is 1000.3: not the sum, neither as the product that
    JavaScript computes nor as the exact product.  Neither is the sum of
    the source the exact sum of the amounts, nor the average the exact
    quotient. *)
Lemma average_times_count_counterexample :
  let amount := fun inc : Income => inc_amount inc in
  let sum := (8798731850114663 # 8796093022208)%Q in
  let avg := (5865821233409775 # 17592186044416)%Q in
  let product := (4399365925057331 # 4398046511104)%Q in
  reduce_amounts amount threeIncomes = Finite sum /\
  avgMonthlyIncome threeIncomes = Finite avg /\
  Number_multiply (avgMonthlyIncome threeIncomes) (Finite (count threeIncomes)) =
    Finite product /\
  ~ (product == sum)%Q /\
  ~ (avg * count threeIncomes == sum)%Q /\
  ~ (sum == sum_of amount threeIncomes)%Q /\
  ~ (avg == sum_of amount threeIncomes / count threeIncomes)%Q.
Proof.
  cbv zeta. repeat split; try (vm_compute; reflexivity); vm_compute; discriminate.
Qed.

(** C7, amended.  The average income is the sum of the amounts of the
    incomes divided by max(1, count) in the arithmetic of numbers: the sum
    is taken from left to right starting from 0, and every addition and the
    division are rounded to the nearest double.  It is 0 for the empty
    list.  For a non-empty list whose sum [s] is a double that is zero or
    has 2^-1022 * count <= |s| <= 2^1023, the average is a double, the
    average times the count differs from [s] by at most 2^-53 * |s|, and
    that product as JavaScript computes it, rounded once more, by at most
    (2^-52 + 2^-106) * |s|.  The same holds for the average expense. *)
Theorem average_spec (incomes : list Income) (expenses : list Expense) :
  let max1 {A} (l : list A) := inject_Z (Z.max 1 (Z.of_nat (List.length l))) in
  let u := unit_roundoff in
  let product_close {A} (avg : number) (l : list A) (s : Q) :=
    exists a p : Q,
      avg = Finite a /\
      Number_multiply (Finite a) (Finite (count l)) = Finite p /\
      (Qabs (a * count l - s) <= u * Qabs s)%Q /\
      (Qabs (p - s) <= (2 * u + u * u) * Qabs s)%Q in
  avgMonthlyIncome incomes =
    Number_divide (sum_in_order (fun inc : Income => inc_amount inc) incomes)
                  (Finite (max1 incomes)) /\
  avgMonthlyExpense expenses =
    Number_divide (sum_in_order (fun exp : Expense => exp_amount exp) expenses)
                  (Finite (max1 expenses)) /\
  avgMonthlyIncome [] = Finite 0 /\
  avgMonthlyExpense [] = Finite 0 /\
  (forall s, incomes <> [] ->
     sum_in_order (fun inc : Income => inc_amount inc) incomes = Finite s ->
     in_range s (count incomes) ->
     product_close (avgMonthlyIncome incomes) incomes s) /\
  (forall s, expenses <> [] ->
     sum_in_order (fun exp : Expense => exp_amount exp) expenses = Finite s ->
     in_range s (count expenses) ->
     product_close (avgMonthlyExpense expenses) expenses s).
Proof.
  cbv zeta. split; [|split; [|split; [|split; [|split]]]].
  - apply avg_formula.
  - apply avg_formula.
  - reflexivity.
  - reflexivity.
  - intros s Hl Hs Hr. rewrite <- reduce_amounts_in_order in Hs.
    exact (avg_times_count _ incomes s Hl Hs Hr).
  - intros s Hl Hs Hr. rewrite <- reduce_amounts_in_order in Hs.
    exact (avg_times_count _ expenses s Hl Hs Hr).
Qed.

Lemma average_spec_witness :
  let u := unit_roundoff in
  let s := (8798731850114663 # 8796093022208)%Q in
  (exists a p : Q,
     avgMonthlyIncome threeIncomes = Finite a /\
     Number_multiply (Finite a) (Finite (count threeIncomes)) = Finite p /\
     (Qabs (a * count threeIncomes - s) <= u * Qabs s)%Q /\
     (Qabs (p - s) <= (2 * u + u * u) * Qabs s)%Q) /\
  (exists a p : Q,
     avgMonthlyExpense [paidRent] = Finite a /\
     Number_multiply (Finite a) (Finite (count [paidRent])) = Finite p /\
     (Qabs (a * count [paidRent] - 500) <= u * Qabs 500)%Q /\
     (Qabs (p - 500) <= (2 * u + u * u) * Qabs 500)%Q).
Proof.
  cbv zeta. split.
  - refine (proj1 (proj2 (proj2 (proj2 (proj2
              (average_spec threeIncomes [paidRent])))))
              (8798731850114663 # 8796093022208)%Q _ _ _).
    + discriminate.
    + vm_compute. reflexivity.
    + right. split; vm_compute; discriminate.
  - refine (proj2 (proj2 (proj2 (proj2 (proj2
              (average_spec threeIncomes [paidRent])))))
              500%Q _ _ _).
    + discriminate.
    + vm_compute. reflexivity.
    + right. split; vm_compute; discriminate.
Defined.

(** ** Remaining and progress *)




(** ** The memoised values around midnight *)


(** ** Further facts about the date arithmetic *)

Lemma Day_same_fields t1 t2 :
  Day t1 = Day t2 ->
  YearFromTime t1 = YearFromTime t2 /\ MonthFromTime t1 = MonthFromTime t2 /\
  DateFromTime t1 = DateFromTime t2.
Proof.
  intros H.
  assert (Hy : YearFromTime t1 = YearFromTime t2) by (unfold YearFromTime; now rewrite H).
  assert (Hl : InLeapYear t1 = InLeapYear t2) by (unfold InLeapYear; now rewrite Hy).
  assert (Hd : DayWithinYear t1 = DayWithinYear t2) by (unfold DayWithinYear; now rewrite H, Hy).
  assert (Hm : MonthFromTime t1 = MonthFromTime t2) by (unfold MonthFromTime; now rewrite Hd, Hl).
  assert (Hdt : DateFromTime t1 = DateFromTime t2) by (unfold DateFromTime; now rewrite Hd, Hl, Hm).
  auto.
Qed.

Lemma Day_fields t1 t2 :
  Day t1 = Day t2 <->
  (YearFromTime t1, MonthFromTime t1, DateFromTime t1) =
  (YearFromTime t2, MonthFromTime t2, DateFromTime t2).
Proof.
  split.
  - intros H. apply Day_same_fields in H as (Hy & Hm & Hd). now rewrite Hy, Hm, Hd.
  - intros H.
    assert (Hy := f_equal (fun p => fst (fst p)) H).
    assert (Hm := f_equal (fun p => snd (fst p)) H).
    assert (Hd := f_equal (fun p => snd p) H). cbn [fst snd] in Hy, Hm, Hd.
    rewrite <- (MakeDay_of_time t1), <- (MakeDay_of_time t2). now rewrite Hy, Hm, Hd.
Qed.

Lemma localDay_Day tza t1 t2 :
  localDay tza t1 = localDay tza t2 <-> Day (LocalTime tza t1) = Day (LocalTime tza t2).
Proof. unfold localDay, getFullYear, getMonth, getDate. symmetry. apply Day_fields. Qed.

Lemma Day_bounds t d : Day t = d <-> d * msPerDay <= t <= d * msPerDay + 86399999.
Proof. unfold Day, msPerDay. split; intros H; Z.div_mod_to_equations; lia. Qed.

Lemma Day_TimeWithinDay t : t = Day t * msPerDay + TimeWithinDay t.
Proof.
  unfold Day, TimeWithinDay. pose proof (Z_div_mod_eq_full t msPerDay). lia.
Qed.

Lemma MakeDay_shift y m d d' : MakeDay y m d = MakeDay y m d' + (d - d').
Proof. unfold MakeDay. lia. Qed.

Lemma setDate_shift tza t dt :
  Z.abs (t + (dt - getDate tza t) * msPerDay) <= 8640000000000000 ->
  setDate tza t dt = Some (t + (dt - getDate tza t) * msPerDay).
Proof.
  intros H. unfold setDate, getDate in *.
  rewrite (MakeDay_shift _ _ dt (DateFromTime (LocalTime tza t))), MakeDay_of_time.
  unfold UTC, MakeDate.
  pose proof (Day_TimeWithinDay (LocalTime tza t)) as Hlt.
  assert (E : (Day (LocalTime tza t) + (dt - DateFromTime (LocalTime tza t))) * msPerDay +
              TimeWithinDay (LocalTime tza t) - tza =
              t + (dt - DateFromTime (LocalTime tza t)) * msPerDay).
  { unfold LocalTime at 1 in Hlt. lia. }
  rewrite E. now apply TimeClip_small.
Qed.

Lemma Day_shift t n : Day (t + n * msPerDay) = Day t + n.
Proof. unfold Day, msPerDay. now rewrite Z.div_add by lia. Qed.

Lemma TimeWithinDay_shift t n : TimeWithinDay (t + n * msPerDay) = TimeWithinDay t.
Proof. unfold TimeWithinDay, msPerDay. now rewrite Z.mod_add by lia. Qed.

Lemma month_enum m : 0 <= m <= 11 ->
  m = 0 \/ m = 1 \/ m = 2 \/ m = 3 \/ m = 4 \/ m = 5 \/ m = 6 \/ m = 7 \/
  m = 8 \/ m = 9 \/ m = 10 \/ m = 11.
Proof. lia. Qed.

Lemma MakeDay_small y m d : 0 <= m <= 11 ->
  MakeDay y m d =
  DayFromYear y + DaysBeforeMonth m (if DaysInYear y =? 366 then 1 else 0) + d - 1.
Proof.
  intros H. unfold MakeDay. rewrite Z.div_small, Z.mod_small, Z.add_0_r by lia.
  reflexivity.
Qed.

Lemma MakeDay_next_month y m : 0 <= m <= 11 ->
  MakeDay y (m + 1) 0 = MakeDay y m (DaysInMonth y m).
Proof.
  intros H. rewrite (MakeDay_small y m) by assumption.
  apply month_enum in H.
  destruct H as [->|[->|[->|[->|[->|[->|[->|[->|[->|[->|[->| ->]]]]]]]]]]];
    try (rewrite MakeDay_small by lia; unfold DaysInMonth, DaysBeforeMonth;
         cbn [Z.eqb Z.add Pos.add Pos.succ Pos.eqb orb];
         destruct (DaysInYear y =? 366); lia).
  unfold MakeDay. change ((11 + 1) / 12) with 1. change ((11 + 1) mod 12) with 0.
  rewrite DayFromYear_step. unfold DaysInMonth, DaysBeforeMonth.
  cbn [Z.eqb Pos.eqb orb].
  destruct (DaysInYear_cases y) as [E|E]; rewrite E; cbn; lia.
Qed.

Lemma month_interval y m s : 0 <= m <= 11 ->
  MakeDay y m 1 <= Day s <= MakeDay y m (DaysInMonth y m) ->
  YearFromTime s = y /\ MonthFromTime s = m.
Proof.
  intros Hm H. rewrite !MakeDay_small in H by assumption.
  assert (Hy : YearFromTime s = y).
  { apply YearFromTime_unique. rewrite DayFromYear_step.
    apply month_enum in Hm. unfold DaysInMonth, DaysBeforeMonth in H.
    destruct (DaysInYear_cases y) as [E|E]; rewrite E in *;
    destruct Hm as [->|[->|[->|[->|[->|[->|[->|[->|[->|[->|[->| ->]]]]]]]]]]];
      cbn in H; lia. }
  split; [assumption|].
  unfold MonthFromTime, DayWithinYear, InLeapYear. rewrite Hy.
  apply month_enum in Hm. unfold DaysInMonth, DaysBeforeMonth in H.
  set (d := Day s - DayFromYear y).
  assert (Hd : Day s = DayFromYear y + d) by (unfold d; lia).
  rewrite Hd in H. clearbody d.
  destruct (DaysInYear_cases y) as [E|E]; rewrite E in *;
  destruct Hm as [->|[->|[->|[->|[->|[->|[->|[->|[->|[->|[->| ->]]]]]]]]]]];
    cbn in H; cbn [Z.eqb Pos.eqb];
    repeat match goal with
           | |- context [Z.ltb ?a ?b] => destruct (Z.ltb_spec a b)
           end; lia.
Qed.

Lemma local_year_range tza now :
  clock_in_range now -> zone_in_range tza ->
  100 <= getFullYear tza now.
Proof.
  intros Hnow Hz. unfold clock_in_range in Hnow. unfold zone_in_range, msPerDay in Hz.
  unfold getFullYear. apply YearFromTime_largest. unfold TimeFromYear, LocalTime.
  replace (msPerDay * DayFromYear 100) with (-59011459200000) by reflexivity. lia.
Qed.

Lemma DaysInMonth_range y m : 28 <= DaysInMonth y m <= 31.
Proof.
  unfold DaysInMonth.
  repeat match goal with |- context [if ?c then _ else _] => destruct c end; lia.
Qed.

Lemma digit_not_dash n : Ascii.eqb (digit n) "-" = false.
Proof.
  pose proof (digit_not_sign n) as H. apply orb_false_elim in H. tauto.
Qed.

Lemma fields_of_MakeDay y mn d :
  0 <= mn <= 11 -> 1 <= d <= DaysInMonth y mn ->
  let t := MakeDay y mn d * msPerDay in
  YearFromTime t = y /\ MonthFromTime t = mn /\ DateFromTime t = d.
Proof.
  intros Hm Hd t.
  assert (HD : Day t = MakeDay y mn d).
  { unfold t. apply Day_bounds. lia. }
  destruct (month_interval y mn t Hm) as [Hy Hmo].
  { rewrite HD, (MakeDay_shift y mn d 1), (MakeDay_shift y mn (DaysInMonth y mn) 1). lia. }
  split; [assumption|]. split; [assumption|].
  pose proof (MakeDay_of_time t) as H. rewrite Hy, Hmo, HD in H.
  rewrite (MakeDay_shift y mn _ d) in H. lia.
Qed.

Lemma MakeDay_bounds y mn d :
  0 <= y <= 9999 -> 0 <= mn <= 11 -> 1 <= d <= 31 ->
  -719528 <= MakeDay y mn d <= 2932897.
Proof.
  intros Hy Hm Hd. rewrite MakeDay_small by assumption.
  pose proof (DayFromYear_mono 0 y ltac:(lia)) as H0.
  pose proof (DayFromYear_mono y 9999 ltac:(lia)) as H1.
  replace (DayFromYear 0) with (-719528) in H0 by reflexivity.
  replace (DayFromYear 9999) with 2932532 in H1 by reflexivity.
  unfold DaysBeforeMonth.
  repeat match goal with |- context [if ?c then _ else _] => destruct c end; lia.
Qed.

Lemma Date_parse_isoDate y m d :
  valid_date y m d ->
  Date_parse (isoDate y m d) = Some (MakeDay y (m - 1) d * msPerDay).
Proof.
  intros (Hy & Hm & Hd). pose proof (DaysInMonth_range y (m - 1)) as Hdim.
  unfold isoDate, pad4, pad3, pad2. cbn [append].
  unfold Date_parse. cbn [list_ascii_of_string].
  rewrite digit_not_sign, digits_pad4, !digits_pad2 by lia.
  cbn [Ascii.eqb Bool.eqb andb]. unfold date_only.
  destruct (Z.leb_spec 1 m); [|lia]. destruct (Z.leb_spec m 12); [|lia].
  destruct (Z.leb_spec 1 d); [|lia].
  destruct (Z.leb_spec d (DaysInMonth y (m - 1))); [|lia]. cbn [andb].
  unfold MakeDate. rewrite Z.add_0_r.
  pose proof (MakeDay_bounds y (m - 1) d Hy ltac:(lia) ltac:(lia)).
  apply TimeClip_small. unfold msPerDay. lia.
Qed.

Lemma split_isoDate y m d :
  split "-" (isoDate y m d) = [pad4 y; pad2 m; pad2 d].
Proof.
  unfold isoDate, pad4, pad3, pad2. cbn [append split].
  rewrite !digit_not_dash. cbn [Ascii.eqb Bool.eqb]. reflexivity.
Qed.

Lemma Number_pad2 d : 0 <= d <= 99 -> Number (pad2 d) = Some d.
Proof. intros H. unfold Number, pad2. cbn [list_ascii_of_string]. now apply digits_pad2. Qed.

Lemma midnight_local_day tza ts :
  ts = Day ts * msPerDay ->
  (0 <= tza < msPerDay -> Day (ts + tza) = Day ts) /\
  (- msPerDay <= tza < 0 -> Day (ts + tza) = Day ts - 1).
Proof.
  intros H. generalize dependent (Day ts). intros D H. subst ts. unfold msPerDay.
  split; intros Hz; apply Day_bounds; unfold msPerDay; lia.
Qed.

Lemma localDay_zones tza1 tza2 t1 t2 :
  localDay tza1 t1 = localDay tza2 t2 <-> Day (t1 + tza1) = Day (t2 + tza2).
Proof.
  unfold localDay, getFullYear, getMonth, getDate, LocalTime. symmetry. apply Day_fields.
Qed.

Lemma formatDate_localDay tza1 tza2 t1 t2 :
  localDay tza1 t1 = localDay tza2 t2 -> formatDate tza1 t1 = formatDate tza2 t2.
Proof.
  intros H. apply localDay_zones in H. apply Day_same_fields in H as (Hy & Hm & Hd).
  unfold formatDate, getFullYear, getMonth, getDate, LocalTime. now rewrite Hy, Hm, Hd.
Qed.

Lemma append_inj_length (a b x y : string) :
  String.length a = String.length b -> (a ++ x = b ++ y)%string -> a = b /\ x = y.
Proof.
  revert b. induction a as [|c a IH]; intros [|c' b] Hl H; cbn in *; try discriminate.
  - auto.
  - injection H as -> H. injection Hl as Hl. destruct (IH b Hl H) as [-> ->]. auto.
Qed.

Lemma monthShort_length m : String.length (monthShort m) = 3%nat.
Proof.
  unfold monthShort.
  repeat match goal with |- context [if ?c then _ else _] => destruct c end; reflexivity.
Qed.

Lemma monthShort_inj m1 m2 :
  0 <= m1 <= 11 -> 0 <= m2 <= 11 -> monthShort m1 = monthShort m2 -> m1 = m2.
Proof.
  intros H1 H2. apply month_enum in H1, H2.
  destruct H1 as [->|[->|[->|[->|[->|[->|[->|[->|[->|[->|[->| ->]]]]]]]]]]];
  destruct H2 as [->|[->|[->|[->|[->|[->|[->|[->|[->|[->|[->| ->]]]]]]]]]]];
    cbn; intros H; try reflexivity; discriminate H.
Qed.

Lemma N_to_uint_nonnil n : N.to_uint n <> Decimal.Nil.
Proof.
  destruct n as [|p]; [discriminate|]. apply Unsigned.to_uint_nonnil.
Qed.

Lemma yearNumeric_inj y1 y2 :
  1 <= y1 -> 1 <= y2 -> yearNumeric y1 = yearNumeric y2 -> y1 = y2.
Proof.
  intros H1 H2. unfold yearNumeric.
  destruct (Z.ltb_spec 0 y1); [|lia]. destruct (Z.ltb_spec 0 y2); [|lia].
  intros E. apply (f_equal NilZero.uint_of_string) in E.
  rewrite !NilZero.usu in E by apply N_to_uint_nonnil.
  injection E as E. apply DecimalN.Unsigned.to_uint_inj in E. lia.
Qed.

Lemma label_of_stored_date_utc now :
  formatMonthYear 0 (msPerDay * Day now) = formatMonthYear 0 now.
Proof.
  unfold formatMonthYear, toLocaleDateString_monthYear, getMonth, getFullYear, LocalTime.
  assert (H : Day (msPerDay * Day now + 0) = Day (now + 0)).
  { rewrite !Z.add_0_r. apply Day_bounds. unfold msPerDay. lia. }
  apply Day_same_fields in H as (Hy & Hm & _). now rewrite Hy, Hm.
Qed.

(** ** Further facts about the handlers and the store *)

Lemma requests_nil_store u ok fresh effs s :
  requests effs = [] -> fold_left (store_apply u ok fresh) effs s = s.
Proof.
  revert s. induction effs as [|e effs IH]; intros s H; [reflexivity|].
  cbn [fold_left]. destruct e; cbn in H; try discriminate;
    (replace (store_apply u ok fresh s _) with s by (unfold store_apply; now destruct ok));
    now apply IH.
Qed.

Lemma view_after_no_set v effs :
  (forall e, In e effs -> forall v', e <> SetActiveView v') -> view_after v effs = v.
Proof.
  unfold view_after. revert v. induction effs as [|e effs IH]; intros v H; [reflexivity|].
  cbn [fold_left]. destruct e as [msg|p d|p i|v'];
    try (apply IH; intros e' He'; apply H; now right).
  exfalso. apply (H (SetActiveView v') (or_introl eq_refl) v'). reflexivity.
Qed.

Lemma fold_requests u ok fresh effs s :
  fold_left (store_apply u ok fresh) effs s =
  fold_left (store_apply u ok fresh) (requests effs) s.
Proof.
  revert s. induction effs as [|e effs IH]; intros s; [reflexivity|].
  destruct e; cbn [requests filter fold_left]; try apply IH;
    (replace (store_apply u ok fresh s _) with s by (unfold store_apply; now destruct ok));
    apply IH.
Qed.

Lemma In_insert_before {A} (before : A -> A -> bool) x y l :
  In y (insert_before before x l) <-> y = x \/ In y l.
Proof.
  induction l as [|z l IH]; cbn [insert_before].
  - cbn. intuition.
  - destruct (before x z); cbn [In]; [intuition|]. rewrite IH. intuition.
Qed.

Lemma filter_insert_before_length {A} (before : A -> A -> bool) f x l :
  List.length (filter f (insert_before before x l)) =
  ((if f x then 1 else 0) + List.length (filter f l))%nat.
Proof.
  induction l as [|z l IH]; cbn [insert_before filter].
  - destruct (f x); reflexivity.
  - destruct (before x z); cbn [filter].
    + destruct (f x); reflexivity.
    + destruct (f z); cbn [List.length]; rewrite IH; lia.
Qed.

Lemma filter_filter_length {A} (f g : A -> bool) l :
  (List.length (filter f (filter g l)) <= List.length (filter f l))%nat.
Proof.
  induction l as [|x l IH]; [reflexivity|]. cbn [filter].
  destruct (g x); cbn [filter]; destruct (f x); cbn [List.length]; lia.
Qed.

Lemma AddIncome_requests st ok f :
  requests (AddIncome_handleSubmit st ok f) = [] \/
  exists d, requests (AddIncome_handleSubmit st ok f) =
            [AddDoc (getIncomeCollectionPath (uid st)) (PIncome d)].
Proof.
  unfold AddIncome_handleSubmit, handleAddIncome.
  destruct (fi_amount f); [|now left].
  destruct (fi_clientName f =? "")%string; [now left|].
  destruct (not_ready st); [now left|].
  destruct (Timestamp_fromDate _); [|now left].
  right. eexists. destruct ok; reflexivity.
Qed.

Lemma AddExpense_requests (st : AppState) (ok : bool) (now : Z)
  (f : ExpenseForm) :
  requests (AddExpense_handleSubmit st ok now f) = [] \/
   (exists d,
      requests (AddExpense_handleSubmit st ok now f) =
        [AddDoc (getExpenseCollectionPath (uid st)) (PExpense d)] /\
      fe_isRecurring f = false /\
      exp_name d = fe_name f /\ Some (exp_amount d) = fe_amount f /\
      Some (exp_date d) = Date_parse (fe_date f) /\
      isGenerated d = None /\ recurringTemplateId d = None /\ paidFor d = None) \/
   (exists d,
      requests (AddExpense_handleSubmit st ok now f) =
        [AddDoc (getRecurringTemplateCollectionPath (uid st)) (PTemplate d)] /\
      fe_isRecurring f = true /\
      doc_name d = fe_name f /\ Some (doc_amount d) = fe_amount f /\
      doc_frequency d = Some (fe_frequency f) /\
      doc_createdAt d = Some now).
Proof.
  unfold AddExpense_handleSubmit.
  destruct (fe_amount f) as [q|]; [|left; reflexivity].
  destruct (fe_name f =? "")%string; [left; reflexivity|].
  destruct (fe_isRecurring f) eqn:Hrec.
  - unfold handleAddRecurringTemplate.
    destruct (not_ready st); [left; reflexivity|].
    cbn [ea_date ea_frequency ea_name ea_amount ea_category].
    destruct (nth_error _ 2) as [day|]; [|left; reflexivity].
    unfold Timestamp_fromDate.
    destruct ((-62135596800000 <=? now) && (now <? 253402300800000));
      [|left; reflexivity].
    right. right. eexists. split; [destruct ok; reflexivity|].
    cbn. repeat split; reflexivity.
  - unfold handleAddExpense.
    destruct (not_ready st); [left; reflexivity|].
    cbn [ea_date ea_frequency ea_name ea_amount ea_category ea_isGenerated
         ea_recurringTemplateId ea_paidFor ea_isRecurring].
    destruct (Date_parse (fe_date f)) as [t|] eqn:Hp; cbn [Timestamp_fromDate];
      [|left; reflexivity].
    destruct ((-62135596800000 <=? t) && (t <? 253402300800000));
      [|left; reflexivity].
    right. left. eexists. split; [destruct ok; reflexivity|].
    cbn. repeat split; reflexivity.
Qed.

Lemma markPaid_requests tza st ok now t :
  clock_in_range now ->
  requests (handleMarkPaid tza st ok now t) = [] \/
  (isPaid tza (expenses st) (tpl_id t) (formatMonthYear tza now) = false /\
   not_ready st = false /\
   requests (handleMarkPaid tza st ok now t) =
   [AddDoc (getExpenseCollectionPath (uid st))
      (PExpense {| exp_name := tpl_name t;
                   exp_amount := tpl_amount t;
                   exp_date := msPerDay * Day now;
                   exp_category := tpl_category t;
                   isRecurring := true;
                   exp_frequency := None;
                   isGenerated := Some true;
                   recurringTemplateId := Some (tpl_id t);
                   paidFor := Some (formatMonthYear tza now) |})]).
Proof.
  intros Hnow. destruct (not_ready st) eqn:Hr.
  - left. unfold handleMarkPaid, handleAddExpense. rewrite Hr.
    now destruct (isPaid _ _ _ _).
  - destruct (isPaid tza (expenses st) (tpl_id t) (formatMonthYear tza now)) eqn:E.
    + left. unfold handleMarkPaid. now rewrite E.
    + right. split; [reflexivity|]. split; [reflexivity|].
      unfold handleMarkPaid. rewrite E. unfold handleAddExpense. rewrite Hr.
      cbn [ea_date]. rewrite (markPaid_date now Hnow). cbn.
      destruct ok; reflexivity.
Qed.

Lemma sync_reachable tza u w :
  reachable tza u w ->
  expenses (fst w) = s_expenses (snd w) /\
  incomes (fst w) = s_incomes (snd w) /\
  userId (fst w) = Some u /\ db (fst w) = true.
Proof.
  induction 1 as [|[st s] env a Hreach IH Hmp Hclock Hfresh Hnew].
  - cbn. auto.
  - cbn [fst snd] in IH. destruct IH as (_ & _ & Hu & Hdb).
    unfold step. cbn [fst snd onSnapshot setActiveView expenses incomes userId db].
    auto.
Qed.

Lemma ready_reachable tza u w :
  u <> ""%string -> reachable tza u w -> not_ready (fst w) = false.
Proof.
  intros Hu H. apply sync_reachable in H as (_ & _ & Hid & Hdb).
  unfold not_ready, truthy. rewrite Hid, Hdb.
  apply String.eqb_neq in Hu. now rewrite Hu.
Qed.

Lemma step_expenses tza st s env a :
  clock_in_range (clock env) ->
  let s' := snd (step tza (st, s) env a) in
  s_expenses s' = s_expenses s \/
  (exists type id confirmed,
      a = Delete type id confirmed /\
      s_expenses s' = filter (fun r => negb (exp_id r =? id)%string) (s_expenses s)) \/
  (exists d, s_expenses s' = insert_before expense_before
                               {| exp_id := freshId env; exp_doc := d |} (s_expenses s) /\
             isGenerated d = None) \/
  (exists t, a = MarkPaid t /\ writeOk env = true /\
             isPaid tza (expenses st) (tpl_id t) (formatMonthYear tza (clock env)) = false /\
             s_expenses s' =
             insert_before expense_before
               {| exp_id := freshId env;
                  exp_doc := {| exp_name := tpl_name t;
                                exp_amount := tpl_amount t;
                                exp_date := msPerDay * Day (clock env);
                                exp_category := tpl_category t;
                                isRecurring := true;
                                exp_frequency := None;
                                isGenerated := Some true;
                                recurringTemplateId := Some (tpl_id t);
                                paidFor := Some (formatMonthYear tza (clock env)) |} |}
               (s_expenses s)).
Proof.
  intros Hclock s'. subst s'. unfold step. cbn [snd]. rewrite fold_requests.
  destruct a as [f|f|t|type id confirmed]; cbn [run].
  - left. destruct (AddIncome_requests st (writeOk env) f) as [E|[d E]]; rewrite E;
      [reflexivity|]. cbn. unfold store_apply. now destruct (writeOk env).
  - destruct (AddExpense_requests st (writeOk env) (clock env) f)
      as [E|[(d & E & _ & _ & _ & _ & Hg & _)|(d & E & _)]]; rewrite E.
    + now left.
    + cbn. unfold store_apply. destruct (writeOk env); [|now left].
      right. right. left. exists d. now split.
    + left. cbn. unfold store_apply. now destruct (writeOk env).
  - destruct (markPaid_requests tza st (writeOk env) (clock env) t Hclock)
      as [E|(Hp & _ & E)]; rewrite E; [now left|].
    cbn. unfold store_apply. destruct (writeOk env) eqn:Hok; [|now left].
    right. right. right. exists t. auto.
  - unfold handleDelete.
    destruct (not_ready st || (id =? "")%string); [now left|].
    destruct confirmed; [|now left]. cbn [negb].
    assert (Hreq : forall p, requests (DeleteDoc p id ::
                     (if writeOk env then [] else [Alert "Failed to delete. Please try again."%string]))
                   = [DeleteDoc p id]) by (intros p; now destruct (writeOk env)).
    rewrite Hreq. cbn [fold_left]. unfold store_apply.
    destruct (writeOk env); [|now left]. cbn [negb].
    repeat match goal with |- context [if ?c then _ else _] => destruct c end;
      cbn [s_expenses]; auto.
    right. left. exists type, id, true. now split.
Qed.

Lemma generated_for_label tza id label e :
  generated_for tza id label e = true ->
  strict_eq (recurringTemplateId e) id = true /\
  formatMonthYear tza (exp_date e) = label.
Proof.
  unfold generated_for. intros H. apply andb_prop in H as [H H2].
  apply andb_prop in H as [_ H1]. split; [assumption|now apply String.eqb_eq].
Qed.

Lemma utc_invariant u w :
  reachable 0 u w ->
  at_most_one_generated 0 (expenses (fst w)) /\
  Forall (generated_ok 0) (expenses (fst w)).
Proof.
  induction 1 as [|[st s] env a Hreach IH Hmp Hclock Hfresh Hnew].
  - split; [intros id label; cbn; lia|constructor].
  - pose proof (sync_reachable 0 u (st, s) Hreach) as (Hsync & _).
    cbn [fst snd] in *. destruct IH as [IH1 IH2].
    assert (Hexp : expenses (fst (step 0 (st, s) env a)) =
                   s_expenses (snd (step 0 (st, s) env a))) by reflexivity.
    rewrite Hexp.
    destruct (step_expenses 0 st s env a Hclock)
      as [E|[(type & id & c & _ & E)|[(d & E & Hg)|(t & _ & _ & Hp & E)]]];
      cbv zeta in E; rewrite E; rewrite <- Hsync.
    + now split.
    + split.
      * intros i l. etransitivity; [apply filter_filter_length|apply IH1].
      * apply Forall_forall. intros e He. apply filter_In in He as [He _].
        now apply (proj1 (Forall_forall _ _) IH2).
    + split.
      * intros i l. rewrite filter_insert_before_length.
        unfold generated_for at 1. cbn [isGenerated exp_doc]. rewrite Hg. cbn. apply IH1.
      * apply Forall_forall. intros e He. apply In_insert_before in He as [->|He].
        -- unfold generated_ok. cbn [isGenerated exp_doc]. rewrite Hg. discriminate.
        -- now apply (proj1 (Forall_forall _ _) IH2).
    + split.
      * intros i l. rewrite filter_insert_before_length.
        match goal with |- context [generated_for 0 i l ?x] =>
          destruct (generated_for 0 i l x) eqn:G end; [|apply IH1].
        apply generated_for_label in G as [G1 G2].
        cbn [recurringTemplateId exp_doc exp_date strict_eq] in G1, G2.
        apply String.eqb_eq in G1. subst i.
        rewrite label_of_stored_date_utc in G2. subst l.
        assert (Hnone : filter (generated_for 0 (tpl_id t) (formatMonthYear 0 (clock env)))
                          (expenses st) = []).
        { destruct (filter _ (expenses st)) as [|e l'] eqn:F; [reflexivity|].
          exfalso. assert (He : In e (filter (generated_for 0 (tpl_id t)
                                   (formatMonthYear 0 (clock env))) (expenses st)))
            by (rewrite F; now left).
          apply filter_In in He as [He G]. apply generated_for_label in G as [G1 G2].
          assert (isPaid 0 (expenses st) (tpl_id t) (formatMonthYear 0 (clock env)) = true).
          { unfold isPaid. apply existsb_exists. exists e. split; [assumption|].
            rewrite G1. cbn. now apply String.eqb_eq. }
          congruence. }
        rewrite Hnone. cbn. lia.
      * apply Forall_forall. intros e He. apply In_insert_before in He as [->|He].
        -- unfold generated_ok. cbn [paidFor exp_doc exp_date]. intros _.
           now rewrite label_of_stored_date_utc.
        -- now apply (proj1 (Forall_forall _ _) IH2).
Qed.

Lemma markPaid_isPaid_iff (tza : Z) (u : string) (w : AppState * Store)
  (env : Env) (t : Template) :
  u <> ""%string ->
  reachable tza u w ->
  clock_in_range (clock env) ->
  writeOk env = true ->
  let label := formatMonthYear tza (clock env) in
  isPaid tza (expenses (fst (step tza w env (MarkPaid t)))) (tpl_id t) label = true <->
  isPaid tza (expenses (fst w)) (tpl_id t) label = true \/
  formatMonthYear tza (msPerDay * Day (clock env)) = label.
Proof.
  intros Hu Hreach Hclock Hok label.
  pose proof (ready_reachable tza u w Hu Hreach) as Hready.
  pose proof (sync_reachable tza u w Hreach) as (Hsync & _).
  destruct w as [st s]. cbn [fst snd] in *.
  assert (Hexp : expenses (fst (step tza (st, s) env (MarkPaid t))) =
                 s_expenses (snd (step tza (st, s) env (MarkPaid t)))) by reflexivity.
  rewrite Hexp. unfold step. cbn [snd run]. rewrite fold_requests.
  destruct (markPaid_requests tza st (writeOk env) (clock env) t Hclock)
    as [E|(Hp & _ & E)].
  - rewrite E. cbn [fold_left]. rewrite <- Hsync.
    split; [auto|]. intros [H|H]; [assumption|].
    (* nothing sent although the store is ready: the bill was paid already *)
    unfold handleMarkPaid in E. fold label in E.
    destruct (isPaid tza (expenses st) (tpl_id t) label); [reflexivity|].
    unfold handleAddExpense in E. rewrite Hready in E. cbn [ea_date] in E.
    rewrite (markPaid_date _ Hclock) in E. cbn in E. rewrite Hok in E. discriminate.
  - rewrite E, Hok. cbn [fold_left store_apply negb s_expenses]. fold label in Hp |- *.
    rewrite <- Hsync. rewrite !isPaid_iff. split.
    + intros (e & Hin & Hid & Hl). apply In_insert_before in Hin as [->|Hin].
      * right. exact Hl.
      * left. exists e. auto.
    + intros [H|H].
      * apply isPaid_iff in H. rewrite Hp in H. discriminate.
      * eexists. split; [apply In_insert_before; left; reflexivity|].
        split; [reflexivity|exact H].
Qed.

Lemma append_inj_l (s a b : string) : (s ++ a = s ++ b)%string -> a = b.
Proof.
  induction s as [|c s IH]; cbn; [auto|]. intros [= H]. auto.
Qed.

Lemma path_income_expense u :
  (getIncomeCollectionPath u =? getExpenseCollectionPath u)%string = false.
Proof.
  apply String.eqb_neq. unfold getIncomeCollectionPath, getExpenseCollectionPath.
  intros H. apply append_inj_l in H. apply append_inj_l in H. discriminate.
Qed.

Lemma path_template_income u :
  (getRecurringTemplateCollectionPath u =? getIncomeCollectionPath u)%string = false.
Proof.
  apply String.eqb_neq. unfold getIncomeCollectionPath, getRecurringTemplateCollectionPath.
  intros H. apply append_inj_l in H. apply append_inj_l in H. discriminate.
Qed.

Lemma path_template_expense u :
  (getRecurringTemplateCollectionPath u =? getExpenseCollectionPath u)%string = false.
Proof.
  apply String.eqb_neq. unfold getExpenseCollectionPath, getRecurringTemplateCollectionPath.
  intros H. apply append_inj_l in H. apply append_inj_l in H. discriminate.
Qed.

(** ** Further properties of the code *)

Lemma reachable_utc1 : reachable 0 "u1" utc1.
Proof.
  unfold utc1. apply reach_step.
  - apply reach_initial.
  - intros t Ht. discriminate Ht.
  - unfold clock_in_range. vm_compute. split; [discriminate|reflexivity].
  - vm_compute. discriminate.
  - vm_compute. intros [].
Qed.

Lemma reachable_utc2 : reachable 0 "u1" utc2.
Proof.
  unfold utc2. apply reach_step.
  - apply reachable_utc1.
  - intros t Ht. injection Ht as <-. vm_compute. left. reflexivity.
  - unfold clock_in_range. vm_compute. split; [discriminate|reflexivity].
  - vm_compute. discriminate.
  - vm_compute. intros [H|[]]. discriminate H.
Qed.

(** X1.  Without the Firestore handle or without a user, no action sends a
    request to the store, and the store is left as it is. *)
Theorem not_ready_sends_nothing (tza : Z) (st : AppState) (s : Store)
  (env : Env) (a : Action) :
  not_ready st = true ->
  requests (run tza st env a) = [] /\
  snd (step tza (st, s) env a) = s.
Proof.
  intros H.
  assert (Hr : requests (run tza st env a) = []).
  { destruct a as [f|f|t|type id confirmed]; cbn [run].
    - unfold AddIncome_handleSubmit, handleAddIncome. rewrite H.
      destruct (fi_amount f); [destruct (fi_clientName f =? "")%string|]; reflexivity.
    - unfold AddExpense_handleSubmit, handleAddRecurringTemplate, handleAddExpense.
      rewrite H.
      destruct (fe_amount f); [destruct (fe_name f =? "")%string|];
        try reflexivity. destruct (fe_isRecurring f); reflexivity.
    - unfold handleMarkPaid, handleAddExpense. rewrite H.
      destruct (isPaid _ _ _ _); reflexivity.
    - unfold handleDelete. rewrite H. reflexivity. }
  split; [assumption|]. unfold step. cbn [snd].
  now apply requests_nil_store.
Qed.

Lemma not_ready_sends_nothing_witness :
  requests (run manila (fst (initial "")) env2 (MarkPaid rent)) = [] /\
  snd (step manila (fst (initial ""), emptyStore) env2 (MarkPaid rent)) = emptyStore.
Proof.
  exact (not_ready_sends_nothing manila (fst (initial "")) emptyStore env2
           (MarkPaid rent) eq_refl).
Defined.

(** X2.  Marking a bill paid never changes the active view, whatever the
    store answers: the expense it adds is flagged [isGenerated], and
    [handleAddExpense] goes to Home only for an expense that is not. *)
Theorem markPaid_keeps_view (tza : Z) (st : AppState) (ok : bool) (now : Z)
  (t : Template) (v : string) :
  view_after v (handleMarkPaid tza st ok now t) = v.
Proof.
  unfold handleMarkPaid, handleAddExpense.
  destruct (isPaid _ _ _ _); [reflexivity|].
  destruct (not_ready st); [reflexivity|]. cbn [ea_date ea_isGenerated truthy_bool].
  destruct (Timestamp_fromDate _); [|reflexivity].
  destruct ok; reflexivity.
Qed.

(** X3.  When the store rejects the write, an action changes neither the
    store nor the active view. *)
Theorem rejected_write_changes_nothing (tza : Z) (st : AppState) (s : Store)
  (env : Env) (a : Action) :
  writeOk env = false ->
  snd (step tza (st, s) env a) = s /\
  activeView (fst (step tza (st, s) env a)) = activeView st.
Proof.
  intros Hok. unfold step. cbn [fst snd onSnapshot setActiveView activeView].
  split.
  - generalize (run tza st env a). intros effs. revert s.
    induction effs as [|e effs IH]; intros s; [reflexivity|].
    cbn [fold_left].
    replace (store_apply (uid st) (writeOk env) (freshId env) s e) with s
      by (unfold store_apply; now rewrite Hok).
    apply IH.
  - apply view_after_no_set. intros e He v' ->.
    destruct a as [f|f|t|type id confirmed]; cbn [run] in He; rewrite Hok in He.
    + unfold AddIncome_handleSubmit, handleAddIncome in He.
      destruct (fi_amount f); [|cbn in He; intuition discriminate].
      destruct (fi_clientName f =? "")%string; [cbn in He; intuition discriminate|].
      destruct (not_ready st); [destruct He|].
      destruct (Timestamp_fromDate _); cbn in He; intuition discriminate.
    + unfold AddExpense_handleSubmit, handleAddRecurringTemplate, handleAddExpense in He.
      destruct (fe_amount f); [|cbn in He; intuition discriminate].
      destruct (fe_name f =? "")%string; [cbn in He; intuition discriminate|].
      destruct (fe_isRecurring f).
      * destruct (not_ready st); [destruct He|].
        destruct (nth_error _ 2); [|cbn in He; intuition discriminate].
        cbn [ea_frequency] in He.
        destruct (Timestamp_fromDate _); cbn in He; intuition discriminate.
      * destruct (not_ready st); [destruct He|].
        destruct (Timestamp_fromDate _); cbn in He; intuition discriminate.
    + unfold handleMarkPaid, handleAddExpense in He.
      destruct (isPaid _ _ _ _); [cbn in He; intuition discriminate|].
      destruct (not_ready st); [destruct He|].
      destruct (Timestamp_fromDate _); cbn in He; intuition discriminate.
    + unfold handleDelete in He.
      destruct (not_ready st || (id =? "")%string); [destruct He|].
      destruct confirmed; cbn in He; intuition discriminate.
Qed.

Lemma rejected_write_changes_nothing_witness :
  snd (step manila w1 envRejected (MarkPaid rent)) = snd w1 /\
  activeView (fst (step manila w1 envRejected (MarkPaid rent))) = activeView (fst w1).
Proof.
  exact (rejected_write_changes_nothing manila (fst w1) (snd w1) envRejected
           (MarkPaid rent) eq_refl).
Defined.

(** X4.  The expense form.  With an empty name or an empty amount the only
    effect is the alert about required fields.  Otherwise at most one
    request is sent: for a one-off expense a document of the user's expenses
    with the name, amount and date of the form and without
    [isGenerated], [recurringTemplateId] and [paidFor]; for a recurring
    one a document of the user's templates with the form's name, amount
    and frequency, created at the current time, and no expense. *)
Theorem AddExpense_handleSubmit_spec (st : AppState) (ok : bool) (now : Z)
  (f : ExpenseForm) :
  ((fe_name f = ""%string \/ fe_amount f = None) ->
     AddExpense_handleSubmit st ok now f = [Alert requiredNotice]) /\
  (requests (AddExpense_handleSubmit st ok now f) = [] \/
   (exists d,
      requests (AddExpense_handleSubmit st ok now f) =
        [AddDoc (getExpenseCollectionPath (uid st)) (PExpense d)] /\
      fe_isRecurring f = false /\
      exp_name d = fe_name f /\ Some (exp_amount d) = fe_amount f /\
      Some (exp_date d) = Date_parse (fe_date f) /\
      isGenerated d = None /\ recurringTemplateId d = None /\ paidFor d = None) \/
   (exists d,
      requests (AddExpense_handleSubmit st ok now f) =
        [AddDoc (getRecurringTemplateCollectionPath (uid st)) (PTemplate d)] /\
      fe_isRecurring f = true /\
      doc_name d = fe_name f /\ Some (doc_amount d) = fe_amount f /\
      doc_frequency d = Some (fe_frequency f) /\
      doc_createdAt d = Some now)).
Proof.
  split.
  - intros [H|H]; unfold AddExpense_handleSubmit; rewrite H.
    + now destruct (fe_amount f).
    + reflexivity.
  - apply AddExpense_requests.
Qed.

Lemma AddExpense_handleSubmit_spec_witness :
  AddExpense_handleSubmit (fst w1) true wednesday namelessForm = [Alert requiredNotice].
Proof.
  refine (proj1 (AddExpense_handleSubmit_spec (fst w1) true wednesday namelessForm) _).
  left. reflexivity.
Defined.

(** X5.  The income form.  With an empty client name or an empty amount the
    only effect is the alert about required fields.  With both, the store
    handle set and a date that Firestore takes, the handler sends one
    document of the user's incomes with the fields of the form, then goes
    to Home if the store accepts it and alerts if not. *)
Theorem AddIncome_handleSubmit_spec (st : AppState) (ok : bool) (f : IncomeForm) :
  ((fi_clientName f = ""%string \/ fi_amount f = None) ->
     AddIncome_handleSubmit st ok f = [Alert requiredNotice]) /\
  (forall q ts,
     not_ready st = false -> fi_clientName f <> ""%string ->
     fi_amount f = Some q ->
     Timestamp_fromDate (Date_parse (fi_date f)) = Some ts ->
     AddIncome_handleSubmit st ok f =
       AddDoc (getIncomeCollectionPath (uid st))
              (PIncome {| clientName := fi_clientName f; inc_amount := q;
                          inc_date := ts; inc_type := fi_type f |}) ::
       (if ok then [SetActiveView "Home"%string]
        else [Alert "Failed to add income. Please try again."%string])).
Proof.
  split.
  - intros [H|H]; unfold AddIncome_handleSubmit; rewrite H.
    + now destruct (fi_amount f).
    + reflexivity.
  - intros q ts Hready Hname Hq Hts. unfold AddIncome_handleSubmit, handleAddIncome.
    apply String.eqb_neq in Hname.
    rewrite Hq, Hname, Hready. cbn [ia_date ia_clientName ia_amount ia_type].
    rewrite Hts. reflexivity.
Qed.

Lemma AddIncome_handleSubmit_spec_witness :
  AddIncome_handleSubmit (fst w1) true incomeForm =
  [AddDoc "users/u1/incomes"%string
     (PIncome {| clientName := "Acme"; inc_amount := 1000%Q;
                 inc_date := 1762128000000; inc_type := "ONE_TIME" |});
   SetActiveView "Home"%string].
Proof.
  refine (proj2 (AddIncome_handleSubmit_spec (fst w1) true incomeForm)
            1000%Q 1762128000000 eq_refl _ eq_refl eq_refl).
  discriminate.
Defined.

(** X6.  A bill that the lists show as paid for the current month has an
    expense among those that [getPaidAmount] adds up (its identifier is
    not empty). *)
Theorem isPaid_counted (tza : Z) (expenses : list Expense) (id : string)
  (now : Z) :
  id <> ""%string ->
  isPaid tza expenses id (formatMonthYear tza now) = true ->
  exists exp : Expense,
    In exp (paidExpenses tza expenses now) /\ recurringTemplateId exp = Some id.
Proof.
  intros Hid H. unfold isPaid in H. apply existsb_exists in H as (e & Hin & H).
  apply andb_prop in H as [H1 H2].
  unfold strict_eq in H1. destruct (recurringTemplateId e) as [s|] eqn:E; [|discriminate].
  apply String.eqb_eq in H1. subst s.
  exists e. split; [|assumption].
  unfold paidExpenses. apply filter_In. split; [assumption|].
  rewrite E, H2. cbn. apply String.eqb_neq in Hid. now rewrite Hid.
Qed.

Lemma isPaid_counted_witness :
  exists exp : Expense,
    In exp (paidExpenses manila [paidRent] wednesday) /\
    recurringTemplateId exp = Some "t1"%string.
Proof.
  refine (isPaid_counted manila [paidRent] "t1" wednesday _ eq_refl).
  discriminate.
Defined.



(** X8.  The due day shown for a bill whose stored [dueDay] is missing, NaN
    or between 0 and 31 is a day between 1 and 31: the stored day if it is
    not 0, and the day of the month of [createdAt] otherwise. *)
Theorem displayDueDay_range (tza : Z) (bill : Template) :
  (forall d, dueDay bill = Some d -> 0 <= d <= 31) ->
  1 <= displayDueDay tza bill <= 31 /\
  (forall d, dueDay bill = Some d -> d <> 0 -> displayDueDay tza bill = d) /\
  (dueDay bill = None \/ dueDay bill = Some 0 ->
   displayDueDay tza bill = getDate tza (createdAt bill)).
Proof.
  intros H.
  assert (Hg : 1 <= getDate tza (createdAt bill) <= 31).
  { unfold getDate. pose proof (DateFromTime_range (LocalTime tza (createdAt bill))) as Hd.
    assert (DaysInMonth (YearFromTime (LocalTime tza (createdAt bill)))
                        (MonthFromTime (LocalTime tza (createdAt bill))) <= 31).
    { unfold DaysInMonth.
      repeat match goal with |- context [if ?c then _ else _] => destruct c end; lia. }
    lia. }
  unfold displayDueDay. destruct (dueDay bill) as [d|].
  - specialize (H d eq_refl). destruct (Z.eqb_spec d 0).
    + split; [lia|]. split; [intros ? [= <-] ?; lia|]. reflexivity.
    + split; [lia|]. split; [intros ? [= <-] ?; reflexivity|].
      intros [?|[= ?]]; [discriminate|lia].
  - split; [lia|]. split; [discriminate|reflexivity].
Qed.

Lemma displayDueDay_range_witness :
  1 <= displayDueDay manila rent <= 31.
Proof.
  refine (proj1 (displayDueDay_range manila rent _)).
  intros d H. injection H as <-. lia.
Defined.

(** X9.  The daily report (any period other than Monthly and Weekly) holds
    exactly the incomes and expenses whose local calendar day is the one
    of [now]: the whole day, from 00:00:00.000 to 23:59:59.999. *)
Theorem daily_report_spec (tza : Z) (incomes : list Income)
  (expenses : list Expense) (reportView : string) (now : Z) :
  reportView <> "Monthly"%string -> reportView <> "Weekly"%string ->
  clock_in_range now -> zone_in_range tza ->
  let r := filteredTransactions tza incomes expenses reportView now in
  (forall inc : Income,
     In inc (r_incomes r) <->
     In inc incomes /\ localDay tza (inc_date inc) = localDay tza now) /\
  (forall exp : Expense,
     In exp (r_expenses r) <->
     In exp expenses /\ localDay tza (exp_date exp) = localDay tza now).
Proof.
  intros Hm Hw Hnow Hz r.
  unfold clock_in_range in Hnow. unfold zone_in_range, msPerDay in Hz.
  assert (Hp : period tza reportView now =
               (Some (Day (LocalTime tza now) * msPerDay - tza),
                Some (Day (LocalTime tza now) * msPerDay + 86399999 - tza))).
  { unfold period. apply String.eqb_neq in Hm, Hw. rewrite Hm, Hw.
    unfold setHours, MakeDate, MakeTime, UTC.
    assert (Hd : Day (LocalTime tza now) * msPerDay <= LocalTime tza now
                 <= Day (LocalTime tza now) * msPerDay + 86399999)
      by (now apply Day_bounds).
    unfold LocalTime in Hd |- *. unfold msPerDay in Hd.
    set (d := Day (now + tza)) in *. clearbody d.
    rewrite TimeClip_small by (unfold msPerDay, msPerHour, msPerMinute, msPerSecond; lia).
    replace (d * msPerDay + (0 * msPerHour + 0 * msPerMinute + 0 * msPerSecond + 0) - tza + tza)
      with (d * msPerDay + 0) by (unfold msPerHour, msPerMinute, msPerSecond; lia).
    replace (Day (d * msPerDay + 0)) with d
      by (symmetry; apply Day_bounds; unfold msPerDay; lia).
    rewrite TimeClip_small by (unfold msPerDay, msPerHour, msPerMinute, msPerSecond; lia).
    f_equal; f_equal; unfold msPerDay, msPerHour, msPerMinute, msPerSecond; lia. }
  assert (Hin : forall date,
             date_ge date (fst (period tza reportView now)) &&
             date_le date (snd (period tza reportView now)) = true <->
             localDay tza date = localDay tza now).
  { intros date. rewrite Hp. cbn [fst snd date_ge date_le].
    rewrite andb_true_iff, !Z.leb_le, localDay_Day, Day_bounds.
    unfold LocalTime. lia. }
  subst r. unfold filteredTransactions.
  destruct (period tza reportView now) as [start end_] eqn:E.
  cbn [r_incomes r_expenses fst snd] in *.
  split; intros x; rewrite filter_In, Hin; reflexivity.
Qed.

Lemma daily_report_spec_witness :
  In incomeNov03
     (r_incomes (filteredTransactions manila [incomeNov03] [] "Daily"
                   (inc_date incomeNov03))).
Proof.
  refine (proj2 (proj1 (daily_report_spec manila [incomeNov03] [] "Daily"
                          (inc_date incomeNov03) _ _ _ _) incomeNov03) _).
  - discriminate.
  - discriminate.
  - unfold clock_in_range. cbn. lia.
  - unfold zone_in_range, manila, msPerDay. lia.
  - split; [left; reflexivity|reflexivity].
Defined.

Lemma weekly_period_facts (tza : Z) (now : Z) :
  clock_in_range now -> zone_in_range tza ->
  let back := (getDay tza now + 6) mod 7 in
  let start := now - back * msPerDay in
  period tza "Weekly" now = (Some start, Some (start + 6 * msPerDay)) /\
  getDay tza start = 1 /\
  TimeWithinDay (LocalTime tza start) = TimeWithinDay (LocalTime tza now) /\
  start <= now <= start + 6 * msPerDay.
Proof.
  intros Hnow Hz back start.
  unfold clock_in_range in Hnow. unfold zone_in_range, msPerDay in Hz.
  assert (Hback : 0 <= back <= 6) by (unfold back; Z.div_mod_to_equations; lia).
  assert (Hdiff : getDate tza now - getDay tza now +
                  (if getDay tza now =? 0 then -6 else 1) - getDate tza now = - back).
  { unfold back, getDay, WeekDay.
    pose proof (Z.mod_pos_bound (Day (LocalTime tza now) + 4) 7 ltac:(lia)) as Hd.
    set (wd := (Day (LocalTime tza now) + 4) mod 7) in *. clearbody wd.
    set (g := getDate tza now). clearbody g.
    destruct (Z.eqb_spec wd 0) as [->|Hne].
    - change ((0 + 6) mod 7) with 6. lia.
    - replace (wd + 6) with (wd - 1 + 1 * 7) by lia.
      rewrite Z.mod_add by lia. rewrite Z.mod_small by lia. lia. }
  assert (Hstart : setDate tza now
                     (getDate tza now - getDay tza now +
                      (if getDay tza now =? 0 then -6 else 1)) = Some start).
  { rewrite setDate_shift; rewrite Hdiff.
    - f_equal. unfold start. lia.
    - unfold msPerDay. lia. }
  split; [|split; [|split]].
  - unfold period. cbn [String.eqb Ascii.eqb Bool.eqb].
    rewrite Hstart. f_equal.
    rewrite setDate_shift.
    + f_equal. lia.
    + unfold start, msPerDay. lia.
  - unfold getDay, WeekDay, start, LocalTime.
    replace (now - back * msPerDay + tza) with (now + tza + (- back) * msPerDay) by lia.
    rewrite Day_shift. unfold back, getDay, WeekDay, LocalTime.
    set (d := Day (now + tza)). Z.div_mod_to_equations. lia.
  - unfold start, LocalTime.
    replace (now - back * msPerDay + tza) with (now + tza + (- back) * msPerDay) by lia.
    apply TimeWithinDay_shift.
  - unfold start, msPerDay. lia.
Qed.

(** X10.  The weekly period starts [(getDay + 6) mod 7] days before [now]
    and ends six days after its start, both at the time of day of [now];
    the start is a Monday and [now] lies in the period.  The weekly report
    holds exactly the incomes and expenses dated from that start to that
    end. *)
Theorem weekly_period_spec (tza : Z) (incomes : list Income)
  (expenses : list Expense) (now : Z) :
  clock_in_range now -> zone_in_range tza ->
  let back := (getDay tza now + 6) mod 7 in
  let start := now - back * msPerDay in
  let r := filteredTransactions tza incomes expenses "Weekly" now in
  period tza "Weekly" now = (Some start, Some (start + 6 * msPerDay)) /\
  getDay tza start = 1 /\
  TimeWithinDay (LocalTime tza start) = TimeWithinDay (LocalTime tza now) /\
  start <= now <= start + 6 * msPerDay /\
  (forall inc : Income,
     In inc (r_incomes r) <->
     In inc incomes /\ start <= inc_date inc <= start + 6 * msPerDay) /\
  (forall exp : Expense,
     In exp (r_expenses r) <->
     In exp expenses /\ start <= exp_date exp <= start + 6 * msPerDay).
Proof.
  intros Hnow Hz back start r.
  destruct (weekly_period_facts tza now Hnow Hz) as (Hp & Hmon & Htime & Hin).
  fold back in Hp, Hmon, Htime, Hin. fold start in Hp, Hmon, Htime, Hin.
  split; [assumption|]. split; [assumption|]. split; [assumption|].
  split; [assumption|].
  subst r. unfold filteredTransactions. rewrite Hp.
  cbn [r_incomes r_expenses date_ge date_le].
  split; intros x; rewrite filter_In, andb_true_iff, !Z.leb_le; reflexivity.
Qed.

Lemma weekly_period_spec_witness :
  period manila "Weekly" wednesday =
  (Some (wednesday - (getDay manila wednesday + 6) mod 7 * msPerDay),
   Some (wednesday - (getDay manila wednesday + 6) mod 7 * msPerDay + 6 * msPerDay)).
Proof.
  refine (proj1 (weekly_period_spec manila [] [] wednesday _ _)).
  - unfold clock_in_range, wednesday. lia.
  - unfold zone_in_range, manila, msPerDay. lia.
Defined.

(** X11.  The monthly report holds exactly the incomes and expenses whose
    local year and month are those of [now] and whose local date is before
    the last day of the month, or is the last day at local midnight
    exactly: the period ends when the last day begins. *)
Theorem monthly_report_spec (tza : Z) (incomes : list Income)
  (expenses : list Expense) (now : Z) :
  clock_in_range now -> zone_in_range tza ->
  let r := filteredTransactions tza incomes expenses "Monthly" now in
  let last := DaysInMonth (getFullYear tza now) (getMonth tza now) in
  let in_period (date : Z) :=
    getFullYear tza date = getFullYear tza now /\
    getMonth tza date = getMonth tza now /\
    (getDate tza date < last \/
     (getDate tza date = last /\ TimeWithinDay (LocalTime tza date) = 0)) in
  (forall inc : Income,
     In inc (r_incomes r) <-> In inc incomes /\ in_period (inc_date inc)) /\
  (forall exp : Expense,
     In exp (r_expenses r) <-> In exp expenses /\ in_period (exp_date exp)).
Proof.
  intros Hnow Hz r last in_period.
  pose proof (local_year_range tza now Hnow Hz) as Hy100.
  unfold clock_in_range in Hnow. unfold zone_in_range, msPerDay in Hz.
  set (y := getFullYear tza now) in *. set (m := getMonth tza now) in *.
  assert (Hm : 0 <= m <= 11) by apply MonthFromTime_range.
  pose proof (DaysInMonth_range y m) as Hdim. fold last in Hdim.
  set (first := MakeDay y m 1).
  assert (Hfirst : first = Day (LocalTime tza now) - (getDate tza now - 1)).
  { unfold first, y, m, getFullYear, getMonth, getDate.
    rewrite (MakeDay_shift _ _ 1 (DateFromTime (LocalTime tza now))), MakeDay_of_time. lia. }
  assert (Hdn : 1 <= getDate tza now <= 31).
  { pose proof (DateFromTime_range (LocalTime tza now)) as Hd.
    pose proof (DaysInMonth_range (YearFromTime (LocalTime tza now))
                                  (MonthFromTime (LocalTime tza now))).
    unfold getDate. lia. }
  assert (Hdl : -1 <= Day (LocalTime tza now) <= 2932898).
  { unfold Day, LocalTime, msPerDay. split.
    - apply Z.div_le_lower_bound; lia.
    - apply Z.div_le_upper_bound; lia. }
  assert (Hlast : MakeDay y (m + 1) 0 = first + last - 1).
  { rewrite MakeDay_next_month by assumption. unfold first, last.
    rewrite (MakeDay_shift y m (DaysInMonth y m) 1). lia. }
  assert (Hp : period tza "Monthly" now =
               (Some (first * msPerDay - tza), Some ((first + last - 1) * msPerDay - tza))).
  { unfold period. cbn [String.eqb Ascii.eqb Bool.eqb]. fold y m.
    unfold Date_ymd.
    destruct (Z.leb_spec y 99); [lia|]. rewrite andb_false_r.
    rewrite Hlast. fold first. unfold UTC, MakeDate, MakeTime.
    assert (Hf : -32 <= first <= 2932898) by lia.
    rewrite !TimeClip_small
      by (unfold msPerDay, msPerHour, msPerMinute, msPerSecond; lia).
    f_equal; f_equal; unfold msPerHour, msPerMinute, msPerSecond; lia. }
  assert (Hin : forall date,
             date_ge date (fst (period tza "Monthly" now)) &&
             date_le date (snd (period tza "Monthly" now)) = true <->
             in_period date).
  { intros date. rewrite Hp. cbn [fst snd date_ge date_le].
    rewrite andb_true_iff, !Z.leb_le. unfold in_period, getFullYear, getMonth, getDate.
    set (lr := LocalTime tza date).
    assert (Hlr : date = lr - tza) by (unfold lr, LocalTime; lia).
    pose proof (Day_TimeWithinDay lr) as Hsplit.
    assert (Htw : 0 <= TimeWithinDay lr < msPerDay)
      by (unfold TimeWithinDay, msPerDay; apply Z.mod_pos_bound; lia).
    unfold msPerDay in *.
    split.
    - intros [H1 H2].
      assert (Hday : first <= Day lr <= first + last - 1) by lia.
      destruct (month_interval y m lr Hm) as [Ey Em].
      { unfold first in Hday. rewrite (MakeDay_shift y m (DaysInMonth y m) 1).
        fold last. lia. }
      split; [assumption|]. split; [assumption|].
      assert (Hd : DateFromTime lr = Day lr - first + 1).
      { pose proof (MakeDay_of_time lr) as Hmd. rewrite Ey, Em in Hmd.
        rewrite (MakeDay_shift y m _ 1) in Hmd. fold first in Hmd. lia. }
      rewrite Hd. lia.
    - intros (Ey & Em & Hd).
      pose proof (MakeDay_of_time lr) as Hmd. rewrite Ey, Em in Hmd.
      rewrite (MakeDay_shift y m _ 1) in Hmd. fold first in Hmd.
      pose proof (DateFromTime_range lr) as Hdr.
      lia. }
  subst r. unfold filteredTransactions.
  destruct (period tza "Monthly" now) as [start end_] eqn:E.
  cbn [r_incomes r_expenses fst snd] in *.
  split; intros x; rewrite filter_In, Hin; reflexivity.
Qed.

Lemma monthly_report_spec_witness :
  ~ In incomeNov30
      (r_incomes (filteredTransactions manila [incomeNov30] [] "Monthly" midNovember)).
Proof.
  intros H.
  assert (Hc : clock_in_range midNovember) by (unfold clock_in_range, midNovember; lia).
  assert (Hz : zone_in_range manila) by (unfold zone_in_range, manila, msPerDay; lia).
  pose proof (monthly_report_spec manila [incomeNov30] [] midNovember Hc Hz) as Hs.
  cbv zeta in Hs. destruct Hs as [Hi _].
  pose proof (proj1 (Hi incomeNov30) H) as (_ & _ & _ & [H'|[_ H']]);
    vm_compute in H'; discriminate H'.
Defined.

(** X12.  After a completed mark-paid that the store accepts, the is-paid
    test for the bill and the month of [now] is true exactly when the bill
    was paid already or the label of the stored date, UTC midnight of the
    UTC day of [now], is the label of [now]. *)
Theorem markPaid_then_isPaid (tza : Z) (u : string) (w : AppState * Store)
  (env : Env) (t : Template) :
  u <> ""%string ->
  reachable tza u w ->
  clock_in_range (clock env) ->
  writeOk env = true ->
  let label := formatMonthYear tza (clock env) in
  isPaid tza (expenses (fst (step tza w env (MarkPaid t)))) (tpl_id t) label = true <->
  isPaid tza (expenses (fst w)) (tpl_id t) label = true \/
  formatMonthYear tza (msPerDay * Day (clock env)) = label.
Proof. exact (markPaid_isPaid_iff tza u w env t). Qed.

Lemma markPaid_then_isPaid_witness :
  isPaid manila (expenses (fst (step manila w1 env2 (MarkPaid rent)))) (tpl_id rent)
         (formatMonthYear manila (clock env2)) = true <->
  isPaid manila (expenses (fst w1)) (tpl_id rent)
         (formatMonthYear manila (clock env2)) = true \/
  formatMonthYear manila (msPerDay * Day (clock env2)) =
  formatMonthYear manila (clock env2).
Proof.
  refine (markPaid_then_isPaid manila "u1" w1 env2 rent _ reachable_w1 _ eq_refl).
  - discriminate.
  - unfold clock_in_range. cbn. lia.
Defined.

(** X13.  On a host in UTC, every state of sequential use has at most one
    generated expense for each template and month, and the [paidFor] of
    every generated expense is the label of its date. *)
Theorem utc_at_most_one_generated (u : string) (w : AppState * Store) :
  reachable 0 u w ->
  at_most_one_generated 0 (expenses (fst w)) /\
  (forall exp : Expense,
     In exp (expenses (fst w)) -> isGenerated exp = Some true ->
     paidFor exp = Some (formatMonthYear 0 (exp_date exp))).
Proof.
  intros H. apply utc_invariant in H as [H1 H2]. split; [assumption|].
  intros e He Hg. apply (proj1 (Forall_forall _ _) H2 e He).
  now rewrite Hg.
Qed.

Lemma utc_at_most_one_generated_witness :
  at_most_one_generated 0 (expenses (fst utc2)).
Proof.
  exact (proj1 (utc_at_most_one_generated "u1" utc2 reachable_utc2)).
Defined.

(** X14.  On a host in UTC, after a completed mark-paid that the store
    accepts, marking the same bill paid again in the same month only
    raises the duplicate-payment alert. *)
Theorem utc_second_markPaid_fails (u : string) (w : AppState * Store)
  (env : Env) (ok : bool) (now : Z) (t : Template) :
  u <> ""%string ->
  reachable 0 u w ->
  clock_in_range (clock env) ->
  writeOk env = true ->
  formatMonthYear 0 now = formatMonthYear 0 (clock env) ->
  handleMarkPaid 0 (fst (step 0 w env (MarkPaid t))) ok now t = [Alert duplicateNotice].
Proof.
  intros Hu Hreach Hclock Hok Hlabel.
  unfold handleMarkPaid. rewrite Hlabel.
  rewrite (proj2 (markPaid_isPaid_iff 0 u w env t Hu Hreach Hclock Hok));
    [reflexivity|].
  right. apply label_of_stored_date_utc.
Qed.

Lemma utc_second_markPaid_fails_witness :
  handleMarkPaid 0 (fst (step 0 utc1 env2 (MarkPaid rent))) true (clock env3) rent =
  [Alert duplicateNotice].
Proof.
  refine (utc_second_markPaid_fails "u1" utc1 env2 true (clock env3) rent
            _ reachable_utc1 _ eq_refl _).
  - discriminate.
  - unfold clock_in_range. cbn. lia.
  - vm_compute. reflexivity.
Defined.

(** X15.  In sequential use, a bill that is paid for a month stays paid for
    it after every action that is not a deletion. *)
Theorem isPaid_stable (tza : Z) (u : string) (w : AppState * Store) (env : Env)
  (a : Action) (id label : string) :
  reachable tza u w ->
  clock_in_range (clock env) ->
  (forall type i confirmed, a <> Delete type i confirmed) ->
  isPaid tza (expenses (fst w)) id label = true ->
  isPaid tza (expenses (fst (step tza w env a))) id label = true.
Proof.
  intros Hreach Hclock Hdel H.
  pose proof (sync_reachable tza u w Hreach) as (Hsync & _).
  destruct w as [st s]. cbn [fst snd] in *.
  assert (Hexp : expenses (fst (step tza (st, s) env a)) =
                 s_expenses (snd (step tza (st, s) env a))) by reflexivity.
  rewrite Hexp. apply isPaid_iff in H as (e & Hin & He). rewrite Hsync in Hin.
  apply isPaid_iff. exists e. split; [|assumption].
  destruct (step_expenses tza st s env a Hclock)
    as [E|[(type & i & c & Ea & _)|[(d & E & _)|(t & _ & _ & _ & E)]]];
    try (cbv zeta in E; rewrite E).
  - assumption.
  - exfalso. now apply (Hdel type i c).
  - apply In_insert_before. now right.
  - apply In_insert_before. now right.
Qed.

Lemma isPaid_stable_witness :
  isPaid 0 (expenses (fst (step 0 utc2 env3 (SubmitExpense groceriesForm))))
         "t1" "Oct 2025" = true.
Proof.
  refine (isPaid_stable 0 "u1" utc2 env3 (SubmitExpense groceriesForm)
            "t1" "Oct 2025" reachable_utc2 _ _ _).
  - unfold clock_in_range. cbn. lia.
  - intros type i confirmed H. discriminate H.
  - vm_compute. reflexivity.
Defined.

(** X16.  A deletion that the user does not confirm leaves the store as it
    is.  A confirmed and accepted one removes the documents with the given
    identifier from one collection only: the incomes for the type
    'income', the expenses for 'expense', the templates for any other
    type; so deleting a template keeps the expenses that were generated
    from it. *)
Theorem handleDelete_spec (tza : Z) (st : AppState) (s : Store) (env : Env)
  (type id : string) :
  not_ready st = false -> id <> ""%string -> writeOk env = true ->
  let s' := snd (step tza (st, s) env (Delete type id true)) in
  snd (step tza (st, s) env (Delete type id false)) = s /\
  (type = "income"%string ->
     s_incomes s' = filter (fun r => negb (inc_id r =? id)%string) (s_incomes s) /\
     s_expenses s' = s_expenses s /\ s_templates s' = s_templates s) /\
  (type = "expense"%string ->
     s_expenses s' = filter (fun r => negb (exp_id r =? id)%string) (s_expenses s) /\
     s_incomes s' = s_incomes s /\ s_templates s' = s_templates s) /\
  (type <> "income"%string -> type <> "expense"%string ->
     s_templates s' = filter (fun r => negb (fst r =? id)%string) (s_templates s) /\
     s_incomes s' = s_incomes s /\ s_expenses s' = s_expenses s).
Proof.
  intros Hready Hid Hok s'. subst s'. unfold step. cbn [snd run].
  unfold handleDelete. rewrite Hready, Hok.
  apply String.eqb_neq in Hid. rewrite Hid. cbn [orb negb fold_left].
  split; [reflexivity|].
  unfold store_apply. cbn [negb].
  split; [|split].
  - intros ->. cbn [String.eqb Ascii.eqb Bool.eqb]. rewrite String.eqb_refl.
    cbn. auto.
  - intros ->. cbn [String.eqb Ascii.eqb Bool.eqb].
    rewrite String.eqb_sym, path_income_expense, String.eqb_refl. cbn. auto.
  - intros H1 H2. apply String.eqb_neq in H1, H2. rewrite H1, H2.
    rewrite path_template_income, path_template_expense, String.eqb_refl. cbn. auto.
Qed.

Lemma handleDelete_spec_witness :
  s_templates (snd (step manila (fst w2, snd w2) env3 (Delete "template" "t1" true))) =
  [] /\
  s_expenses (snd (step manila (fst w2, snd w2) env3 (Delete "template" "t1" true))) =
  s_expenses (snd w2).
Proof.
  pose proof (handleDelete_spec manila (fst w2) (snd w2) env3 "template" "t1"
                eq_refl ltac:(discriminate) eq_refl) as H.
  cbv zeta in H. destruct H as (_ & _ & _ & H).
  destruct (H ltac:(discriminate) ltac:(discriminate)) as (Ht & _ & He).
  split; [rewrite Ht; vm_compute; reflexivity|exact He].
Defined.

(** X17.  Saving a recurring bill with the date YYYY-MM-DD of the date input
    stores DD as its due day (the third piece of the date string), not the
    day of the current time, and the lists show DD as the due day in every
    zone. *)
Theorem recurring_template_dueDay (st : AppState) (ok : bool) (now : Z)
  (name category fr : string) (q : Q) (y m d : Z) :
  not_ready st = false -> name <> ""%string ->
  valid_date y m d -> clock_in_range now ->
  let doc := {| doc_name := name; doc_amount := q; doc_category := category;
                doc_frequency := Some fr; doc_dueDay := Some d;
                doc_createdAt := Some now |} in
  requests (AddExpense_handleSubmit st ok now
              {| fe_name := name; fe_amount := Some q; fe_date := isoDate y m d;
                 fe_category := category; fe_isRecurring := true;
                 fe_frequency := fr |}) =
    [AddDoc (getRecurringTemplateCollectionPath (uid st)) (PTemplate doc)] /\
  forall tza clock id, displayDueDay tza (template_of_doc clock (id, doc)) = d.
Proof.
  intros Hready Hname (Hy & Hm & Hd) Hnow doc.
  pose proof (DaysInMonth_range y (m - 1)) as Hdim.
  split.
  - unfold AddExpense_handleSubmit. cbn [fe_amount fe_name fe_isRecurring].
    apply String.eqb_neq in Hname. rewrite Hname.
    unfold handleAddRecurringTemplate. rewrite Hready.
    cbn [ea_date ea_frequency ea_name ea_amount ea_category fe_date fe_frequency
         fe_category].
    rewrite split_isoDate. cbn [map nth_error]. rewrite (Number_pad2 d) by lia.
    unfold Timestamp_fromDate. unfold clock_in_range in Hnow.
    destruct (Z.leb_spec (-62135596800000) now); [|lia].
    destruct (Z.ltb_spec now 253402300800000); [|lia]. cbn [andb].
    destruct ok; reflexivity.
  - intros tza clock id. unfold displayDueDay, template_of_doc.
    cbn [dueDay snd doc doc_dueDay].
    destruct (Z.eqb_spec d 0); [lia|reflexivity].
Qed.

Lemma recurring_template_dueDay_witness :
  requests (AddExpense_handleSubmit (fst w1) true wednesday
              {| fe_name := "Gym"; fe_amount := Some 30%Q; fe_date := isoDate 2025 11 28;
                 fe_category := "Personal"; fe_isRecurring := true;
                 fe_frequency := "Weekly" |}) =
  [AddDoc (getRecurringTemplateCollectionPath (uid (fst w1)))
     (PTemplate {| doc_name := "Gym"; doc_amount := 30%Q; doc_category := "Personal";
                   doc_frequency := Some "Weekly"%string; doc_dueDay := Some 28;
                   doc_createdAt := Some wednesday |})].
Proof.
  refine (proj1 (recurring_template_dueDay (fst w1) true wednesday "Gym" "Personal"
                   "Weekly" 30%Q 2025 11 28 eq_refl _ _ _)).
  - discriminate.
  - unfold valid_date. vm_compute. intuition discriminate.
  - unfold clock_in_range, wednesday. lia.
Defined.

(** X18.  A date YYYY-MM-DD of a form is stored as UTC midnight of that
    day.  On a host at or east of Greenwich (offset below a day) its local
    calendar day, and so the date the history shows, is the day entered;
    on a host west of Greenwich it is the day before. *)
Theorem form_date_local_day (tza : Z) (y m d : Z) :
  valid_date y m d ->
  exists ts,
    Date_parse (isoDate y m d) = Some ts /\
    localDay 0 ts = (y, m - 1, d) /\
    (0 <= tza < msPerDay ->
       localDay tza ts = (y, m - 1, d) /\ formatDate tza ts = formatDate 0 ts) /\
    (- msPerDay <= tza < 0 ->
       localDay tza ts = localDay 0 (ts - msPerDay) /\
       localDay tza ts <> (y, m - 1, d)).
Proof.
  intros Hv. exists (MakeDay y (m - 1) d * msPerDay).
  split; [now apply Date_parse_isoDate|].
  destruct Hv as (Hy & Hm & Hd).
  destruct (fields_of_MakeDay y (m - 1) d ltac:(lia) Hd) as (Fy & Fm & Fd).
  assert (Hmid : MakeDay y (m - 1) d * msPerDay =
                 Day (MakeDay y (m - 1) d * msPerDay) * msPerDay).
  { f_equal. symmetry. apply Day_bounds. lia. }
  revert Fy Fm Fd Hmid. generalize (MakeDay y (m - 1) d * msPerDay). intros ts Fy Fm Fd Hmid.
  assert (H0 : localDay 0 ts = (y, m - 1, d)).
  { unfold localDay, getFullYear, getMonth, getDate, LocalTime.
    rewrite Z.add_0_r. now rewrite Fy, Fm, Fd. }
  destruct (midnight_local_day tza ts Hmid) as [He Hw].
  split; [assumption|]. split.
  - intros Hz. specialize (He Hz).
    assert (Hl : localDay tza ts = localDay 0 ts)
      by (apply localDay_zones; now rewrite Z.add_0_r).
    split; [now rewrite Hl|]. now apply formatDate_localDay.
  - intros Hz. specialize (Hw Hz).
    assert (Hp : Day (ts - msPerDay + 0) = Day ts - 1).
    { rewrite Z.add_0_r. replace (ts - msPerDay) with (ts + (-1) * msPerDay) by lia.
      rewrite Day_shift. lia. }
    split.
    + apply localDay_zones. now rewrite Hw, Hp.
    + rewrite <- H0. intros Hc. apply localDay_zones in Hc.
      rewrite Z.add_0_r in Hc. lia.
Qed.

Lemma form_date_local_day_witness :
  exists ts,
    Date_parse (isoDate 2025 11 30) = Some ts /\
    localDay 0 ts = (2025, 11 - 1, 30) /\
    (0 <= manila < msPerDay ->
       localDay manila ts = (2025, 11 - 1, 30) /\
       formatDate manila ts = formatDate 0 ts) /\
    (- msPerDay <= manila < 0 ->
       localDay manila ts = localDay 0 (ts - msPerDay) /\
       localDay manila ts <> (2025, 11 - 1, 30)).
Proof.
  apply (form_date_local_day manila 2025 11 30).
  unfold valid_date. vm_compute. intuition discriminate.
Defined.

(** X19.  For dates in the years 1 and later, two dates have the same
    month-year label exactly when they have the same local year and the
    same local month. *)
Theorem formatMonthYear_same_month (tza : Z) (t1 t2 : Z) :
  1 <= getFullYear tza t1 -> 1 <= getFullYear tza t2 ->
  (formatMonthYear tza t1 = formatMonthYear tza t2 <->
   getFullYear tza t1 = getFullYear tza t2 /\ getMonth tza t1 = getMonth tza t2).
Proof.
  intros H1 H2. unfold formatMonthYear, toLocaleDateString_monthYear. split.
  - intros H.
    apply append_inj_length in H as [Hm Hy];
      [|now rewrite !monthShort_length].
    apply monthShort_inj in Hm; try apply MonthFromTime_range.
    cbn [append] in Hy. injection Hy as Hy. apply yearNumeric_inj in Hy; auto.
  - intros [-> ->]. reflexivity.
Qed.

Lemma formatMonthYear_same_month_witness :
  formatMonthYear manila wednesday = formatMonthYear manila midNovember <->
  getFullYear manila wednesday = getFullYear manila midNovember /\
  getMonth manila wednesday = getMonth manila midNovember.
Proof.
  apply (formatMonthYear_same_month manila wednesday midNovember);
    vm_compute; discriminate.
Defined.

(** X20.  The guard of mark-paid reads the snapshot only: two calls on the
    same day against the same snapshot, in which the bill is not paid,
    both write, and the store then holds two generated expenses of the
    template for one month. *)
Theorem markPaid_race (tza : Z) (st : AppState) (s : Store)
  (now1 now2 : Z) (id1 id2 : string) (t : Template) :
  not_ready st = false ->
  clock_in_range now1 -> clock_in_range now2 ->
  Day now1 = Day now2 ->
  isPaid tza (expenses st) (tpl_id t) (formatMonthYear tza now1) = false ->
  isPaid tza (expenses st) (tpl_id t) (formatMonthYear tza now2) = false ->
  let s1 := fold_left (store_apply (uid st) true id1)
                      (handleMarkPaid tza st true now1 t) s in
  let s2 := fold_left (store_apply (uid st) true id2)
                      (handleMarkPaid tza st true now2 t) s1 in
  ~ at_most_one_generated tza (s_expenses s2).
Proof.
  intros Hready H1 H2 Hday Hp1 Hp2 s1 s2 Hinv.
  set (label := formatMonthYear tza (msPerDay * Day now1)).
  specialize (Hinv (tpl_id t) label).
  destruct (markPaid_requests tza st true now1 t H1) as [E|(_ & _ & E)].
  { unfold handleMarkPaid in E. rewrite Hp1 in E. unfold handleAddExpense in E.
    rewrite Hready in E. cbn [ea_date] in E. rewrite (markPaid_date _ H1) in E.
    discriminate E. }
  destruct (markPaid_requests tza st true now2 t H2) as [E'|(_ & _ & E')].
  { unfold handleMarkPaid in E'. rewrite Hp2 in E'. unfold handleAddExpense in E'.
    rewrite Hready in E'. cbn [ea_date] in E'. rewrite (markPaid_date _ H2) in E'.
    discriminate E'. }
  unfold s2, s1 in Hinv.
  rewrite (fold_requests _ _ _ (handleMarkPaid tza st true now2 t)), E' in Hinv.
  rewrite (fold_requests _ _ _ (handleMarkPaid tza st true now1 t)), E in Hinv.
  cbn [fold_left store_apply negb s_expenses] in Hinv.
  rewrite !filter_insert_before_length in Hinv.
  unfold generated_for in Hinv at 1 2.
  cbn [isGenerated recurringTemplateId exp_date exp_doc truthy_bool strict_eq] in Hinv.
  rewrite <- Hday in Hinv. fold label in Hinv.
  rewrite !String.eqb_refl in Hinv. cbn in Hinv. lia.
Qed.

Lemma markPaid_race_witness :
  ~ at_most_one_generated manila
      (s_expenses
         (fold_left (store_apply (uid (fst w1)) true "e2")
            (handleMarkPaid manila (fst w1) true (clock env3) rent)
            (fold_left (store_apply (uid (fst w1)) true "e1")
               (handleMarkPaid manila (fst w1) true (clock env2) rent) (snd w1)))).
Proof.
  refine (markPaid_race manila (fst w1) (snd w1) (clock env2) (clock env3)
            "e1" "e2" rent eq_refl _ _ _ _ _).
  - unfold clock_in_range. cbn. lia.
  - unfold clock_in_range. cbn. lia.
  - vm_compute. reflexivity.
  - vm_compute. reflexivity.
  - vm_compute. reflexivity.
Defined.

Lemma Forall_insert_before {A} (P : A -> Prop) before x l :
  P x -> Forall P l -> Forall P (insert_before before x l).
Proof.
  intros Hx Hl. apply Forall_forall. intros y Hy.
  apply In_insert_before in Hy as [->|Hy]; [assumption|].
  now apply (proj1 (Forall_forall _ _) Hl).
Qed.

Lemma Forall_filter {A} (P : A -> Prop) f l :
  Forall P l -> Forall P (filter f l).
Proof.
  intros Hl. apply Forall_forall. intros y Hy. apply filter_In in Hy as [Hy _].
  now apply (proj1 (Forall_forall _ _) Hl).
Qed.

Lemma named_store_apply u ok fresh s e :
  named s ->
  match e with
  | AddDoc _ (PIncome d) => clientName d <> ""%string
  | AddDoc _ (PExpense d) => exp_name d <> ""%string
  | AddDoc _ (PTemplate d) => doc_name d <> ""%string
  | _ => True
  end ->
  named (store_apply u ok fresh s e).
Proof.
  intros (Hi & He & Ht) Hnew. unfold store_apply.
  destruct ok; cbn [negb]; [|now repeat split].
  destruct e as [msg|path [d|d|d]|path id|v]; try (now repeat split).
  - split; [|now split]. cbn [s_incomes]. now apply Forall_insert_before.
  - split; [|split]; cbn [s_incomes s_expenses s_templates]; try assumption.
    now apply Forall_insert_before.
  - split; [|split]; cbn [s_incomes s_expenses s_templates]; try assumption.
    now apply Forall_insert_before.
  - repeat match goal with |- context [if ?c then _ else _] => destruct c end;
      (split; [|split]); cbn [s_incomes s_expenses s_templates];
      try assumption; now apply Forall_filter.
Qed.

Lemma named_reachable tza u w :
  reachable tza u w ->
  named (snd w) /\
  Forall (fun t : Template => tpl_name t <> ""%string) (recurringTemplates (fst w)).
Proof.
  induction 1 as [|[st s] env a Hreach IH Hmp Hclock Hfresh Hnew].
  - cbn. repeat split; constructor.
  - cbn [fst snd] in *. destruct IH as [Hn Ht].
    assert (Hs : named (snd (step tza (st, s) env a))).
    { unfold step. cbn [snd]. rewrite fold_requests.
      destruct a as [f|f|t|type id confirmed]; cbn [run].
      - unfold AddIncome_handleSubmit, handleAddIncome.
        destruct (fi_amount f); [|exact Hn].
        destruct (fi_clientName f =? "")%string eqn:E; [exact Hn|].
        destruct (not_ready st); [exact Hn|].
        destruct (Timestamp_fromDate _); [|exact Hn].
        apply String.eqb_neq in E.
        destruct (writeOk env); cbn [requests filter fold_left];
          apply named_store_apply; auto.
      - unfold AddExpense_handleSubmit, handleAddRecurringTemplate, handleAddExpense.
        destruct (fe_amount f); [|exact Hn].
        destruct (fe_name f =? "")%string eqn:E; [exact Hn|].
        apply String.eqb_neq in E.
        destruct (fe_isRecurring f).
        + destruct (not_ready st); [exact Hn|].
          destruct (nth_error _ 2); [|exact Hn].
          cbn [ea_frequency].
          destruct (Timestamp_fromDate _); [|exact Hn].
          destruct (writeOk env); cbn [requests filter fold_left];
            apply named_store_apply; auto.
        + destruct (not_ready st); [exact Hn|].
          destruct (Timestamp_fromDate _); [|exact Hn].
          cbn [ea_isGenerated truthy_bool].
          destruct (writeOk env); cbn [requests filter fold_left];
            apply named_store_apply; auto.
      - assert (Hname : tpl_name t <> ""%string)
          by (apply (proj1 (Forall_forall _ _) Ht); now apply Hmp).
        unfold handleMarkPaid, handleAddExpense.
        destruct (isPaid _ _ _ _); [exact Hn|].
        destruct (not_ready st); [exact Hn|].
        destruct (Timestamp_fromDate _); [|exact Hn].
        cbn [ea_isGenerated truthy_bool].
        destruct (writeOk env); cbn [requests filter fold_left];
          apply named_store_apply; auto.
      - unfold handleDelete.
        destruct (not_ready st || (id =? "")%string); [exact Hn|].
        destruct confirmed; [|exact Hn]. cbn [negb].
        destruct (writeOk env); cbn [requests filter fold_left];
          apply named_store_apply; auto. }
    split; [exact Hs|].
    unfold step. cbn [fst onSnapshot recurringTemplates].
    destruct Hs as (_ & _ & Hs). unfold step in Hs. cbn [snd] in Hs.
    apply Forall_forall. intros t Hin. apply in_map_iff in Hin as (r & <- & Hr).
    cbn [template_of_doc tpl_name]. now apply (proj1 (Forall_forall _ _) Hs).
Qed.

(** X21.  In sequential use every income of the snapshot has a client name
    that is not empty, and every expense and every template a name that is
    not empty: the forms refuse an empty name, and a generated expense
    takes the name of a listed bill.  So the history's test
    [!!t.clientName] takes every income for an income, and no expense. *)
Theorem names_never_empty (tza : Z) (u : string) (w : AppState * Store) :
  reachable tza u w ->
  (forall inc : Income, In inc (incomes (fst w)) -> clientName inc <> ""%string) /\
  (forall exp : Expense, In exp (expenses (fst w)) -> exp_name exp <> ""%string) /\
  (forall t : Template, In t (recurringTemplates (fst w)) -> tpl_name t <> ""%string) /\
  (forall inc : Income, In inc (incomes (fst w)) -> isIncome (TIncome inc) = true) /\
  (forall exp : Expense, isIncome (TExpense exp) = false).
Proof.
  intros H. pose proof (sync_reachable tza u w H) as (He & Hi & _).
  apply named_reachable in H as ((Hni & Hne & _) & Ht).
  rewrite He, Hi. split; [|split; [|split; [|split]]].
  - intros inc. apply (proj1 (Forall_forall _ _) Hni).
  - intros e. apply (proj1 (Forall_forall _ _) Hne).
  - intros t. apply (proj1 (Forall_forall _ _) Ht).
  - intros inc Hin. unfold isIncome. apply negb_true_iff, String.eqb_neq.
    now apply (proj1 (Forall_forall _ _) Hni).
  - reflexivity.
Qed.

Lemma names_never_empty_witness :
  exp_name (hd paidRent (expenses (fst w3))) <> ""%string.
Proof.
  refine (proj1 (proj2 (names_never_empty manila "u1" w3 reachable_w3)) _ _).
  vm_compute. left. reflexivity.
Defined.

(** ** The memoised values over a sequence of renders *)

Lemma useMemo_holds {D V : Type} (same : D -> D -> bool) (P : D -> V -> Prop)
  (cell : option (Memo D V)) (f : unit -> V) (deps : D) :
  holds P cell ->
  P deps (f tt) ->
  (forall d v, same d deps = true -> P d v -> P deps v) ->
  P deps (fst (useMemo same cell f deps)) /\
  holds P (snd (useMemo same cell f deps)).
Proof.
  intros Hc Hf Hs. unfold useMemo.
  destruct cell as [m|].
  - destruct (same (memo_deps m) deps) eqn:E; cbn [fst snd].
    + split; [|exact Hc]. apply (Hs (memo_deps m)); [exact E|]. now apply Hc.
    + split; [exact Hf|]. intros m' [= <-]. exact Hf.
  - cbn [fst snd]. split; [exact Hf|]. intros m' [= <-]. exact Hf.
Qed.

Lemma useMemo_cell {D V : Type} (same : D -> D -> bool)
  (cell : option (Memo D V)) (f : unit -> V) (deps : D) :
  exists m, snd (useMemo same cell f deps) = Some m /\
            memo_value m = fst (useMemo same cell f deps) /\
            (cell = Some m \/ memo_value m = f tt).
Proof.
  unfold useMemo. destruct cell as [m|].
  - destruct (same (memo_deps m) deps); cbn [fst snd]; eexists; split; try reflexivity;
      split; try reflexivity; auto.
  - cbn [fst snd]. eexists. split; [reflexivity|]. split; [reflexivity|]. now right.
Qed.

Lemma render_unfold tza h i now :
  render tza h i now =
  let u1 := useMemo same_array (memo_avgMonthlyIncome h)
              (fun _ => avgMonthlyIncome (elems (in_incomes i))) (in_incomes i) in
  let u2 := useMemo same_array (memo_avgMonthlyExpense h)
              (fun _ => avgMonthlyExpense (elems (in_expenses i))) (in_expenses i) in
  let u3 := useMemo same_dues (memo_filteredDues h)
              (fun _ => {| ident := allocated h;
                           elems := filteredDues (elems (in_recurringTemplates i))
                                                 (in_duesFilter i) |})
              (in_recurringTemplates i, in_duesFilter i) in
  let u4 := useMemo same_array (memo_totalMonthlyDues h)
              (fun _ => sum_amounts tpl_amount (elems (fst u3))) (fst u3) in
  let u5 := useMemo same_array (memo_getPaidAmount h)
              (fun _ => getPaidAmount tza (elems (in_expenses i)) now) (in_expenses i) in
  let u6 := useMemo same_report (memo_filteredTransactions h)
              (fun _ => filteredTransactions tza (elems (in_incomes i))
                          (elems (in_expenses i)) (in_reportView i) now)
              (in_incomes i, in_expenses i, in_reportView i) in
  ({| d_avgMonthlyIncome := fst u1;
      d_avgMonthlyExpense := fst u2;
      d_totalMonthlyDues := fst u4;
      d_getPaidAmount := fst u5;
      d_remainingToPay := remainingToPay (fst u4) (fst u5);
      d_paymentProgress := paymentProgress (fst u4) (fst u5);
      d_filteredTransactions := fst u6 |},
   {| memo_avgMonthlyIncome := snd u1;
      memo_avgMonthlyExpense := snd u2;
      memo_filteredDues := snd u3;
      memo_totalMonthlyDues := snd u4;
      memo_getPaidAmount := snd u5;
      memo_filteredTransactions := snd u6;
      allocated := S (allocated h) |}).
Proof.
  unfold render. cbv zeta.
  destruct (useMemo same_array (memo_avgMonthlyIncome h) _ _) as [v1 c1].
  destruct (useMemo same_array (memo_avgMonthlyExpense h) _ _) as [v2 c2].
  destruct (useMemo same_dues (memo_filteredDues h) _ _) as [v3 c3]. cbn [fst snd].
  destruct (useMemo same_array (memo_totalMonthlyDues h) _ _) as [v4 c4].
  destruct (useMemo same_array (memo_getPaidAmount h) _ _) as [v5 c5].
  destruct (useMemo same_report (memo_filteredTransactions h) _ _) as [v6 c6].
  reflexivity.
Qed.

Lemma distinct_in {A} (l : list (array A)) a b :
  distinct_identities l -> In a l -> In b l -> same_array a b = true -> a = b.
Proof. intros H Ha Hb E. apply H; auto. now apply Nat.eqb_eq. Qed.

Lemma in_seen_app {A} (f : Inputs -> A) (seen : list (Inputs * Z)) r x :
  In x (map f (map fst seen)) -> In x (map f (map fst (seen ++ [r]))).
Proof. rewrite !map_app, in_app_iff. auto. Qed.

Lemma in_seen_last {A} (f : Inputs -> A) (seen : list (Inputs * Z)) i now :
  In (f i) (map f (map fst (seen ++ [(i, now)]))).
Proof. rewrite !map_app, in_app_iff. right. now left. Qed.

Lemma computed_at_app {V} seen r same (f : Z -> V) v :
  computed_at seen same f v -> computed_at (seen ++ [r]) same f v.
Proof.
  intros (r0 & Hin & Hs & Hv). exists r0. rewrite in_app_iff. auto.
Qed.

Lemma computed_at_last {V} seen i now (same : Inputs -> Prop) (f : Z -> V) :
  same i -> computed_at (seen ++ [(i, now)]) same f (f now).
Proof.
  intros Hs. exists (i, now). rewrite in_app_iff. split; [right; now left|]. now split.
Qed.

Lemma computed_at_in {A} (g : Inputs -> A) {V} seen d (f : Z -> V) v :
  computed_at seen (fun i => g i = d) f v -> In d (map g (map fst seen)).
Proof.
  intros (r & Hin & <- & _). apply in_map, in_map, Hin.
Qed.

Lemma memo_invariant_mount tza : memo_invariant tza [] mount.
Proof. unfold memo_invariant, holds. cbn. repeat split; congruence. Qed.

(** One render keeps the invariant and shows the values that the invariant
    describes. *)
Lemma memo_invariant_render tza seen h i now :
  memo_invariant tza seen h ->
  coherent (map fst (seen ++ [(i, now)])) ->
  let d := fst (render tza h i now) in
  let seen' := seen ++ [(i, now)] in
  memo_invariant tza seen' (snd (render tza h i now)) /\
  d_avgMonthlyIncome d = avgMonthlyIncome (elems (in_incomes i)) /\
  d_avgMonthlyExpense d = avgMonthlyExpense (elems (in_expenses i)) /\
  d_totalMonthlyDues d =
    totalMonthlyDues (elems (in_recurringTemplates i)) (in_duesFilter i) /\
  computed_at seen' (fun j => in_expenses j = in_expenses i)
              (getPaidAmount tza (elems (in_expenses i))) (d_getPaidAmount d) /\
  computed_at seen'
    (fun j => (in_incomes j, in_expenses j, in_reportView j) =
              (in_incomes i, in_expenses i, in_reportView i))
    (filteredTransactions tza (elems (in_incomes i)) (elems (in_expenses i))
                          (in_reportView i))
    (d_filteredTransactions d) /\
  d_remainingToPay d = remainingToPay (d_totalMonthlyDues d) (d_getPaidAmount d) /\
  d_paymentProgress d = paymentProgress (d_totalMonthlyDues d) (d_getPaidAmount d).
Proof.
  intros (I1 & I2 & I3 & I4 & I5 & I6) (C1 & C2 & C3). cbv zeta.
  rewrite render_unfold. cbv zeta.
  cbn [fst snd d_avgMonthlyIncome d_avgMonthlyExpense d_totalMonthlyDues
       d_getPaidAmount d_filteredTransactions d_remainingToPay d_paymentProgress].
  set (seen' := seen ++ [(i, now)]) in *.
  (* avgMonthlyIncome *)
  destruct (useMemo_holds same_array
    (fun d v => In d (map in_incomes (map fst seen')) /\ v = avgMonthlyIncome (elems d))
    (memo_avgMonthlyIncome h)
    (fun _ => avgMonthlyIncome (elems (in_incomes i))) (in_incomes i))
    as [[_ V1] K1].
  { intros m Hm. destruct (I1 m Hm). split; [now apply in_seen_app|assumption]. }
  { split; [apply in_seen_last|reflexivity]. }
  { intros d v E [Hin Hv]. split; [apply in_seen_last|].
    rewrite <- (distinct_in _ _ _ C1 Hin (in_seen_last _ _ _ _) E). exact Hv. }
  (* avgMonthlyExpense *)
  destruct (useMemo_holds same_array
    (fun d v => In d (map in_expenses (map fst seen')) /\ v = avgMonthlyExpense (elems d))
    (memo_avgMonthlyExpense h)
    (fun _ => avgMonthlyExpense (elems (in_expenses i))) (in_expenses i))
    as [[_ V2] K2].
  { intros m Hm. destruct (I2 m Hm). split; [now apply in_seen_app|assumption]. }
  { split; [apply in_seen_last|reflexivity]. }
  { intros d v E [Hin Hv]. split; [apply in_seen_last|].
    rewrite <- (distinct_in _ _ _ C2 Hin (in_seen_last _ _ _ _) E). exact Hv. }
  (* filteredDues *)
  set (f3 := fun _ : unit => {| ident := allocated h;
                 elems := filteredDues (elems (in_recurringTemplates i)) (in_duesFilter i) |}).
  destruct (useMemo_holds same_dues
    (fun d v => In (fst d) (map in_recurringTemplates (map fst seen')) /\
                elems v = filteredDues (elems (fst d)) (snd d) /\
                (ident v < S (allocated h))%nat)
    (memo_filteredDues h) f3 (in_recurringTemplates i, in_duesFilter i))
    as [(_ & V3 & A3) K3].
  { intros m Hm. destruct (I3 m Hm) as (? & ? & ?).
    split; [now apply in_seen_app|]. split; [assumption|lia]. }
  { cbn. split; [apply in_seen_last|]. split; [reflexivity|lia]. }
  { intros [d1 d2] v E (Hin & Hv & Ha). cbn [fst snd] in *.
    unfold same_dues in E. cbn [fst snd] in E. apply andb_true_iff in E as [E1 E2].
    apply String.eqb_eq in E2. subst d2.
    split; [apply in_seen_last|].
    rewrite <- (distinct_in _ _ _ C3 Hin (in_seen_last _ _ _ _) E1). now split. }
  destruct (useMemo_cell same_dues (memo_filteredDues h) f3
              (in_recurringTemplates i, in_duesFilter i)) as (m3 & S3 & M3 & O3).
  set (u3 := useMemo same_dues (memo_filteredDues h) f3 _) in *.
  cbn [fst snd] in V3.
  (* totalMonthlyDues *)
  destruct (useMemo_holds same_array
    (fun d v => v = sum_amounts tpl_amount (elems d) /\
                (ident d < S (allocated h))%nat /\
                forall m3', snd u3 = Some m3' ->
                  ident d = ident (memo_value m3') -> d = memo_value m3')
    (memo_totalMonthlyDues h)
    (fun _ => sum_amounts tpl_amount (elems (fst u3))) (fst u3))
    as [(V4 & _) K4].
  { intros m Hm. destruct (I4 m Hm) as (Hv & Ha & Hs).
    split; [assumption|]. split; [lia|].
    intros m3' Hm3' Hid. rewrite S3 in Hm3'. injection Hm3' as <-.
    destruct O3 as [O3|O3].
    - now apply Hs.
    - rewrite O3 in Hid. cbn in Hid. lia. }
  { split; [reflexivity|]. split; [exact A3|].
    intros m3' Hm3' _. rewrite S3 in Hm3'. injection Hm3' as <-. now rewrite M3. }
  { intros d v E (Hv & Ha & Hs). apply Nat.eqb_eq in E.
    assert (d = fst u3) as ->.
    { rewrite <- M3. apply Hs; [exact S3|]. now rewrite M3. }
    split; [assumption|]. split; assumption. }
  (* getPaidAmount *)
  destruct (useMemo_holds same_array
    (fun d v => computed_at seen' (fun j => in_expenses j = d)
                            (getPaidAmount tza (elems d)) v)
    (memo_getPaidAmount h)
    (fun _ => getPaidAmount tza (elems (in_expenses i)) now) (in_expenses i))
    as [V5 K5].
  { intros m Hm. apply computed_at_app. now apply I5. }
  { now apply computed_at_last. }
  { intros d v E Hc.
    pose proof (computed_at_in in_expenses _ _ _ _ Hc) as Hin.
    now rewrite <- (distinct_in _ _ _ C2 Hin (in_seen_last _ _ _ _) E). }
  (* filteredTransactions *)
  destruct (useMemo_holds same_report
    (fun d v => computed_at seen'
                  (fun j => (in_incomes j, in_expenses j, in_reportView j) = d)
                  (filteredTransactions tza (elems (fst (fst d)))
                                        (elems (snd (fst d))) (snd d)) v)
    (memo_filteredTransactions h)
    (fun _ => filteredTransactions tza (elems (in_incomes i))
                (elems (in_expenses i)) (in_reportView i) now)
    (in_incomes i, in_expenses i, in_reportView i))
    as [V6 K6].
  { intros m Hm. apply computed_at_app. now apply I6. }
  { now apply (computed_at_last seen i now
                 (fun j => (in_incomes j, in_expenses j, in_reportView j) =
                           (in_incomes i, in_expenses i, in_reportView i))). }
  { intros [[d1 d2] d3] v E Hc.
    unfold same_report in E. cbn [fst snd] in E.
    apply andb_true_iff in E as [E E3]. apply andb_true_iff in E as [E1 E2].
    apply String.eqb_eq in E3. subst d3.
    assert (Hi1 : In d1 (map in_incomes (map fst seen'))).
    { destruct Hc as (r & Hin & Hr & _). injection Hr as <- _ _.
      apply in_map, in_map, Hin. }
    assert (Hi2 : In d2 (map in_expenses (map fst seen'))).
    { destruct Hc as (r & Hin & Hr & _). injection Hr as _ <- _.
      apply in_map, in_map, Hin. }
    rewrite <- (distinct_in _ _ _ C1 Hi1 (in_seen_last _ _ _ _) E1).
    rewrite <- (distinct_in _ _ _ C2 Hi2 (in_seen_last _ _ _ _) E2). exact Hc. }
  cbn [fst snd] in V6.
  split.
  - unfold memo_invariant.
    cbn [memo_avgMonthlyIncome memo_avgMonthlyExpense memo_filteredDues
         memo_totalMonthlyDues memo_getPaidAmount memo_filteredTransactions allocated].
    split; [exact K1|]. split; [exact K2|]. split; [exact K3|].
    split; [exact K4|]. split; [exact K5|exact K6].
  - split; [exact V1|]. split; [exact V2|]. split.
    + rewrite V4. unfold totalMonthlyDues. now rewrite V3.
    + split; [exact V5|]. split; [exact V6|]. split; reflexivity.
Qed.

Lemma distinct_identities_app {A} (l l' : list (array A)) :
  distinct_identities (l ++ l') -> distinct_identities l.
Proof. intros H a b Ha Hb. apply H; rewrite in_app_iff; auto. Qed.

Lemma coherent_app l l' : coherent (l ++ l') -> coherent l.
Proof.
  unfold coherent. rewrite !map_app. intros (H1 & H2 & H3).
  repeat split; eapply distinct_identities_app; eassumption.
Qed.

Lemma rendered_app tza past i now :
  rendered tza (past ++ [(i, now)]) = snd (render tza (rendered tza past) i now).
Proof. unfold rendered. now rewrite fold_left_app. Qed.

Lemma memo_invariant_rendered tza past :
  coherent (map fst past) -> memo_invariant tza past (rendered tza past).
Proof.
  induction past as [|[i now] past IH] using rev_ind; intros H.
  - apply memo_invariant_mount.
  - rewrite rendered_app.
    apply (memo_invariant_render tza past (rendered tza past) i now); [|exact H].
    apply IH. rewrite map_app in H. now apply coherent_app in H.
Qed.

Lemma getPaidAmount_label tza expenses t now :
  formatMonthYear tza t = formatMonthYear tza now ->
  getPaidAmount tza expenses t = getPaidAmount tza expenses now.
Proof. intros H. unfold getPaidAmount, paidExpenses. now rewrite H. Qed.



(** X24.  After any sequence of renders in which arrays of the same
    identity are the same array, a render shows the averages and the total
    dues of the state it sees; the paid amount and the report are the ones
    of this state at the time of one of the renders, this one or an
    earlier one, that saw the same expenses (for the report: the same
    incomes, expenses and period); remaining and progress are computed
    from the total and the paid amount that are shown.  When all renders
    fall in the calendar month of [now], the paid amount is the one of
    [now]. *)
Theorem render_history (tza : Z) (past : list (Inputs * Z)) (i : Inputs) (now : Z) :
  coherent (map fst (past ++ [(i, now)])) ->
  let d := fst (render tza (rendered tza past) i now) in
  let seen := past ++ [(i, now)] in
  d_avgMonthlyIncome d = avgMonthlyIncome (elems (in_incomes i)) /\
  d_avgMonthlyExpense d = avgMonthlyExpense (elems (in_expenses i)) /\
  d_totalMonthlyDues d =
    totalMonthlyDues (elems (in_recurringTemplates i)) (in_duesFilter i) /\
  (exists r, In r seen /\ in_expenses (fst r) = in_expenses i /\
             d_getPaidAmount d = getPaidAmount tza (elems (in_expenses i)) (snd r)) /\
  (exists r, In r seen /\
             (in_incomes (fst r), in_expenses (fst r), in_reportView (fst r)) =
             (in_incomes i, in_expenses i, in_reportView i) /\
             d_filteredTransactions d =
             filteredTransactions tza (elems (in_incomes i)) (elems (in_expenses i))
                                  (in_reportView i) (snd r)) /\
  d_remainingToPay d = remainingToPay (d_totalMonthlyDues d) (d_getPaidAmount d) /\
  d_paymentProgress d = paymentProgress (d_totalMonthlyDues d) (d_getPaidAmount d) /\
  ((forall r, In r seen -> formatMonthYear tza (snd r) = formatMonthYear tza now) ->
   d_getPaidAmount d = getPaidAmount tza (elems (in_expenses i)) now).
Proof.
  intros H. cbv zeta.
  assert (Hp : coherent (map fst past)).
  { rewrite map_app in H. now apply coherent_app in H. }
  destruct (memo_invariant_render tza past (rendered tza past) i now
              (memo_invariant_rendered tza past Hp) H)
    as (_ & V1 & V2 & V3 & V4 & V5 & V6 & V7).
  split; [exact V1|]. split; [exact V2|]. split; [exact V3|].
  split; [exact V4|]. split; [exact V5|]. split; [exact V6|]. split; [exact V7|].
  intros Hm. destruct V4 as (r & Hin & _ & ->).
  apply getPaidAmount_label. now apply Hm.
Qed.

Lemma render_history_witness :
  d_totalMonthlyDues
    (fst (render manila (rendered manila [(octoberInputs, beforeMidnight)])
                 octoberInputs afterMidnight)) =
    totalMonthlyDues [rent] "Monthly" /\
  d_getPaidAmount
    (fst (render manila (rendered manila [(octoberInputs, midOctober)])
                 octoberInputs beforeMidnight)) =
    getPaidAmount manila [paidOctober] beforeMidnight.
Proof.
  assert (C : forall t t' : Z, coherent (map fst ([(octoberInputs, t)] ++ [(octoberInputs, t')]))).
  { intros t t'. unfold coherent, distinct_identities. cbn.
    repeat split; intros a b [<-|[<-|[]]] [<-|[<-|[]]] _; reflexivity. }
  split.
  - exact (proj1 (proj2 (proj2
             (render_history manila [(octoberInputs, beforeMidnight)]
                             octoberInputs afterMidnight (C _ _))))).
  - refine (proj2 (proj2 (proj2 (proj2 (proj2 (proj2 (proj2
             (render_history manila [(octoberInputs, midOctober)]
                             octoberInputs beforeMidnight (C _ _)))))))) _).
    intros r [<-|[<-|[]]]; vm_compute; reflexivity.
Defined.

(** ** Averages without rounding *)

Lemma rne_comp x y : (x == y)%Q -> rne x = rne y.
Proof.
  intros E. unfold rne. rewrite (Qfloor_comp _ _ E).
  assert (E' : (x - inject_Z (Qfloor y) == y - inject_Z (Qfloor y))%Q) by (rewrite E; reflexivity).
  now rewrite E'.
Qed.

Lemma rne_Z m : rne (inject_Z m) = m.
Proof.
  unfold rne. rewrite Qfloor_Z.
  assert (E : (inject_Z m - inject_Z m == 0)%Q) by ring.
  rewrite E. reflexivity.
Qed.

Lemma exponent_le x a b :
  (2 ^ a <= Qabs x)%Q -> (Qabs x < 2 ^ (b + 1))%Q -> a <= b.
Proof.
  intros Ha Hb. destruct (Z_le_gt_dec a b) as [|G]; [assumption|].
  exfalso. assert (P : (2 ^ (b + 1) <= 2 ^ a)%Q).
  { apply Qpower_le_compat_l; [lia|discriminate]. }
  lra.
Qed.

Lemma ilog2_unique x e :
  ~ (x == 0)%Q -> (2 ^ e <= Qabs x)%Q -> (Qabs x < 2 ^ (e + 1))%Q -> ilog2 x = e.
Proof.
  intros Hx L U. destruct (ilog2_spec x Hx) as [L' U'].
  pose proof (exponent_le _ _ _ L U'). pose proof (exponent_le _ _ _ L' U). lia.
Qed.

Lemma quantum_comp x y : ~ (y == 0)%Q -> (x == y)%Q -> quantum x = quantum y.
Proof.
  intros NZ E. unfold quantum. f_equal. f_equal. f_equal.
  assert (NX : ~ (x == 0)%Q) by (rewrite E; exact NZ).
  destruct (ilog2_spec y NZ) as [L U].
  apply ilog2_unique; [exact NX| |]; rewrite E; assumption.
Qed.

Lemma Qeq_bool_comp x y z : (x == y)%Q -> Qeq_bool x z = Qeq_bool y z.
Proof.
  intros E. destruct (Qeq_bool y z) eqn:C.
  - apply Qeq_bool_iff in C. apply Qeq_bool_iff. now rewrite E.
  - destruct (Qeq_bool x z) eqn:C'; [|reflexivity].
    apply Qeq_bool_iff in C'. rewrite E in C'. apply Qeq_bool_iff in C'. congruence.
Qed.

Lemma Qle_bool_comp x y z : (x == y)%Q -> Qle_bool z x = Qle_bool z y.
Proof.
  intros E. destruct (Qle_bool z y) eqn:C.
  - apply Qle_bool_iff in C. apply Qle_bool_iff. now rewrite E.
  - destruct (Qle_bool z x) eqn:C'; [|reflexivity].
    apply Qle_bool_iff in C'. rewrite E in C'. apply Qle_bool_iff in C'. congruence.
Qed.

(** Rounding does not depend on how the real is written. *)
Lemma nearest_comp x y : (x == y)%Q -> nearest x = nearest y.
Proof.
  intros E. unfold nearest. rewrite (Qeq_bool_comp x y 0 E).
  destruct (Qeq_bool y 0) eqn:C; [reflexivity|].
  assert (NZ : ~ (y == 0)%Q).
  { intros H. apply Qeq_bool_iff in H. congruence. }
  rewrite (quantum_comp x y NZ E).
  assert (E' : (x / quantum y == y / quantum y)%Q) by (rewrite E; reflexivity).
  now rewrite (rne_comp _ _ E').
Qed.

Lemma round64_comp x y : (x == y)%Q -> round64 x = round64 y.
Proof.
  intros E. unfold round64. rewrite (nearest_comp x y E).
  now rewrite (Qle_bool_comp x y 0 E).
Qed.

(** A double is left as it is. *)
Lemma nearest_double x : is_double x -> nearest x = Qred x.
Proof.
  intros [[m Hm] _]. unfold nearest.
  destruct (Qeq_bool x 0) eqn:C.
  - apply Qeq_bool_iff in C. symmetry. exact (Qred_complete x 0 C).
  - apply Qred_complete. pose proof (quantum_pos x) as Hq.
    assert (E : (x / quantum x == inject_Z m)%Q).
    { rewrite Hm at 1. field. lra. }
    rewrite (rne_comp _ _ E), rne_Z. symmetry. exact Hm.
Qed.

Lemma round64_double x : is_double x -> round64 x = Finite (Qred x).
Proof.
  intros H. unfold round64. rewrite (nearest_double x H).
  destruct H as [_ H].
  destruct (Qle_bool (2 ^ 1024) (Qabs (Qred x))) eqn:C; [|reflexivity].
  exfalso. apply Qle_bool_iff in C. rewrite Qred_correct in C. lra.
Qed.

(** The integers below 2 ^ 53 are doubles. *)
Lemma is_double_Z n : Z.abs n < 2 ^ 53 -> is_double (inject_Z n).
Proof.
  intros Hn.
  assert (A : (Qabs (inject_Z n) == inject_Z (Z.abs n))%Q) by reflexivity.
  assert (P53 : (inject_Z (2 ^ 53) == 2 ^ 53)%Q) by (apply Zpower_Qpower; lia).
  assert (U : (Qabs (inject_Z n) < 2 ^ (52 + 1))%Q).
  { rewrite A. change (52 + 1) with 53. rewrite <- P53. now rewrite <- Zlt_Qlt. }
  split.
  - destruct (Z.eq_dec n 0) as [->|NZ].
    + exists 0. change (inject_Z 0) with 0%Q. ring.
    + assert (NQ : ~ (inject_Z n == 0)%Q).
      { intros H. unfold Qeq in H. cbn in H. lia. }
      destruct (ilog2_spec _ NQ) as [L U'].
      set (e := ilog2 (inject_Z n)) in *.
      assert (He : e <= 52) by (eapply exponent_le; eassumption).
      assert (He0 : 0 <= e).
      { apply (exponent_le (inject_Z n) 0 e); [|exact U'].
        rewrite A. change (2 ^ 0)%Q with (inject_Z 1). rewrite <- Zle_Qle. lia. }
      unfold quantum. fold e. rewrite Z.max_l by lia.
      exists (n * 2 ^ (52 - e)).
      rewrite inject_Z_mult, Zpower_Qpower by lia.
      change (inject_Z 2) with 2%Q.
      assert (E : (2 ^ (52 - e) * 2 ^ (e - 52) == 1)%Q).
      { rewrite <- Qpower_plus by discriminate.
        replace (52 - e + (e - 52)) with 0 by lia. reflexivity. }
      rewrite <- Qmult_assoc, E. ring.
  - assert (P : (2 ^ (52 + 1) <= 2 ^ 1024)%Q).
    { apply Qpower_le_compat_l; [lia|discriminate]. }
    lra.
Qed.

Lemma sum_of_app {A} (amount : A -> Q) l l' :
  (sum_of amount (l ++ l') == sum_of amount l + sum_of amount l')%Q.
Proof.
  induction l as [|x l IH]; cbn [sum_of app].
  - ring.
  - rewrite IH. ring.
Qed.

Lemma sum_of_whole {A} (amount : A -> Q) l :
  Forall (fun x => whole (amount x)) l ->
  exists N : Z, (sum_of amount l == inject_Z N)%Q.
Proof.
  induction 1 as [|x l Hx _ [N IH]]; cbn [sum_of].
  - exists 0. reflexivity.
  - exists (Qfloor (amount x) + N). unfold whole in Hx.
    rewrite inject_Z_plus, <- IH, <- Hx. reflexivity.
Qed.

Lemma sum_of_abs {A} (amount : A -> Q) l :
  (Qabs (sum_of amount l) <= sum_of (fun x => Qabs (amount x)) l)%Q.
Proof.
  induction l as [|x l IH]; cbn [sum_of].
  - discriminate.
  - pose proof (Qabs_triangle (amount x) (sum_of amount l)). lra.
Qed.

Lemma sum_of_abs_nonneg {A} (amount : A -> Q) l :
  (0 <= sum_of (fun x => Qabs (amount x)) l)%Q.
Proof.
  induction l as [|x l IH]; cbn [sum_of].
  - discriminate.
  - pose proof (Qabs_nonneg (amount x)). lra.
Qed.

Lemma round64_whole (x : Q) (N : Z) :
  (x == inject_Z N)%Q -> (Qabs x < 2 ^ 53)%Q -> round64 x = Finite (Qred x).
Proof.
  intros E B.
  assert (HN : Z.abs N < 2 ^ 53).
  { rewrite E in B. change (Qabs (inject_Z N)) with (inject_Z (Z.abs N)) in B.
    assert (P53 : (inject_Z (2 ^ 53) == 2 ^ 53)%Q) by (apply Zpower_Qpower; lia).
    rewrite <- P53 in B. now rewrite <- Zlt_Qlt in B. }
  rewrite (round64_comp _ _ E), (round64_double _ (is_double_Z N HN)).
  f_equal. apply Qred_complete. now symmetry.
Qed.

(** The sum of whole amounts is exact. *)
Lemma reduce_amounts_whole {A} (amount : A -> Q) l :
  Forall (fun x => whole (amount x)) l ->
  (sum_of (fun x => Qabs (amount x)) l < 2 ^ 53)%Q ->
  reduce_amounts amount l = Finite (Qred (sum_of amount l)).
Proof.
  unfold reduce_amounts.
  induction l as [|x l IH] using rev_ind; intros Hw Hb.
  - reflexivity.
  - rewrite fold_left_app. cbn [fold_left].
    apply Forall_app in Hw as [Hl Hx].
    pose proof (sum_of_app (fun x => Qabs (amount x)) l [x]) as Ea.
    pose proof (sum_of_abs_nonneg amount [x]) as Nx.
    pose proof (sum_of_abs_nonneg amount l) as Nl.
    rewrite IH; [|exact Hl|lra].
    cbn [Number_add].
    assert (Hall : Forall (fun x => whole (amount x)) (l ++ [x])).
    { apply Forall_app. now split. }
    destruct (sum_of_whole amount (l ++ [x]) Hall) as [N HN].
    assert (E : (Qred (sum_of amount l) + amount x == sum_of amount (l ++ [x]))%Q).
    { rewrite Qred_correct, sum_of_app. cbn [sum_of]. ring. }
    rewrite (round64_comp _ _ E).
    apply (round64_whole _ N HN).
    pose proof (sum_of_abs amount (l ++ [x])). lra.
Qed.

Lemma avg_whole {A} (amount : A -> Q) l :
  Forall (fun x => whole (amount x)) l ->
  (sum_of (fun x => Qabs (amount x)) l < 2 ^ 53)%Q ->
  (if Nat.eqb (List.length l) 0 then Finite 0
   else Number_divide (reduce_amounts amount l) (Finite (max1_length l))) =
  round64 (sum_of amount l / max1_length l).
Proof.
  intros Hw Hb. destruct l as [|x0 l0] eqn:El.
  - vm_compute. reflexivity.
  - rewrite <- El in *. assert (Hl : l <> []) by (rewrite El; discriminate).
    replace (Nat.eqb (List.length l) 0) with false by (rewrite El; reflexivity).
    rewrite (reduce_amounts_whole amount l Hw Hb).
    cbn [Number_divide].
    pose proof (count_ge_1 l Hl) as Hn. rewrite <- (max1_length_count l Hl) in Hn.
    assert (Hn0 : Qeq_bool (max1_length l) 0 = false).
    { destruct (Qeq_bool (max1_length l) 0) eqn:C; [|reflexivity].
      apply Qeq_bool_iff in C. lra. }
    rewrite Hn0. apply round64_comp. now rewrite Qred_correct.
Qed.

(** X25.  When all amounts are whole numbers and the sum of their
    absolute values is below 2^53, no addition rounds: the sum of the
    source is the exact sum of the amounts, and the average is the double
    nearest to the exact quotient of that sum by max(1, count).  This holds
    for the incomes and for the expenses. *)
Theorem average_of_whole_amounts (incomes : list Income) (expenses : list Expense) :
  (Forall (fun inc : Income => whole (inc_amount inc)) incomes ->
   (sum_of (fun inc : Income => Qabs (inc_amount inc)) incomes < 2 ^ 53)%Q ->
   reduce_amounts (fun inc : Income => inc_amount inc) incomes =
     Finite (Qred (sum_of (fun inc : Income => inc_amount inc) incomes)) /\
   avgMonthlyIncome incomes =
     round64 (sum_of (fun inc : Income => inc_amount inc) incomes /
              max1_length incomes)) /\
  (Forall (fun exp : Expense => whole (exp_amount exp)) expenses ->
   (sum_of (fun exp : Expense => Qabs (exp_amount exp)) expenses < 2 ^ 53)%Q ->
   reduce_amounts (fun exp : Expense => exp_amount exp) expenses =
     Finite (Qred (sum_of (fun exp : Expense => exp_amount exp) expenses)) /\
   avgMonthlyExpense expenses =
     round64 (sum_of (fun exp : Expense => exp_amount exp) expenses /
              max1_length expenses)).
Proof.
  split; intros Hw Hb; (split; [now apply reduce_amounts_whole|now apply avg_whole]).
Qed.

Lemma average_of_whole_amounts_witness :
  avgMonthlyIncome [incomeNov03; incomeNov30] = Finite 1000 /\
  avgMonthlyExpense [paidRent; paidTwice] = Finite 750.
Proof.
  split.
  - refine (eq_trans (proj2 (proj1
              (average_of_whole_amounts [incomeNov03; incomeNov30] []) _ _)) _).
    + repeat constructor.
    + vm_compute. reflexivity.
    + vm_compute. reflexivity.
  - refine (eq_trans (proj2 (proj2
              (average_of_whole_amounts [] [paidRent; paidTwice]) _ _)) _).
    + repeat constructor.
    + vm_compute. reflexivity.
    + vm_compute. reflexivity.
Defined.

Lemma avg_one {A} (amount : A -> Q) (x : A) :
  is_double (amount x) ->
  Number_divide (reduce_amounts amount [x]) (Finite (max1_length [x])) =
  Finite (Qred (amount x)).
Proof.
  intros H. unfold reduce_amounts. cbn [fold_left Number_add].
  assert (E : (0 + amount x == amount x)%Q) by ring.
  rewrite (round64_comp _ _ E), (round64_double _ H).
  cbn [Number_divide]. change (Qeq_bool (max1_length [x]) 0) with false. cbv iota.
  assert (E1 : (Qred (amount x) / max1_length [x] == amount x)%Q).
  { rewrite Qred_correct. change (max1_length [x]) with 1%Q. field. }
  now rewrite (round64_comp _ _ E1), (round64_double _ H).
Qed.

(** X26.  The average of a single record whose amount is a double is that
    amount. *)
Theorem average_of_one (inc : Income) (exp : Expense) :
  (is_double (inc_amount inc) ->
   avgMonthlyIncome [inc] = Finite (Qred (inc_amount inc))) /\
  (is_double (exp_amount exp) ->
   avgMonthlyExpense [exp] = Finite (Qred (exp_amount exp))).
Proof.
  split; intros H.
  - exact (avg_one (fun inc : Income => inc_amount inc) inc H).
  - exact (avg_one (fun exp : Expense => exp_amount exp) exp H).
Qed.

Lemma average_of_one_witness :
  avgMonthlyIncome [incomeOf "i3" tenth] = Finite tenth /\
  avgMonthlyExpense [paidRent] = Finite 500.
Proof.
  split.
  - refine (proj1 (average_of_one (incomeOf "i3" tenth) paidRent) _).
    split; [exists 7205759403792794|]; vm_compute; reflexivity.
  - refine (proj2 (average_of_one (incomeOf "i3" tenth) paidRent) _).
    split; [exists 8796093022208000|]; vm_compute; reflexivity.
Defined.
